(** * Tatum SDK: key resolution, signing, transaction building and dispatch

    A shallow embedding of the Flow transaction service, the XRP KMS signer
    and the EVM custodial-wallet services of the SDK, together with the
    JavaScript built-ins and the [bignumber.js] operations those functions
    call on their inputs.

    Layout:
    - [JS]: strings, IEEE-754 doubles, [parseFloat], [parseInt],
      [Number.prototype.toFixed], [Number::toString], dynamic values and
      objects;
    - [BigNumber]: the decimal arithmetic used by the custodial services;
    - [Eff]: a free monad of awaited collaborator calls over a store of
      objects and [process.env], with [try]/[catch]/[finally];
    - [Xrp], [Flow], [Custodial]: the functions of the SDK;
    - the properties of these functions. *)

From Stdlib Require Import ZArith String Ascii Strings.Byte List Lia.
From Stdlib Require Import Floats.SpecFloat.
From Stdlib Require DecimalString HexadecimalString.
From Stdlib Require DecimalN DecimalPos.
From stdpp Require Import base option gmap strings.

Local Open Scope string_scope.
Local Open Scope Z_scope.

(* ===================================================================== *)
(** * JavaScript built-ins *)
(* ===================================================================== *)

Module JS.

(** ** Strings

    A JavaScript string is a sequence of UTF-16 code units. The strings
    handled here are modelled as sequences of code units below 256
    (Latin-1), which is what [Ascii.ascii] holds. *)

Definition code (c : ascii) : Z := Z.of_N (N_of_ascii c).

(** WhiteSpace and LineTerminator code points in that range: TAB, LF, VT,
    FF, CR, SP and NBSP. *)
Definition isWhiteSpace (c : ascii) : bool :=
  let n := code c in
  ((9 <=? n) && (n <=? 13)) || (n =? 32) || (n =? 160).

Fixpoint trimStart (s : string) : string :=
  match s with
  | String c s' => if isWhiteSpace c then trimStart s' else s
  | EmptyString => EmptyString
  end.

Fixpoint rev_string (s acc : string) : string :=
  match s with
  | String c s' => rev_string s' (String c acc)
  | EmptyString => acc
  end.

Definition trimEnd (s : string) : string :=
  rev_string (trimStart (rev_string s "")) "".

(** [String.prototype.trim]. *)
Definition trim (s : string) : string := trimEnd (trimStart s).

Definition isDigit (c : ascii) : bool :=
  let n := code c in (48 <=? n) && (n <=? 57).

Definition digitVal (c : ascii) : Z := code c - 48.

(** Value of a hexadecimal digit, if [c] is one. *)
Definition hexVal (c : ascii) : option Z :=
  let n := code c in
  if (48 <=? n) && (n <=? 57) then Some (n - 48)
  else if (97 <=? n) && (n <=? 102) then Some (n - 87)
  else if (65 <=? n) && (n <=? 70) then Some (n - 55)
  else None.

(** Longest run of decimal digits at the head of [s]: the value read so far
    (continuing [acc]), the number of digits read (continuing [cnt]) and the
    rest of the string. *)
Fixpoint readDigits (s : string) (acc cnt : Z) : Z * Z * string :=
  match s with
  | String c s' =>
      if isDigit c then readDigits s' (10 * acc + digitVal c) (cnt + 1)
      else (acc, cnt, s)
  | EmptyString => (acc, cnt, s)
  end.

(** The same for the digits of a radix up to 16. *)
Fixpoint readRadixDigits (radix : Z) (s : string) (acc cnt : Z) : Z * Z * string :=
  match s with
  | String c s' =>
      match hexVal c with
      | Some d =>
          if d <? radix then readRadixDigits radix s' (radix * acc + d) (cnt + 1)
          else (acc, cnt, s)
      | None => (acc, cnt, s)
      end
  | EmptyString => (acc, cnt, s)
  end.

(** Decimal digits of a natural number, ["0"] for zero. *)
Definition decimalDigits (n : Z) : string :=
  DecimalString.NilZero.string_of_uint (N.to_uint (Z.to_N n)).

(** Lower-case hexadecimal digits of a natural number, ["0"] for zero. *)
Definition hexDigits (n : Z) : string :=
  HexadecimalString.NilZero.string_of_uint (N.to_hex_uint (Z.to_N n)).

Definition strlen (s : string) : Z := Z.of_nat (String.length s).

Fixpoint repeat_char (c : ascii) (n : nat) : string :=
  match n with
  | O => EmptyString
  | S n' => String c (repeat_char c n')
  end.

Definition zeros (n : Z) : string := repeat_char "0"%char (Z.to_nat n).

Definition take (n : Z) (s : string) : string := String.substring 0 (Z.to_nat n) s.

Definition drop (n : Z) (s : string) : string :=
  String.substring (Z.to_nat n) (String.length s - Z.to_nat n) s.

(** ** Numbers: IEEE-754 binary64 *)

Definition number : Type := spec_float.

Definition prec : Z := 53.
Definition emax : Z := 1024.

(** The exponent of the subnormal numbers. *)
Definition emin : Z := 3 - emax - prec.

Definition NaN : number := S754_nan.

(** [n/d * 2^(-k)] as a fraction. *)
Definition scaled (n d k : Z) : Z * Z :=
  if 0 <=? k then (n, d * 2 ^ k) else (n * 2 ^ (- k), d).

(** The integer nearest to [n/d], the even one of two. *)
Definition nearestEven (n d : Z) : Z :=
  let q := n / d in
  let r := n mod d in
  if (d <? 2 * r) || ((2 * r =? d) && Z.odd q) then q + 1 else q.

(** [floor(log2(n/d))], for positive [n] and [d]. *)
Definition log2Ratio (n d : Z) : Z :=
  let l := Z.log2 n - Z.log2 d in
  let '(n', d') := scaled n d l in
  if d' <=? n' then l else l - 1.

(** The Number value of the fraction [n/d] (negated when [neg]): the
    double nearest to it, the one with an even significand of two, an
    infinity from [2^1024 - 2^970] on. The significand has 53 bits at the
    exponent of the fraction, fewer at the exponent of the subnormals. *)
Definition roundFraction (neg : bool) (n d : Z) : number :=
  if (n <=? 0) || (d <=? 0) then S754_zero neg
  else
    let e := Z.max (log2Ratio n d - (prec - 1)) emin in
    let '(n', d') := scaled n d e in
    let m := nearestEven n' d' in
    let '(m, e) := if m =? 2 ^ prec then (2 ^ (prec - 1), e + 1) else (m, e) in
    match m with
    | Zpos p => if e <=? emax - prec then S754_finite neg p e else S754_infinity neg
    | _ => S754_zero neg
    end.

(** The Number value of the real [m * 10^e10] (negated when [neg]), for
    [m >= 0]. *)
Definition of_decimal (neg : bool) (m e10 : Z) : number :=
  if m <=? 0 then S754_zero neg
  else if 0 <=? e10 then roundFraction neg (m * 10 ^ e10) 1
  else roundFraction neg m (10 ^ (- e10)).

(** The Number value of an integer. *)
Definition of_Z (z : Z) : number := of_decimal (z <? 0) (Z.abs z) 0.

(** An optional sign at the head of [s]: [-], and [+] where [plus] allows
    one. *)
Definition readSign (plus : bool) (s : string) : bool * string :=
  match s with
  | String c r =>
      if code c =? 45 then (true, r)
      else if plus && (code c =? 43) then (false, r)
      else (false, s)
  | EmptyString => (false, s)
  end.

Definition isExponentIndicator (c : ascii) : bool :=
  let n := code c in (n =? 101) || (n =? 69).

(** ExponentPart, when one is present and well formed; otherwise nothing is
    consumed. *)
Definition readExponent (s : string) : Z * string :=
  match s with
  | String c s1 =>
      if isExponentIndicator c then
        let '(sgn, s2) := readSign true s1 in
        let '(v, n, s3) := readDigits s2 0 0 in
        if n =? 0 then (0, s) else (cond_Zopp sgn v, s3)
      else (0, s)
  | EmptyString => (0, s)
  end.

(** Decimal notation at the head of [s]: digits with an optional point and
    optional further digits, or a point and digits, and then an exponent
    part if there is one. The result is the coefficient [c] and the
    exponent [e] of the value [c * 10^e], and what follows. *)
Definition scanDecimal (s : string) : option (Z * Z * string) :=
  let '(i, ni, s1) := readDigits s 0 0 in
  let mantissa :=
    match s1 with
    | String c s2 =>
        if code c =? 46 then
          let '(f, nf, s3) := readDigits s2 i 0 in
          if (ni =? 0) && (nf =? 0) then None else Some (f, nf, s3)
        else if ni =? 0 then None else Some (i, 0, s1)
    | EmptyString => if ni =? 0 then None else Some (i, 0, s1)
    end in
  match mantissa with
  | Some (c, nf, s3) => let '(e, s4) := readExponent s3 in Some (c, e - nf, s4)
  | None => None
  end.

(** The value of the longest prefix of [s] that is a
    StrUnsignedDecimalLiteral, with what follows it; [NaN] when there is no
    such prefix. A literal with more than 20 significant digits is rounded
    from its exact value, as V8 does. *)
Definition StrUnsignedDecimalLiteral (neg : bool) (s : string) : number * string :=
  if String.prefix "Infinity" s then (S754_infinity neg, drop 8 s)
  else
    match scanDecimal s with
    | Some (c, e, rest) => (of_decimal neg c e, rest)
    | None => (NaN, s)
    end.

(** StrDecimalLiteral: an optional sign before the unsigned literal. *)
Definition StrDecimalLiteral (s : string) : number * string :=
  let '(neg, s0) := readSign true s in StrUnsignedDecimalLiteral neg s0.

(** [parseFloat] applied to a string. *)
Definition parseFloat (s : string) : number := fst (StrDecimalLiteral (trimStart s)).

(** The radix of a NonDecimalIntegerLiteral prefix [0x], [0o] or [0b]. *)
Definition radixPrefix (s : string) : option (Z * string) :=
  match s with
  | String "0"%char (String x r) =>
      let n := code x in
      if (n =? 120) || (n =? 88) then Some (16, r)
      else if (n =? 111) || (n =? 79) then Some (8, r)
      else if (n =? 98) || (n =? 66) then Some (2, r)
      else None
  | _ => None
  end.

(** StringToNumber: the whole string, trimmed, must be a numeric literal. *)
Definition StringToNumber (s : string) : number :=
  let t := trim s in
  if String.eqb t "" then S754_zero false
  else
    match radixPrefix t with
    | Some (radix, r) =>
        let '(v, n, rest) := readRadixDigits radix r 0 0 in
        if (n =? 0) || negb (String.eqb rest "") then NaN else of_decimal false v 0
    | None =>
        let '(v, rest) := StrDecimalLiteral t in
        if String.eqb rest "" then v else NaN
    end.

(** [parseInt] applied to a string, with no radix argument. *)
Definition parseInt (s : string) : number :=
  let '(neg, s1) := readSign true (trimStart s) in
  let '(v, n, _) :=
    match s1 with
    | String "0"%char (String x r) =>
        if (code x =? 120) || (code x =? 88) then readRadixDigits 16 r 0 0
        else readDigits s1 0 0
    | _ => readDigits s1 0 0
    end in
  if n =? 0 then NaN else of_decimal neg v 0.

(** *** Number::toString *)

(** The exact value of a positive finite double [m * 2^e] as a fraction. *)
Definition fraction (m : positive) (e : Z) : Z * Z :=
  if 0 <=? e then (Zpos m * 2 ^ e, 1) else (Zpos m, 2 ^ (- e)).

(** The integer [n] with [10^(n-1) <= vn/vd < 10^n]. *)
Definition decimalExponent (vn vd : Z) : Z :=
  if vd <=? vn then strlen (decimalDigits (vn / vd))
  else 1 - strlen (decimalDigits (vd / vn)).

(** For [k] digits: the [s] nearest to [v / 10^(n-k)] among its floor and
    ceiling for which [s * 10^(n-k)] has Number value [x]. *)
Definition shortestAt (x : number) (vn vd n k : Z) : option Z :=
  let sc := n - k in
  let '(tn, td) := if 0 <=? sc then (vn, vd * 10 ^ sc) else (vn * 10 ^ (- sc), vd) in
  let s1 := tn / td in
  let r := tn mod td in
  let ok s := SFeqb (of_decimal false s sc) x in
  let lower_is_nearer :=
    (2 * r <? td) || ((2 * r =? td) && Z.even s1) in
  match ok s1, ok (s1 + 1) with
  | true, true => Some (if lower_is_nearer then s1 else s1 + 1)
  | true, false => Some s1
  | false, true => Some (s1 + 1)
  | false, false => None
  end.

Fixpoint shortestFrom (x : number) (vn vd n k : Z) (fuel : nat) : Z * Z :=
  match fuel with
  | O => (k, 0)
  | S fuel' =>
      match shortestAt x vn vd n k with
      | Some s => (k, s)
      | None => shortestFrom x vn vd n (k + 1) fuel'
      end
  end.

(** The digits [s], their number [k] and the exponent [n] of Number::toString:
    [k] is as small as possible with [s * 10^(n-k)] of Number value [x].
    Seventeen digits always suffice for a double. *)
Definition shortestDigits (m : positive) (e : Z) : Z * Z * Z :=
  let '(vn, vd) := fraction m e in
  let n := decimalExponent vn vd in
  let '(k, s) := shortestFrom (S754_finite false m e) vn vd n 1 17 in
  if s =? 10 ^ k then (n + 1, 1, 1) else (n, k, s).

Definition exponentSuffix (n : Z) : string :=
  "e" ++ (if 0 <? n - 1 then "+" else "-") ++ decimalDigits (Z.abs (n - 1)).

Definition formatDigits (n k : Z) (digits : string) : string :=
  if (k <=? n) && (n <=? 21) then digits ++ zeros (n - k)
  else if (0 <? n) && (n <=? 21) then take n digits ++ "." ++ drop n digits
  else if (-6 <? n) && (n <=? 0) then "0." ++ zeros (- n) ++ digits
  else if k =? 1 then digits ++ exponentSuffix n
  else take 1 digits ++ "." ++ drop 1 digits ++ exponentSuffix n.

Definition Number_toString (x : number) : string :=
  match x with
  | S754_nan => "NaN"
  | S754_zero _ => "0"
  | S754_infinity s => if s then "-Infinity" else "Infinity"
  | S754_finite s m e =>
      let '(n, k, d) := shortestDigits m e in
      (if s then "-" else "") ++ formatDigits n k (decimalDigits d)
  end.

(** *** Number.prototype.toFixed *)

(** The digits of [n] with a decimal point before the last [f] of them. *)
Definition fixedPoint (n f : Z) : string :=
  let m := decimalDigits n in
  if f =? 0 then m
  else
    let k := strlen m in
    let m' := if k <=? f then zeros (f + 1 - k) ++ m else m in
    let k' := if k <=? f then f + 1 else k in
    take (k' - f) m' ++ "." ++ drop (k' - f) m'.

(** The integer [n] for which [n / 10^f - m * 2^e] is as close to zero as
    possible, the larger one when there are two. *)
Definition nearestScaled (m : positive) (e f : Z) : Z :=
  if 0 <=? e then Zpos m * 2 ^ e * 10 ^ f
  else (2 * Zpos m * 10 ^ f + 2 ^ (- e)) / (2 * 2 ^ (- e)).

Definition atLeast1e21 (m : positive) (e : Z) : bool :=
  let '(vn, vd) := fraction m e in 10 ^ 21 * vd <=? vn.

(** [x.toFixed(f)] for [0 <= f <= 100]. *)
Definition toFixed (x : number) (f : Z) : string :=
  match x with
  | S754_nan | S754_infinity _ => Number_toString x
  | S754_zero _ => fixedPoint 0 f
  | S754_finite s m e =>
      (if s then "-" else "") ++
      (if atLeast1e21 m e then Number_toString (S754_finite false m e)
       else fixedPoint (nearestScaled m e f) f)
  end.

(** ** Dynamic values and objects *)

Inductive JsVal : Type :=
| JsUndefined
| JsNull
| JsBool (b : bool)
| JsNumber (x : number)
| JsString (s : string).

Definition ToBoolean (v : JsVal) : bool :=
  match v with
  | JsUndefined | JsNull => false
  | JsBool b => b
  | JsNumber (S754_zero _) | JsNumber S754_nan => false
  | JsNumber _ => true
  | JsString s => negb (String.eqb s "")
  end.

Definition ToString (v : JsVal) : string :=
  match v with
  | JsUndefined => "undefined"
  | JsNull => "null"
  | JsBool b => if b then "true" else "false"
  | JsNumber x => Number_toString x
  | JsString s => s
  end.

(** [v === n] for a number [n]. *)
Definition strictEqNumber (v : JsVal) (n : number) : bool :=
  match v with
  | JsNumber x => SFeqb x n
  | _ => false
  end.

(** [v === s] for a string [s]. *)
Definition strictEqString (v : JsVal) (s : string) : bool :=
  match v with
  | JsString t => String.eqb t s
  | _ => false
  end.

Definition ToNumber (v : JsVal) : number :=
  match v with
  | JsUndefined => NaN
  | JsNull => S754_zero false
  | JsBool b => if b then of_decimal false 1 0 else S754_zero false
  | JsNumber x => x
  | JsString s => StringToNumber s
  end.

(** [v >= 0]: both operands through ToNumber, false when either is [NaN]. *)
Definition geZero (v : JsVal) : bool := SFleb (S754_zero false) (ToNumber v).

(** A plain object: own enumerable properties with primitive values. *)
Abbreviation obj := (gmap string JsVal).

(** [o.f]: [undefined] when the property is absent. *)
Definition get (o : obj) (f : string) : JsVal := default JsUndefined (o !! f).

(** ['f' in o]. *)
Definition has (o : obj) (f : string) : bool := bool_decide (is_Some (o !! f)).

End JS.

(* ===================================================================== *)
(** * bignumber.js *)
(* ===================================================================== *)

Module BigNumber.

Import JS.

(** A BigNumber is [NaN], an infinity, or a signed decimal
    [(-1)^neg * c * 10^e] with [c >= 0]; zero keeps its sign. *)
Inductive t : Type :=
| NaN
| Infinity (neg : bool)
| Finite (neg : bool) (c e : Z).

(** The library's default configuration, which the SDK does not change. *)
Definition DECIMAL_PLACES : Z := 20.
Definition MAX_EXP : Z := 10 ^ 7.
Definition MIN_EXP : Z := - 10 ^ 7.

(** Overflow to infinity and underflow to zero, decided on the exponent of
    the most significant digit. *)
Definition range (neg : bool) (c e : Z) : t :=
  if c <=? 0 then Finite neg 0 0
  else
    let msd := strlen (decimalDigits c) - 1 + e in
    if MAX_EXP <? msd then Infinity neg
    else if msd <? MIN_EXP then Finite neg 0 0
    else Finite neg c e.

(** [c * 10^e], with [c > 0], lies within the exponent range. *)
Definition inRange (c e : Z) : bool :=
  let msd := strlen (decimalDigits c) - 1 + e in
  (MIN_EXP <=? msd) && (msd <=? MAX_EXP).

(** The strings the constructor reads as decimal notation (its [isNumeric]
    pattern): an optional minus sign; digits with an optional point and
    optional further digits, or a point and digits; an optional exponent,
    [e] or [E] with an optional sign and digits; nothing else. The result is
    the sign, the coefficient and the exponent. *)
Definition scanNumeric (s : string) : option (bool * Z * Z) :=
  let '(neg, s0) := readSign false s in
  match scanDecimal s0 with
  | Some (c, e, rest) => if String.eqb rest "" then Some (neg, c, e) else None
  | None => None
  end.

Section Constructor.

(** The library's fallback for strings that are not in decimal notation
    (surrounding white space, a leading [+], [Infinity], [NaN], the base
    prefixes [0x], [0o], [0b]; [NaN] for everything else). *)
Variable parseNumeric : string -> t.

Definition of_string (s : string) : t :=
  match scanNumeric s with
  | Some (neg, c, e) => range neg c e
  | None => parseNumeric s
  end.

(** [new BigNumber(v)]. A finite number is read from [String(v)], which is
    always in decimal notation. *)
Definition of_value (v : JsVal) : t :=
  match v with
  | JsNumber S754_nan => NaN
  | JsNumber (S754_infinity s) => Infinity s
  | JsNumber (S754_zero s) => Finite s 0 0
  | JsNumber (S754_finite s m e) =>
      match scanNumeric (Number_toString (S754_finite false m e)) with
      | Some (_, c, e10) => range s c e10
      | None => NaN
      end
  | _ => of_string (ToString v)
  end.

End Constructor.

(** [x.multipliedBy(y)]: exact. *)
Definition multipliedBy (x y : t) : t :=
  match x, y with
  | NaN, _ | _, NaN => NaN
  | Infinity sx, Infinity sy => Infinity (xorb sx sy)
  | Infinity sx, Finite sy c _ | Finite sy c _, Infinity sx =>
      if c <=? 0 then NaN else Infinity (xorb sx sy)
  | Finite sx cx ex, Finite sy cy ey => range (xorb sx sy) (cx * cy) (ex + ey)
  end.

(** [x.pow(n)] for a natural exponent: exact (POW_PRECISION is 0). *)
Definition pow (x : t) (n : N) : t :=
  if (n =? 0)%N then Finite false 1 0
  else
    match x with
    | NaN => NaN
    | Infinity s => Infinity (s && N.odd n)
    | Finite s c e => range (s && N.odd n) (c ^ Z.of_N n) (e * Z.of_N n)
    end.

(** The magnitude [c * 10^e] as a fraction. *)
Definition fraction (c e : Z) : Z * Z :=
  if 0 <=? e then (c * 10 ^ e, 1) else (c, 10 ^ (- e)).

Fixpoint stripTrailingZeros (s : string) : string :=
  match s with
  | String c s' =>
      match stripTrailingZeros s' with
      | EmptyString => if (code c =? 48) then EmptyString else String c EmptyString
      | r => String c r
      end
  | EmptyString => EmptyString
  end.

(** [x.toString(16)]: an integer is written with all its digits; any other
    value is rounded half up to DECIMAL_PLACES hexadecimal places and written
    without trailing zeros. The sign is written for every negative value
    other than zero. *)
Definition toString16 (x : t) : string :=
  match x with
  | NaN => "NaN"
  | Infinity s => if s then "-Infinity" else "Infinity"
  | Finite s c e =>
      let '(n, d) := fraction c e in
      let unit := 16 ^ DECIMAL_PLACES in
      let r := (2 * n * unit + d) / (2 * d) in
      let ip := r / unit in
      let fp := r mod unit in
      let frac := hexDigits fp in
      let str :=
        if fp =? 0 then hexDigits ip
        else hexDigits ip ++ "." ++
             stripTrailingZeros (zeros (DECIMAL_PLACES - strlen frac) ++ frac) in
      if s && (0 <? c) then "-" ++ str else str
  end.

End BigNumber.

(* ===================================================================== *)
(** * Effects: awaited collaborators, the object store and process.env *)
(* ===================================================================== *)

Module Eff.

Import JS.

(** ** Values exchanged with collaborators *)

(** A primitive or a plain object. *)
Inductive value : Type :=
| Prim (v : JsVal)
| Object (o : obj).

(** ** Exceptions *)

Inductive SdkErrorCode : Type :=
| KMS_CHAIN_MISMATCH
| FLOW_MISSING_PRIVATE_KEY
| FLOW_MISSING_MNEMONIC.

(** What a [throw] or a rejected promise carries. [FlowSdkError] is built
    from an error code, from a caught exception or from a value reported by
    the chain. [Rejected] is what a collaborator threw or rejected with. *)
Inductive exn : Type :=
| XrpSdkError (code : SdkErrorCode)
| FlowSdkErrorOfCode (code : SdkErrorCode)
| FlowSdkErrorOfExn (cause : exn)
| FlowSdkErrorOfValue (cause : JsVal)
| JsError (message : string)
| TypeError (message : string)
| Rejected (reason : value).

Definition valueToBoolean (v : value) : bool :=
  match v with
  | Prim p => ToBoolean p
  | Object _ => true
  end.

(** [v.f] on a value that is not [undefined] or [null]. *)
Definition valueGet (v : value) (f : string) : JsVal :=
  match v with
  | Prim _ => JsUndefined
  | Object o => get o f
  end.

(** References to request bodies held in the store. *)
Abbreviation loc := positive.

(** A function supplied by the caller ([proposer], [payer]), known only by
    its identity, and what one call of it returned: the value itself, its
    [signer] property and its [keyHash] property. *)
Definition callback : Type := Z.

Record callbackResult : Type := {
  cb_value : Z;
  cb_signer : Z;
  cb_keyHash : JsVal
}.

(** The authorization functions handed to the chain access layer, as
    closures over the variables they capture. *)
Inductive signer : Type :=
| LocalSigner (pk : JsVal) (address : JsVal) (keyId : Z)
| ApiSigner (isPayer : bool) (keyHash : Z)
| CustomSigner (token : Z).

(** An argument of a Flow transaction as the services build it. *)
Record FlowArgs : Type := {
  arg_type : string;
  arg_subType : option string;
  arg_value : JsVal
}.

(** Type descriptors of [@onflow/types]. *)
Inductive fclType : Type :=
| FclScalar (name : string)
| FclArray (element : option string).

Record fclArg : Type := {
  fcl_value : JsVal;
  fcl_type : fclType
}.

(** The interaction handed to [fcl.send]. *)
Record fclInteraction : Type := {
  ix_code : string;
  ix_args : list fclArg;
  ix_proposer : signer;
  ix_authorizations : list signer;
  ix_payer : signer;
  ix_limit : Z
}.

Record fclResponse : Type := {
  transactionId : JsVal;
  resp_handle : Z
}.

Record sealedStatus : Type := {
  st_error : JsVal;
  st_events : list obj
}.

Record signKey : Type := {
  sk_address : string;
  sk_keyId : Z
}.

Record custodialBatchCall : Type := {
  cwb_params : list JsVal;
  cwb_methodName : string;
  cwb_bodyWithContractAddress : obj
}.

Inductive abi : Type :=
| CustodialFullTokenWallet_abi
| CUSTODIAL_PROXY_ABI.

(** ** Collaborator calls

    Each constructor is one call that leaves the SDK: the hosted API, the
    chain access layer, the wallet and custodial services, the clock and the
    functions supplied by the caller. The index is the type of the value a
    fulfilled call yields. Request bodies are passed as they are at the time
    of the call. *)
Inductive ext : Type -> Type :=
(* Flow *)
| Date_now : ext Z
| Invoke (f : callback) (isPayer : bool) : ext callbackResult
| Fcl_config_put (key value : string) : ext unit
| Fcl_send (ix : fclInteraction) : ext fclResponse
| Fcl_tx_onceSealed (response : fclResponse) : ext sealedStatus
| FlowBlockchain_broadcast (txData : JsVal) (signatureId : JsVal) (proposalKey : JsVal) : ext value
| FlowBlockchain_getSignKey (isPayer : bool) : ext signKey
| FlowWallet_generatePrivateKeyFromMnemonic (mnemonic : JsVal) (index : JsVal) : ext string
(* EVM custodial *)
| EvmBasedUtils_decimals (tokenAddress : JsVal) (provider : JsVal) : ext N
| PrepareTransferFromCustodialWalletAbstract (body : obj) (nativeDecimals : Z)
    (testnet provider : JsVal) : ext JsVal
| PrepareBatchTransferFromCustodialWalletAbstract (body : obj) (nativeDecimals : Z)
    (testnet provider : JsVal) : ext JsVal
| PrepareCustodialWalletBatchAbstract (body : obj) (testnet : JsVal) : ext custodialBatchCall
| HelperPrepareSCCall (body : obj) (methodName : string) (params : list JsVal)
    (provider : JsVal) (contractAbi : abi) : ext JsVal
| GasPumpService_transferCustodialWallet (body : obj) : ext value
| GasPumpService_transferCustodialWalletBatch (body : obj) : ext value
| GasPumpService_approveTransferCustodialWallet (body : obj) : ext value
| GasPumpService_generateCustodialWalletBatch (body : obj) : ext value
| ApiServices_generateCustodialWalletBatch (body : obj) : ext value
| BroadcastFunction (txData : JsVal) : ext value.

(** ** Programs *)

(** An asynchronous function body: it returns, throws, awaits a
    collaborator (and sees the rejection, if any), or reads and updates
    [process.env] and the objects it holds references to. *)
Inductive prog (A : Type) : Type :=
| Ret (a : A)
| Throw (e : exn)
| Await {X : Type} (c : ext X) (k : exn + X -> prog A)
| EnvLookup (key : string) (k : option string -> prog A)
| EnvStore (key val : string) (k : prog A)
| EnvDelete (key : string) (k : prog A)
| Load (l : loc) (k : obj -> prog A)
| DeleteField (l : loc) (f : string) (k : prog A).

Arguments Ret {A} a.
Arguments Throw {A} e.
Arguments Await {A X} c k.
Arguments EnvLookup {A} key k.
Arguments EnvStore {A} key val k.
Arguments EnvDelete {A} key k.
Arguments Load {A} l k.
Arguments DeleteField {A} l f k.

Fixpoint bind {A B : Type} (p : prog A) (f : A -> prog B) : prog B :=
  match p with
  | Ret a => f a
  | Throw e => Throw e
  | Await c k => Await c (fun r => bind (k r) f)
  | EnvLookup key k => EnvLookup key (fun v => bind (k v) f)
  | EnvStore key val k => EnvStore key val (bind k f)
  | EnvDelete key k => EnvDelete key (bind k f)
  | Load l k => Load l (fun o => bind (k o) f)
  | DeleteField l fld k => DeleteField l fld (bind k f)
  end.

#[global] Instance prog_ret : MRet prog := @Ret.
#[global] Instance prog_bind : MBind prog := fun A B f p => bind p f.

(** [await c]: the value of a fulfilled call; a rejection is thrown. *)
Definition await {X : Type} (c : ext X) : prog X :=
  Await c (fun r => match r with inl e => Throw e | inr x => Ret x end).

Definition envLookup (key : string) : prog (option string) := EnvLookup key Ret.
Definition envStore (key val : string) : prog unit := EnvStore key val (Ret tt).
Definition envDelete (key : string) : prog unit := EnvDelete key (Ret tt).
Definition load (l : loc) : prog obj := Load l Ret.
Definition deleteField (l : loc) (f : string) : prog unit := DeleteField l f (Ret tt).

(** [try { p } catch (e) { h e }]. *)
Fixpoint tryCatch {A : Type} (p : prog A) (h : exn -> prog A) : prog A :=
  match p with
  | Ret a => Ret a
  | Throw e => h e
  | Await c k => Await c (fun r => tryCatch (k r) h)
  | EnvLookup key k => EnvLookup key (fun v => tryCatch (k v) h)
  | EnvStore key val k => EnvStore key val (tryCatch k h)
  | EnvDelete key k => EnvDelete key (tryCatch k h)
  | Load l k => Load l (fun o => tryCatch (k o) h)
  | DeleteField l f k => DeleteField l f (tryCatch k h)
  end.

(** [try { p } finally { fin }]: [fin] runs on both exits; when it completes
    the outcome of [p] stands, and when it throws its exception replaces it. *)
Fixpoint tryFinally {A : Type} (p : prog A) (fin : prog unit) : prog A :=
  match p with
  | Ret a => bind fin (fun _ => Ret a)
  | Throw e => bind fin (fun _ => Throw e)
  | Await c k => Await c (fun r => tryFinally (k r) fin)
  | EnvLookup key k => EnvLookup key (fun v => tryFinally (k v) fin)
  | EnvStore key val k => EnvStore key val (tryFinally k fin)
  | EnvDelete key k => EnvDelete key (tryFinally k fin)
  | Load l k => Load l (fun o => tryFinally (k o) fin)
  | DeleteField l f k => DeleteField l f (tryFinally k fin)
  end.

(** ** Running a program *)

(** The state a call runs in: [process.env], the objects of the caller, and
    whatever the collaborators keep ([outside]). *)
Record world (S : Type) : Type := {
  process_env : gmap string string;
  heap : gmap loc obj;
  outside : S
}.

Arguments process_env {S} w.
Arguments heap {S} w.
Arguments outside {S} w.

(** How the collaborators answer. A call is fulfilled with a result or
    rejected with a reason, may change the collaborators' own state, and may
    write [process.env] (the chain access layer runs the signer functions it
    is given). It does not update the caller's objects: the contract call is
    prepared on a copy of the body, and the API client only serialises the
    body it is given. *)
Definition handler (S : Type) : Type :=
  forall X : Type, ext X -> gmap string string -> S -> gmap string string * S * (value + X).

Definition settle {X : Type} (r : value + X) : exn + X :=
  match r with
  | inl reason => inl (Rejected reason)
  | inr x => inr x
  end.

(** One collaborator call on the trace. *)
Inductive event : Type :=
| Called {X : Type} (c : ext X).

(** The object behind a reference; a dangling reference reads as an empty
    object. *)
Definition deref (h : gmap loc obj) (l : loc) : obj := default ∅ (h !! l).

(** The final state, the collaborator calls in order and the outcome. *)
Fixpoint run {S A : Type} (h : handler S) (p : prog A) (w : world S)
  : world S * list event * (exn + A) :=
  match p with
  | Ret a => (w, [], inr a)
  | Throw e => (w, [], inl e)
  | Await c k =>
      let '(env', s', r) := h _ c (process_env w) (outside w) in
      let '(w', tr, res) :=
        run h (k (settle r)) {| process_env := env'; heap := heap w; outside := s' |} in
      (w', Called c :: tr, res)
  | EnvLookup key k => run h (k (process_env w !! key)) w
  | EnvStore key val k =>
      run h k {| process_env := <[key := val]> (process_env w);
                 heap := heap w; outside := outside w |}
  | EnvDelete key k =>
      run h k {| process_env := delete key (process_env w);
                 heap := heap w; outside := outside w |}
  | Load l k => run h (k (deref (heap w) l)) w
  | DeleteField l f k =>
      run h k {| process_env := process_env w;
                 heap := alter (delete f) l (heap w);
                 outside := outside w |}
  end.

Definition finalWorld {S A : Type} (r : world S * list event * (exn + A)) : world S :=
  fst (fst r).
Definition trace {S A : Type} (r : world S * list event * (exn + A)) : list event :=
  snd (fst r).
Definition outcome {S A : Type} (r : world S * list event * (exn + A)) : exn + A :=
  snd r.

End Eff.

(* ===================================================================== *)
(** * Constants and pure functions imported from other packages *)
(* ===================================================================== *)

Import JS Eff.

Record rippleSigned : Type := {
  signedTransaction : string;
  rs_id : string
}.

(** What the functions below import and these files do not define: two enum
    constants, the transfer script template, and pure vendor functions
    ([bignumber.js], [ripple-lib], [sha3], [elliptic], [@onflow/fcl]). *)
Class Deps : Type := {
  Currency_XRP : string;
  Blockchain_FLOW : string;
  bignumber_parseNumeric : string -> BigNumber.t;
  rippleAPI_sign : JsVal -> string -> value + rippleSigned;
  SHA3_256 : list byte -> list byte;
  secp256k1_sign : JsVal -> list byte -> Z * Z;
  fcl_sansPrefix : JsVal -> JsVal;
  fcl_withPrefix : JsVal -> JsVal;
  prepareTransferTxTemplate : bool -> string -> string -> string -> string
}.

(* ===================================================================== *)
(** * XRP: signing a pending KMS transaction *)
(* ===================================================================== *)

Module Xrp.

Section Service.
Context `{D : Deps}.

(** [xrpKmsService.sign]. *)
Definition sign (tx : obj) (secret : string) : prog string :=
  if negb (strictEqString (get tx "chain") Currency_XRP) then
    Throw (XrpSdkError KMS_CHAIN_MISMATCH)
  else
    match rippleAPI_sign (get tx "serializedTransaction") secret with
    | inl reason => Throw (Rejected reason)
    | inr signed => Ret (signedTransaction signed)
    end.

End Service.

End Xrp.

(* ===================================================================== *)
(** * Flow: the transaction service *)
(* ===================================================================== *)

Module Flow.

Record addresses : Type := {
  FlowToken : string;
  FungibleToken : string;
  FUSD : string;
  TatumMultiNFT : string
}.

Definition FLOW_TESTNET_ADDRESSES : addresses := {|
  FlowToken := "0x7e60df042a9c0868";
  FungibleToken := "0x9a0766d93b6608b7";
  FUSD := "0xe223d8a629e49c68";
  TatumMultiNFT := "0x87fe4ebd0cddde06"
|}.

Definition FLOW_MAINNET_ADDRESSES : addresses := {|
  FlowToken := "0x1654653399040a61";
  FungibleToken := "0xf233dcee88fe0abe";
  FUSD := "0x3c5959b568896393";
  TatumMultiNFT := "0x354e6721564ccd2c"
|}.

(** ** Buffers *)

Definition byteOfZ (n : Z) : byte := byte_of_ascii (ascii_of_N (Z.to_N n)).
Definition byteVal (b : byte) : Z := Z.of_N (Byte.to_N b).

Definition hexChar (n : Z) : ascii :=
  match String.get (Z.to_nat n) "0123456789abcdef" with
  | Some c => c
  | None => "0"%char
  end.

(** [buf.toString('hex')]. *)
Fixpoint Buffer_toString_hex (buf : list byte) : string :=
  match buf with
  | [] => ""
  | b :: rest =>
      String (hexChar (byteVal b / 16))
        (String (hexChar (byteVal b mod 16)) (Buffer_toString_hex rest))
  end.

(** [Buffer.from(s, 'hex')]: pairs of hexadecimal digits, up to the first
    pair that is not one. *)
Fixpoint Buffer_from_hex (s : string) : list byte :=
  match s with
  | String a (String b rest) =>
      match hexVal a, hexVal b with
      | Some x, Some y => byteOfZ (16 * x + y) :: Buffer_from_hex rest
      | _, _ => []
      end
  | _ => []
  end.

(** The [len] low-order bytes of [n], most significant first. *)
Fixpoint bigEndian (n : Z) (len : nat) : list byte :=
  match len with
  | O => []
  | S k => byteOfZ ((n / 256 ^ Z.of_nat k) mod 256) :: bigEndian n k
  end.

(** The integer a buffer holds, most significant byte first. *)
Definition bigEndianValue (buf : list byte) : Z :=
  fold_left (fun acc b => 256 * acc + byteVal b) buf 0.

(** [bn.byteLength()] of a natural number. *)
Definition byteLength (n : Z) : Z :=
  if n <=? 0 then 0 else (Z.log2 n + 8) / 8.

(** [bn.toArrayLike(Buffer, 'be', len)]: an assertion fails when the number
    needs more than [len] bytes. *)
Definition toArrayLike (n : Z) (len : nat) : exn + list byte :=
  if byteLength n <=? Z.of_nat len then inr (bigEndian n len)
  else inl (JsError "byte array longer than desired length").

Record TransactionResult : Type := {
  id : JsVal;
  events : list obj
}.

(** The [Transaction] handed to [_sendTransaction]. *)
Record Transaction : Type := {
  tx_code : string;
  tx_args : list FlowArgs;
  tx_proposer : signer;
  tx_authorizations : list signer;
  tx_payer : signer;
  tx_keyHash : JsVal
}.

(** What a signer function adds to the account it is given. *)
Record account : Type := {
  tempId : string;
  addr : JsVal;
  keyId : Z
}.

Record signature : Type := {
  sig_addr : JsVal;
  sig_keyId : Z;
  sig_signature : string
}.

Section Service.
Context `{D : Deps}.

(** ** Signing *)

Definition sign (pk : JsVal) (msg : list byte) : exn + string :=
  let '(r, s) := secp256k1_sign pk (SHA3_256 msg) in
  match toArrayLike r 32, toArrayLike s 32 with
  | inr rb, inr sb => inr (Buffer_toString_hex (rb ++ sb)%list)
  | inl e, _ => inl e
  | _, inl e => inl e
  end.

(** An integer in a template literal. *)
Definition integerString (z : Z) : string :=
  if z <? 0 then "-" ++ decimalDigits (- z) else decimalDigits z.

(** [getSigner(pk, address, keyId = 0).signer], as the closure it is. *)
Definition getSigner (pk : JsVal) (address : JsVal) (k : Z) : signer :=
  LocalSigner pk address k.

(** What that [signer] function returns for an account. *)
Definition localSigner (address : JsVal) (k : Z) : account := {|
  tempId := ToString address ++ "-" ++ integerString k;
  addr := fcl_sansPrefix address;
  keyId := k
|}.

(** Its [signingFunction], on the hexadecimal message it is given. *)
Definition signingFunction (pk address : JsVal) (k : Z) (message : string)
  : exn + signature :=
  match sign pk (Buffer_from_hex message) with
  | inr sg => inr {| sig_addr := fcl_withPrefix address; sig_keyId := k; sig_signature := sg |}
  | inl e => inl e
  end.

Definition proposalKeyName (keyHash : Z) : string :=
  "FLOW_PROPOSAL_KEY_" ++ integerString keyHash.

(** [getApiSigner]: the signer and the name of the per-call entry of
    [process.env], made from the clock. *)
Definition getApiSigner (isPayer : bool) : prog (signer * string) :=
  keyHash ← await Date_now;
  mret (ApiSigner isPayer keyHash, proposalKeyName keyHash).

(** The [signer] function made by [getApiSigner], which the chain access
    layer runs: it asks the hosted API for a key and, for the proposer,
    registers the key index in [process.env]. *)
Definition apiSigner (isPayer : bool) (keyHash : Z) : prog account :=
  k ← await (FlowBlockchain_getSignKey isPayer);
  (if negb isPayer
   then envStore (proposalKeyName keyHash) (integerString (sk_keyId k))
   else mret tt);;
  mret {| tempId := sk_address k ++ "-" ++ integerString (sk_keyId k);
          addr := fcl_sansPrefix (JsString (sk_address k));
          keyId := sk_keyId k |}.

(** ** Key resolution *)

Definition getPrivateKey (body : obj) : prog JsVal :=
  let mnemonic := get body "mnemonic" in
  let index := get body "index" in
  let privateKey := get body "privateKey" in
  if ToBoolean privateKey then mret privateKey
  else if ToBoolean mnemonic && ToBoolean index && geZero index then
    k ← await (FlowWallet_generatePrivateKeyFromMnemonic mnemonic index);
    mret (JsString k)
  else Throw (FlowSdkErrorOfCode FLOW_MISSING_MNEMONIC).

(** ** Submission *)

Definition networkUrl (testnet : bool) : string :=
  if testnet then "https://access-testnet.onflow.org"
  else "https://access-mainnet-beta.onflow.org".

Definition UInt64ArgValue (arg : FlowArgs) : JsVal :=
  if String.eqb (arg_type arg) "UInt64" then JsNumber (parseInt (ToString (arg_value arg)))
  else arg_value arg.

Definition ArrayArgValue (arg : FlowArgs) : fclType :=
  if String.eqb (arg_type arg) "Array" then FclArray (arg_subType arg)
  else FclScalar (arg_type arg).

Definition proposalKey (keyHash : JsVal) : prog JsVal :=
  if ToBoolean keyHash then
    v ← envLookup (ToString keyHash);
    mret (JsNumber (parseInt
      match v with
      | Some s => if String.eqb s "" then "0" else s
      | None => "0"
      end))
  else mret JsUndefined.

(** [if (keyHash) { await broadcast(txId, undefined, proposalKey(keyHash));
    delete process.env[keyHash] }], the block both exits of
    [_sendTransaction] run. *)
Definition releaseProposalKey (txId keyHash : JsVal) : prog unit :=
  if ToBoolean keyHash then
    key ← proposalKey keyHash;
    await (FlowBlockchain_broadcast txId JsUndefined key);;
    envDelete (ToString keyHash)
  else mret tt.

Definition interaction (tx : Transaction) : fclInteraction := {|
  ix_code := tx_code tx;
  ix_args := map (fun arg => {| fcl_value := UInt64ArgValue arg;
                                fcl_type := ArrayArgValue arg |}) (tx_args tx);
  ix_proposer := tx_proposer tx;
  ix_authorizations := tx_authorizations tx;
  ix_payer := tx_payer tx;
  ix_limit := 1000
|}.

Definition _sendTransaction (testnet : bool) (tx : Transaction) : prog TransactionResult :=
  await (Fcl_config_put "accessNode.api" (networkUrl testnet));;
  response ← tryCatch (await (Fcl_send (interaction tx)))
    (fun e =>
       tryCatch (releaseProposalKey (JsString "") (tx_keyHash tx))
         (fun e' => Throw (FlowSdkErrorOfExn e'));;
       Throw (FlowSdkErrorOfExn e));
  tryFinally
    (tryCatch
       (status ← await (Fcl_tx_onceSealed response);
        if ToBoolean (st_error status) then Throw (FlowSdkErrorOfValue (st_error status))
        else mret {| id := transactionId response; events := st_events status |})
       (fun e => Throw (FlowSdkErrorOfExn e)))
    (releaseProposalKey (transactionId response) (tx_keyHash tx)).

(** ** Transfer of FLOW or FUSD *)

(** The token constants [sendTransaction] selects: address, name, storage. *)
Definition tokenConstants (testnet : bool) (body : obj) : string * string * string :=
  if strictEqString (get body "currency") Blockchain_FLOW then
    (if testnet then FlowToken FLOW_TESTNET_ADDRESSES else FlowToken FLOW_MAINNET_ADDRESSES,
     "FlowToken", "flowToken")
  else
    (if testnet then FUSD FLOW_TESTNET_ADDRESSES else FUSD FLOW_MAINNET_ADDRESSES,
     "FUSD", "fusd").

(** The argument list [sendTransaction] builds. *)
Definition transferArgs (body : obj) : list FlowArgs :=
  [ {| arg_type := "UFix64"; arg_subType := None;
       arg_value := JsString (toFixed (parseFloat (ToString (get body "amount"))) 8) |};
    {| arg_type := "Address"; arg_subType := None; arg_value := get body "to" |} ].

(** [proposer ? proposer(false) : getApiSigner(false)], destructured into
    the signer and the key name. *)
Definition proposalSignerOf (proposer : option callback) : prog (signer * JsVal) :=
  match proposer with
  | Some f =>
      r ← await (Invoke f false);
      mret (CustomSigner (cb_signer r), cb_keyHash r)
  | None =>
      '(s, keyHash) ← getApiSigner false;
      mret (s, JsString keyHash)
  end.

(** [proposer ? proposer(false) : proposalSigner]. *)
Definition proposerOf (proposer : option callback) (proposalSigner : signer) : prog signer :=
  match proposer with
  | Some f => r ← await (Invoke f false); mret (CustomSigner (cb_value r))
  | None => mret proposalSigner
  end.

(** [payer ? payer(true) : getApiSigner(true).signer]. *)
Definition payerOf (payer : option callback) : prog signer :=
  match payer with
  | Some f => r ← await (Invoke f true); mret (CustomSigner (cb_value r))
  | None => '(s, _) ← getApiSigner true; mret s
  end.

Definition sendTransaction (testnet : bool) (body : obj)
    (proposer payer : option callback) : prog obj :=
  let '(tokenAddress, tokenName, tokenStorage) := tokenConstants testnet body in
  let code := prepareTransferTxTemplate testnet tokenAddress tokenName tokenStorage in
  let args := transferArgs body in
  pk ← getPrivateKey body;
  if negb (ToBoolean pk) then Throw (FlowSdkErrorOfCode FLOW_MISSING_PRIVATE_KEY)
  else
    '(proposalSigner, keyHash) ← proposalSignerOf proposer;
    let auth := getSigner pk (get body "account") 0 in
    proposerArg ← proposerOf proposer proposalSigner;
    payerArg ← payerOf payer;
    result ← _sendTransaction testnet {|
      tx_code := code;
      tx_args := args;
      tx_proposer := proposerArg;
      tx_authorizations := [auth];
      tx_payer := payerArg;
      tx_keyHash := keyHash
    |};
    mret {[ "txId" := id result ]}.

End Service.

End Flow.

(* ===================================================================== *)
(** * EVM: custodial wallets *)
(* ===================================================================== *)

Module Custodial.

Section Service.
Context `{D : Deps}.

(** Request bodies are held by reference: [approveFromCustodialWallet]
    updates the caller's object. *)

Definition transferFromCustodialWallet (body : loc) (testnet provider : JsVal)
  : prog JsVal :=
  o ← load body;
  await (PrepareTransferFromCustodialWalletAbstract o 18 testnet provider).

Definition batchTransferFromCustodialWallet (body : loc) (testnet provider : JsVal)
  : prog JsVal :=
  o ← load body;
  await (PrepareBatchTransferFromCustodialWalletAbstract o 18 testnet provider).

(** [new BigNumber(v || 0)]. *)
Definition bigNumberOrZero (v : JsVal) : BigNumber.t :=
  BigNumber.of_value bignumber_parseNumeric
    (if ToBoolean v then v else JsNumber (S754_zero false)).

(** [new BigNumber(10)]. *)
Definition ten : BigNumber.t :=
  BigNumber.of_value bignumber_parseNumeric (JsNumber (of_Z 10)).

(** The amount parameter of [approve]:
    [`0x${new BigNumber(amount || 0).multipliedBy(new BigNumber(10).pow(decimals)).toString(16)}`]. *)
Definition encodedAmount (amount : JsVal) (decimals : N) : string :=
  "0x" ++ BigNumber.toString16
            (BigNumber.multipliedBy (bigNumberOrZero amount) (BigNumber.pow ten decimals)).

(** [s.trim()] on a property that may be missing or not a string. *)
Definition trimmed (v : JsVal) : prog JsVal :=
  match v with
  | JsString s => mret (JsString (trim s))
  | JsUndefined | JsNull => Throw (TypeError "Cannot read properties of undefined (reading 'trim')")
  | _ => Throw (TypeError "trim is not a function")
  end.

(** The [params] of the [approve] call, given the trimmed token address. *)
Definition approveParams (o : obj) (tokenAddress : JsVal) (decimals : N) : list JsVal :=
  [ tokenAddress;
    get o "contractType";
    get o "spender";
    JsString (encodedAmount (get o "amount") decimals);
    JsString ("0x" ++ BigNumber.toString16 (bigNumberOrZero (get o "tokenId"))) ].

Definition approveFromCustodialWallet (body : loc) (provider : JsVal) : prog JsVal :=
  o ← load body;
  (* ContractType FUNGIBLE_TOKEN = 0 *)
  decimals ←
    (if strictEqNumber (get o "contractType") (S754_zero false)
     then await (EvmBasedUtils_decimals (get o "tokenAddress") provider)
     else mret 0%N);
  o ← load body;
  tokenAddress ← trimmed (get o "tokenAddress");
  let params := approveParams o tokenAddress decimals in
  deleteField body "amount";;
  o ← load body;
  await (HelperPrepareSCCall (<["contractAddress" := get o "custodialAddress"]> o)
           "approve" params provider CustodialFullTokenWallet_abi).

Definition generateCustodialBatch (body : loc) : prog JsVal :=
  o ← load body;
  request ← await (ApiServices_generateCustodialWalletBatch o);
  if valueToBoolean request then mret (valueGet request "txId")
  else Throw (JsError "Unable to generate custodial wallet address.").

Definition custodialWalletBatch (body : loc) (testnet provider : JsVal) : prog JsVal :=
  o ← load body;
  call ← await (PrepareCustodialWalletBatchAbstract o testnet);
  await (HelperPrepareSCCall (cwb_bodyWithContractAddress call) (cwb_methodName call)
           (cwb_params call) provider CUSTODIAL_PROXY_ABI).

End Service.

(** The [send] operations of [custodial]. *)
Module send.

Section Service.
Context `{D : Deps}.

Definition transferFromCustodialWallet (body : loc) (provider testnet : JsVal)
  : prog value :=
  o ← load body;
  if ToBoolean (get o "signatureId") then
    await (GasPumpService_transferCustodialWallet o)
  else
    txData ← Custodial.transferFromCustodialWallet body testnet provider;
    await (BroadcastFunction txData).

Definition batchTransferFromCustodialWallet (body : loc) (provider testnet : JsVal)
  : prog value :=
  o ← load body;
  if ToBoolean (get o "signatureId") then
    await (GasPumpService_transferCustodialWalletBatch o)
  else
    txData ← Custodial.batchTransferFromCustodialWallet body testnet provider;
    await (BroadcastFunction txData).

Definition approveFromCustodialWallet (body : loc) (provider : JsVal) : prog value :=
  o ← load body;
  if ToBoolean (get o "signatureId") then
    await (GasPumpService_approveTransferCustodialWallet o)
  else
    txData ← Custodial.approveFromCustodialWallet body provider;
    await (BroadcastFunction txData).

Definition custodialWalletBatch (body : loc) (provider testnet : JsVal) : prog value :=
  o ← load body;
  if has o "feesCovered" then
    txId ← generateCustodialBatch body;
    mret (Prim txId)
  else if has o "signatureId" then
    await (GasPumpService_generateCustodialWalletBatch o)
  else
    txData ← Custodial.custodialWalletBatch body testnet provider;
    await (BroadcastFunction txData).

End Service.

End send.

End Custodial.

(* ===================================================================== *)
(** * Flow: accounts, NFTs and custom transactions *)
(* ===================================================================== *)

Module FlowOperations.

(** [s.includes(sub)]. *)
Fixpoint includes (sub s : string) : bool :=
  String.prefix sub s ||
  match s with
  | String _ s' => includes sub s'
  | EmptyString => false
  end.

(** [events.find((e) => e.type.includes(sub))]: the first event whose type
    contains [sub]. The test throws on an event whose [type] is not a
    string, and so does the search when it gets to one. *)
Fixpoint findIncluding (sub : string) (events : list obj) : exn + option obj :=
  match events with
  | [] => inr None
  | e :: rest =>
      match get e "type" with
      | JsString t => if includes sub t then inr (Some e) else findIncluding sub rest
      | JsUndefined =>
          inl (TypeError "Cannot read properties of undefined (reading 'includes')")
      | JsNull => inl (TypeError "Cannot read properties of null (reading 'includes')")
      | _ => inl (TypeError "e.type.includes is not a function")
      end
  end.

(** [events.find((e) => e.type === t)]. *)
Fixpoint findOfType (t : string) (events : list obj) : option obj :=
  match events with
  | [] => None
  | e :: rest => if strictEqString (get e "type") t then Some e else findOfType t rest
  end.

(** A synchronous step that may throw. *)
Definition liftE {A : Type} (r : exn + A) : prog A :=
  match r with
  | inl e => Throw e
  | inr a => Ret a
  end.

(** The results of the operations that return more than a transaction id. *)
Record CustomTransactionResult : Type := {
  txId : JsVal;
  events : list obj
}.

Section Service.
Context `{D : Deps}.

(** The script templates of [flowTxTemplates] and the key encoder of
    [@onflow/util-encode-key] (for the curve [ECDSA_secp256k1] and the hash
    [SHA3_256], which throws on a key or weight it does not accept), which
    these files import. *)
Variable prepareCreateAccountWithFUSDFromPublicKeyTxTemplate : bool -> string.
Variable prepareAddPublicKeyToAccountTxTemplate : string.
Variable mintNftTokenTxTemplate : bool -> string.
Variable transferNftTokenTxTemplate : bool -> string.
Variable burnNftTokenTxTemplate : bool -> string.
Variable encodeKey : JsVal -> Z -> exn + string.

(** An event of a sealed transaction carries its payload in the object
    under [data]; [obj] holds primitive properties only, so that object is
    reached through [event_data] ([None] for an event without [data]). *)
Variable event_data : obj -> option obj.

(** [e.data.f]. *)
Definition dataProperty (e : obj) (f : string) : exn + JsVal :=
  match event_data e with
  | Some d => inr (get d f)
  | None => inl (TypeError ("Cannot read properties of undefined (reading '" ++ f ++ "')"))
  end.

Definition stringArg (v : JsVal) : FlowArgs :=
  {| arg_type := "String"; arg_subType := None; arg_value := v |}.

Definition addressArg (v : JsVal) : FlowArgs :=
  {| arg_type := "Address"; arg_subType := None; arg_value := v |}.

Definition uint64Arg (v : JsVal) : FlowArgs :=
  {| arg_type := "UInt64"; arg_subType := None; arg_value := v |}.

(** [result.events.find((e) => e.type === 'flow.AccountCreated')?.data.address]. *)
Definition createdAddress (result : Flow.TransactionResult) : exn + JsVal :=
  match findOfType "flow.AccountCreated" (Flow.events result) with
  | Some e => dataProperty e "address"
  | None => inr JsUndefined
  end.

Definition createAccountFromPublicKey (testnet : bool)
    (publicKey signerAddress signerPrivateKey : JsVal)
    (proposer payer : option callback) : prog obj :=
  let code := prepareCreateAccountWithFUSDFromPublicKeyTxTemplate testnet in
  encodedPublicKey ← liftE (encodeKey publicKey 1000);
  let args := [stringArg (JsString encodedPublicKey)] in
  let auth := Flow.getSigner signerPrivateKey signerAddress 0 in
  '(proposalSigner, keyHash) ← Flow.proposalSignerOf proposer;
  proposerArg ← Flow.proposerOf proposer proposalSigner;
  payerArg ← Flow.payerOf payer;
  result ← Flow._sendTransaction testnet {|
    Flow.tx_code := code;
    Flow.tx_args := args;
    Flow.tx_proposer := proposerArg;
    Flow.tx_authorizations := [auth];
    Flow.tx_payer := payerArg;
    Flow.tx_keyHash := keyHash
  |};
  address ← liftE (createdAddress result);
  mret {[ "txId" := Flow.id result; "address" := address ]}.

(** [result.events[0].data.address]. *)
Definition firstEventAddress (result : Flow.TransactionResult) : exn + JsVal :=
  match Flow.events result with
  | e :: _ => dataProperty e "address"
  | [] => inl (TypeError "Cannot read properties of undefined (reading 'data')")
  end.

(** [weight] is [None] when the caller leaves it out. *)
Definition addPublicKeyToAccount (testnet : bool)
    (publicKey signerAddress signerPrivateKey : JsVal) (weight : option Z)
    (proposer payer : option callback) : prog obj :=
  let weight := default 0 weight in
  let code := prepareAddPublicKeyToAccountTxTemplate in
  encodedPublicKey ← liftE (encodeKey publicKey weight);
  let args := [stringArg (JsString encodedPublicKey)] in
  let auth := Flow.getSigner signerPrivateKey signerAddress 0 in
  '(proposalSigner, keyHash) ← Flow.proposalSignerOf proposer;
  proposerArg ← Flow.proposerOf proposer proposalSigner;
  payerArg ← Flow.payerOf payer;
  result ← Flow._sendTransaction testnet {|
    Flow.tx_code := code;
    Flow.tx_args := args;
    Flow.tx_proposer := proposerArg;
    Flow.tx_authorizations := [auth];
    Flow.tx_payer := payerArg;
    Flow.tx_keyHash := keyHash
  |};
  address ← liftE (firstEventAddress result);
  mret {[ "txId" := Flow.id result; "address" := address ]}.

(** The token id [sendNftMintToken] returns:
    [`${result.events.find((e) => e.type.includes('TatumMultiNFT.Minted'))?.data.id}`]. *)
Definition mintedTokenId (result : Flow.TransactionResult) : exn + string :=
  match findIncluding "TatumMultiNFT.Minted" (Flow.events result) with
  | inl e => inl e
  | inr None => inr (ToString JsUndefined)
  | inr (Some e) =>
      match dataProperty e "id" with
      | inl x => inl x
      | inr v => inr (ToString v)
      end
  end.

Definition sendNftMintToken (testnet : bool) (body : obj)
    (proposer payer : option callback) : prog obj :=
  let bodyWithChain : obj := <["chain" := JsString Blockchain_FLOW]> body in
  let code := mintNftTokenTxTemplate testnet in
  let args := [ addressArg (get bodyWithChain "to");
                stringArg (get bodyWithChain "url");
                stringArg (get bodyWithChain "contractAddress") ] in
  pk ← Flow.getPrivateKey bodyWithChain;
  if negb (ToBoolean pk) then Throw (FlowSdkErrorOfCode FLOW_MISSING_PRIVATE_KEY)
  else
    let auth := Flow.getSigner pk (get bodyWithChain "account") 0 in
    '(proposalSigner, keyHash) ← Flow.proposalSignerOf proposer;
    proposerArg ← Flow.proposerOf proposer proposalSigner;
    payerArg ← Flow.payerOf payer;
    result ← Flow._sendTransaction testnet {|
      Flow.tx_code := code;
      Flow.tx_args := args;
      Flow.tx_proposer := proposerArg;
      Flow.tx_authorizations := [auth];
      Flow.tx_payer := payerArg;
      Flow.tx_keyHash := keyHash
    |};
    tokenId ← liftE (mintedTokenId result);
    mret {[ "txId" := Flow.id result; "tokenId" := JsString tokenId ]}.

Definition sendNftTransferToken (testnet : bool) (body : obj)
    (proposer payer : option callback) : prog obj :=
  let bodyWithChain : obj := <["chain" := JsString Blockchain_FLOW]> body in
  let code := transferNftTokenTxTemplate testnet in
  let args := [ addressArg (get bodyWithChain "to");
                uint64Arg (get bodyWithChain "tokenId") ] in
  pk ← Flow.getPrivateKey bodyWithChain;
  if negb (ToBoolean pk) then Throw (FlowSdkErrorOfCode FLOW_MISSING_PRIVATE_KEY)
  else
    '(proposalSigner, keyHash) ← Flow.proposalSignerOf proposer;
    let auth := Flow.getSigner pk (get bodyWithChain "account") 0 in
    proposerArg ← Flow.proposerOf proposer proposalSigner;
    payerArg ← Flow.payerOf payer;
    result ← Flow._sendTransaction testnet {|
      Flow.tx_code := code;
      Flow.tx_args := args;
      Flow.tx_proposer := proposerArg;
      Flow.tx_authorizations := [auth];
      Flow.tx_payer := payerArg;
      Flow.tx_keyHash := keyHash
    |};
    mret {[ "txId" := Flow.id result ]}.

Definition sendNftBurnToken (testnet : bool) (body : obj)
    (proposer payer : option callback) : prog obj :=
  let bodyWithChain : obj := <["chain" := JsString Blockchain_FLOW]> body in
  let code := burnNftTokenTxTemplate testnet in
  let args := [ uint64Arg (get bodyWithChain "tokenId");
                stringArg (get bodyWithChain "contractAddress") ] in
  pk ← Flow.getPrivateKey bodyWithChain;
  if negb (ToBoolean pk) then Throw (FlowSdkErrorOfCode FLOW_MISSING_PRIVATE_KEY)
  else
    '(proposalSigner, keyHash) ← Flow.proposalSignerOf proposer;
    let auth := Flow.getSigner pk (get bodyWithChain "account") 0 in
    proposerArg ← Flow.proposerOf proposer proposalSigner;
    payerArg ← Flow.payerOf payer;
    result ← Flow._sendTransaction testnet {|
      Flow.tx_code := code;
      Flow.tx_args := args;
      Flow.tx_proposer := proposerArg;
      Flow.tx_authorizations := [auth];
      Flow.tx_payer := payerArg;
      Flow.tx_keyHash := keyHash
    |};
    mret {[ "txId" := Flow.id result ]}.

(** [sendCustomTransaction]. The script and the argument list are the
    [transaction] and [args] properties of the body, which [obj] (primitive
    properties) does not hold: they are given beside it. *)
Definition sendCustomTransaction (testnet : bool) (body : obj)
    (transaction : string) (args : list FlowArgs)
    (proposer payer : option callback) : prog CustomTransactionResult :=
  pk ← Flow.getPrivateKey body;
  if negb (ToBoolean pk) then Throw (FlowSdkErrorOfCode FLOW_MISSING_PRIVATE_KEY)
  else
    let auth := Flow.getSigner pk (get body "account") 0 in
    '(proposalSigner, keyHash) ← Flow.proposalSignerOf proposer;
    proposerArg ← Flow.proposerOf proposer proposalSigner;
    payerArg ← Flow.payerOf payer;
    result ← Flow._sendTransaction testnet {|
      Flow.tx_code := transaction;
      Flow.tx_args := args;
      Flow.tx_proposer := proposerArg;
      Flow.tx_authorizations := [auth];
      Flow.tx_payer := payerArg;
      Flow.tx_keyHash := keyHash
    |};
    mret {| txId := Flow.id result; events := Flow.events result |}.

End Service.

End FlowOperations.

(* ===================================================================== *)
(** * Flow: scripts *)
(* ===================================================================== *)

Module FlowScripts.

(** An argument of a script as [sendScript] builds it: the value, and the
    entry of [@onflow/types] under the name of its type, taken as it is (for
    [Array] too, where a transaction applies it to the element type). *)
Record scriptArg : Type := {
  sa_value : JsVal;
  sa_type : string
}.

(** The calls a script makes, all of them to the chain access layer. The
    index is the type of the value a fulfilled call yields; a response is
    known by its handle. *)
Inductive call : Type -> Type :=
| Config_put (key value : string) : call unit
| Send_script (code : string) (args : list scriptArg) : call Z
| Decode (response : Z) : call value.

(** A function body that returns, throws or awaits one of these calls. *)
Inductive script (A : Type) : Type :=
| Return (a : A)
| Raise (e : exn)
| Wait {X : Type} (c : call X) (k : exn + X -> script A).

Arguments Return {A} a.
Arguments Raise {A} e.
Arguments Wait {A X} c k.

Fixpoint andThen {A B : Type} (p : script A) (f : A -> script B) : script B :=
  match p with
  | Return a => f a
  | Raise e => Raise e
  | Wait c k => Wait c (fun r => andThen (k r) f)
  end.

#[global] Instance script_ret : MRet script := @Return.
#[global] Instance script_bind : MBind script := fun A B f p => andThen p f.

Definition wait {X : Type} (c : call X) : script X :=
  Wait c (fun r => match r with inl e => Raise e | inr x => Return x end).

(** How the access layer answers, with a state of its own. *)
Definition answers (S : Type) : Type := forall X : Type, call X -> S -> S * (value + X).

Inductive made : Type :=
| Made {X : Type} (c : call X).

(** The final state of the access layer, the calls in order and the
    outcome. *)
Fixpoint exec {S A : Type} (h : answers S) (p : script A) (s : S)
  : S * list made * (exn + A) :=
  match p with
  | Return a => (s, [], inr a)
  | Raise e => (s, [], inl e)
  | Wait c k =>
      let '(s', r) := h _ c s in
      let '(s'', calls, res) := exec h (k (settle r)) s' in
      (s'', Made c :: calls, res)
  end.

Section Service.

(** The script templates of [flowTxTemplates], which these files import. *)
Variable metadataNftTokenScript : bool -> string.
Variable tokenByAddressNftTokenScript : bool -> string.

Definition sendScript (testnet : bool) (code : string) (args : list FlowArgs)
  : script value :=
  wait (Config_put "accessNode.api" (Flow.networkUrl testnet));;
  response ← wait (Send_script code
                     (map (fun arg => {| sa_value := Flow.UInt64ArgValue arg;
                                         sa_type := arg_type arg |}) args));
  wait (Decode response).

Definition getNftMetadata (testnet : bool) (account id contractAddress : JsVal)
  : script value :=
  let code := metadataNftTokenScript testnet in
  let args := [ {| arg_type := "Address"; arg_subType := None; arg_value := account |};
                {| arg_type := "UInt64"; arg_subType := None; arg_value := id |};
                {| arg_type := "String"; arg_subType := None;
                   arg_value := contractAddress |} ] in
  sendScript testnet code args.

Definition getNftTokenByAddress (testnet : bool) (account tokenType : JsVal)
  : script value :=
  let code := tokenByAddressNftTokenScript testnet in
  let args := [ {| arg_type := "Address"; arg_subType := None; arg_value := account |};
                {| arg_type := "String"; arg_subType := None; arg_value := tokenType |} ] in
  sendScript testnet code args.

End Service.

End FlowScripts.

(* ===================================================================== *)
(** * Reference definitions and sample collaborators *)
(* ===================================================================== *)

(** ** Key resolution as the specification words it *)

Inductive resolution : Type :=
| RawPrivateKey (key : JsVal)
| DerivedFrom (mnemonic index : JsVal)
| MissingKeyMaterial.

(** The specification of key resolution: the private key when present;
    else, with a mnemonic present and [index >= 0], the key derived from
    mnemonic and index; else a failure. *)
Definition resolve_reference (body : obj) : resolution :=
  if ToBoolean (get body "privateKey") then RawPrivateKey (get body "privateKey")
  else if ToBoolean (get body "mnemonic") && geZero (get body "index")
  then DerivedFrom (get body "mnemonic") (get body "index")
  else MissingKeyMaterial.

(** What a run of [getPrivateKey] amounts to: it returns a key at once,
    asks the wallet to derive one, or throws a missing-key error. *)
Definition resolutionOf (p : prog JsVal) : option resolution :=
  match p with
  | Ret key => Some (RawPrivateKey key)
  | Await (FlowWallet_generatePrivateKeyFromMnemonic m i) _ => Some (DerivedFrom m i)
  | Throw (FlowSdkErrorOfCode FLOW_MISSING_MNEMONIC)
  | Throw (FlowSdkErrorOfCode FLOW_MISSING_PRIVATE_KEY) => Some MissingKeyMaterial
  | _ => None
  end.

(** ** The encoded amount as the specification words it *)

(** [floor(c * 10^e * 10^decimals)] in hexadecimal with a [0x] prefix, for a
    non-negative decimal amount [c * 10^e]. *)
Definition encodedAmount_reference (c e : Z) (decimals : N) : string :=
  let '(n, d) := BigNumber.fraction c (e + Z.of_N decimals) in
  "0x" ++ hexDigits (n / d).

(** ** Rounding as the Standard Library does it *)

(** The double nearest to [n/d] by the correctly rounded division of
    [SpecFloat], on the two integers. *)
Definition stdlibRound (neg : bool) (n d : Z) : number :=
  let '(q, e, l) := SFdiv_core_binary prec emax n 0 d 0 in
  binary_round_aux prec emax neg q e l.

Definition sameNumber (x y : number) : bool :=
  match x, y with
  | S754_zero s1, S754_zero s2 => Bool.eqb s1 s2
  | S754_infinity s1, S754_infinity s2 => Bool.eqb s1 s2
  | S754_nan, S754_nan => true
  | S754_finite s1 m1 e1, S754_finite s2 m2 e2 =>
      Bool.eqb s1 s2 && Pos.eqb m1 m2 && Z.eqb e1 e2
  | _, _ => false
  end.

(** Fractions at the edges of the format: ties, carries, subnormals,
    underflow and overflow. *)
Definition roundingSamples : list (Z * Z) :=
  [ (1, 1); (1, 10); (3, 10); (123456789, 10 ^ 8); (123456789, 10 ^ 9);
    (10 ^ 21, 1); (10 ^ 23, 1); (5, 10 ^ 324); (25, 10 ^ 325); (2, 10 ^ 324);
    (3, 10 ^ 324); (17976931348623157 * 10 ^ 292, 1);
    (17976931348623158 * 10 ^ 292, 1); (17976931348623159 * 10 ^ 292, 1);
    (10 ^ 400, 1); (1, 10 ^ 400); (9007199254740993, 1); (9007199254740991, 1);
    (90071992547409925, 10); (45035996273704965, 10); (45035996273704975, 10);
    (22250738585072014, 10 ^ 324); (22250738585072011, 10 ^ 324);
    (2 ^ 1024 - 2 ^ 970, 1); (2 ^ 1024 - 2 ^ 970 - 1, 1); (1, 2 ^ 1074);
    (1, 2 ^ 1075); (3, 2 ^ 1075); (3, 2 ^ 1076); (2 ^ 53 + 1, 2 ^ 1127);
    (1, 3); (2, 3); (1005, 1000); (1234567890112345678, 10 ^ 8) ].

(** ** Reading a trace *)

(** The dispatch paths of the custodial [send] operations. *)
Inductive path : Type :=
| HostedApi
| Kms
| LocalBuild.

(** The path the specification assigns to a wallet-batch request:
    [feesCovered] before [signatureId] before the local build. *)
Definition dispatch (o : obj) : path :=
  if has o "feesCovered" then HostedApi
  else if has o "signatureId" then Kms
  else LocalBuild.

(** The calls of the local path: preparing (and signing) a transaction, with
    the lookups that takes, and broadcasting it. *)
Definition isLocalCall (ev : event) : bool :=
  match ev with
  | Called (EvmBasedUtils_decimals _ _)
  | Called (PrepareTransferFromCustodialWalletAbstract _ _ _ _)
  | Called (PrepareBatchTransferFromCustodialWalletAbstract _ _ _ _)
  | Called (PrepareCustodialWalletBatchAbstract _ _)
  | Called (HelperPrepareSCCall _ _ _ _ _)
  | Called (BroadcastFunction _) => true
  | _ => false
  end.

(** The calls that build the wallet-batch transaction locally. *)
Definition isBuildCall (ev : event) : bool :=
  match ev with
  | Called (PrepareCustodialWalletBatchAbstract _ _)
  | Called (HelperPrepareSCCall _ _ _ _ _) => true
  | _ => false
  end.

Definition isDecimalsCall (ev : event) : bool :=
  match ev with
  | Called (EvmBasedUtils_decimals _ _) => true
  | _ => false
  end.

(** The parameters of the first contract call prepared on a trace. *)
Fixpoint preparedParams (tr : list event) : option (list JsVal) :=
  match tr with
  | [] => None
  | Called (HelperPrepareSCCall _ _ params _ _) :: _ => Some params
  | _ :: rest => preparedParams rest
  end.

(** The interaction of the first submission on a trace. *)
Fixpoint submitted (tr : list event) : option fclInteraction :=
  match tr with
  | [] => None
  | Called (Fcl_send ix) :: _ => Some ix
  | _ :: rest => submitted rest
  end.

(** What a call submits to the access node, if it is a submission. *)
Definition submission {X : Type} (c : ext X) : option fclInteraction :=
  match c with
  | Fcl_send ix => Some ix
  | _ => None
  end.

(** Every submission a program can make satisfies [P]. *)
Fixpoint sends {A : Type} (P : fclInteraction -> Prop) (p : prog A) : Prop :=
  match p with
  | Ret _ | Throw _ => True
  | Await c k =>
      (forall ix, submission c = Some ix -> P ix) /\ forall r, sends P (k r)
  | EnvLookup _ k => forall v, sends P (k v)
  | EnvStore _ _ k | EnvDelete _ k | DeleteField _ _ k => sends P k
  | Load _ k => forall o, sends P (k o)
  end.

(** ** Collaborators that accept *)

(** The calls a transfer signed with a local key makes. *)
Definition transferCall {X : Type} (c : ext X) : bool :=
  match c with
  | Date_now | Invoke _ _ | Fcl_config_put _ _ | Fcl_send _
  | Fcl_tx_onceSealed _ | FlowBlockchain_broadcast _ _ _ => true
  | _ => false
  end.

(** A fulfilled call counts as accepted; for the confirmation, the chain
    must also report no error. *)
Definition accepted {X : Type} (c : ext X) : X -> Prop :=
  match c in ext X return X -> Prop with
  | Fcl_tx_onceSealed _ => fun status => ToBoolean (st_error status) = false
  | _ => fun _ => True
  end.

(** Collaborators that accept every call of a transfer. *)
Definition acceptsTransfer {S : Type} (h : handler S) : Prop :=
  forall (X : Type) (c : ext X) (env : gmap string string) (s : S),
    transferCall c = true ->
    exists x : X, snd (h X c env s) = inr x /\ accepted c x.

(** The hosted API fulfils every broadcast that releases a proposal key
    (and, running no signer, leaves [process.env] alone). *)
Definition releaseFulfilled {S : Type} (h : handler S) : Prop :=
  forall (txData signatureId key : JsVal) (env : gmap string string) (s : S),
    exists s' x,
      h value (FlowBlockchain_broadcast txData signatureId key) env s = (env, s', inr x).

(** ** The transfer as built *)

(** The digits of [n], padded with zeros to [f + 1] digits at least. *)
Definition paddedDigits (n f : Z) : string :=
  let m := decimalDigits n in
  if strlen m <=? f then zeros (f + 1 - strlen m) ++ m else m.

(** The script and the arguments [sendTransaction] builds for a body. *)
Definition builtTransfer `{D : Deps} (testnet : bool) (body : obj)
    (ix : fclInteraction) : Prop :=
  ix_code ix =
    (let '(address, name, storage) := Flow.tokenConstants testnet body in
     prepareTransferTxTemplate testnet address name storage)
  /\ ix_args ix =
       [ {| fcl_value := JsString (toFixed (parseFloat (ToString (get body "amount"))) 8);
            fcl_type := FclScalar "UFix64" |};
         {| fcl_value := get body "to"; fcl_type := FclScalar "Address" |} ].

(** ** Sample collaborators *)

(** Vendor functions with fixed answers, to run the services on concrete
    inputs. *)
Definition sampleDeps : Deps := {|
  Currency_XRP := "XRP";
  Blockchain_FLOW := "FLOW";
  bignumber_parseNumeric := fun _ => BigNumber.NaN;
  rippleAPI_sign := fun tx secret =>
    inr {| signedTransaction := "12000022" ++ ToString tx; rs_id := "A1B2" |};
  SHA3_256 := fun msg => msg;
  secp256k1_sign := fun _ _ => (2 ^ 255 + 19, 258);
  fcl_sansPrefix := fun a => a;
  fcl_withPrefix := fun a => a;
  prepareTransferTxTemplate := fun testnet address name storage =>
    "import " ++ name ++ " from " ++ address
|}.

(** The hosted API hands out key 7 of account [0x01]. *)
Definition signKeyHandler : handler unit :=
  fun X c env s =>
    match c in ext X return gmap string string * unit * (value + X) with
    | FlowBlockchain_getSignKey _ => (env, s, inr {| sk_address := "0x01"; sk_keyId := 7 |})
    | _ => (env, s, inl (Prim (JsString "unexpected call")))
    end.

(** What running a signer function does to [process.env]. *)
Definition runSigner (sg : signer) (env : gmap string string) : gmap string string :=
  match sg with
  | ApiSigner isPayer keyHash =>
      process_env (finalWorld (run signKeyHandler
                                 (Flow.apiSigner (D := sampleDeps) isPayer keyHash)
                                 {| process_env := env; heap := ∅; outside := tt |}))
  | _ => env
  end.

(** Collaborators that fulfil every call of a transfer, except that the
    access node rejects the submission when [failSend] is set and the hosted
    API rejects the broadcast that releases the proposal key when
    [failRelease] is set. The access node runs the proposer's signer function
    before it answers. *)
Definition flowHandler (failSend failRelease : bool) : handler unit :=
  fun X c env s =>
    match c in ext X return gmap string string * unit * (value + X) with
    | Date_now => (env, s, inr 1700000000000)
    | Invoke f _ =>
        (env, s, inr {| cb_value := f; cb_signer := f; cb_keyHash := JsUndefined |})
    | Fcl_config_put _ _ => (env, s, inr tt)
    | Fcl_send ix =>
        (runSigner (ix_proposer ix) env, s,
         if failSend then inl (Prim (JsString "access node unavailable"))
         else inr {| transactionId := JsString "f00d"; resp_handle := 1 |})
    | Fcl_tx_onceSealed _ => (env, s, inr {| st_error := JsString ""; st_events := [] |})
    | FlowBlockchain_broadcast _ _ _ =>
        (env, s,
         if failRelease then inl (Prim (JsString "503 Service Unavailable"))
         else inr (Prim JsUndefined))
    | _ => (env, s, inl (Prim (JsString "unexpected call")))
    end.

(** Collaborators of the custodial services with fixed answers: the token
    has [decimals] decimals. *)
Definition custodialHandler (decimals : N) : handler unit :=
  fun X c env s =>
    match c in ext X return gmap string string * unit * (value + X) with
    | EvmBasedUtils_decimals _ _ => (env, s, inr decimals)
    | HelperPrepareSCCall _ _ _ _ _ => (env, s, inr (JsString "0xf86c"))
    | PrepareTransferFromCustodialWalletAbstract _ _ _ _ => (env, s, inr (JsString "0xf86d"))
    | PrepareBatchTransferFromCustodialWalletAbstract _ _ _ _ => (env, s, inr (JsString "0xf86e"))
    | BroadcastFunction _ => (env, s, inr (Object {[ "txId" := JsString "0x9a" ]}))
    | GasPumpService_transferCustodialWallet _
    | GasPumpService_transferCustodialWalletBatch _
    | GasPumpService_approveTransferCustodialWallet _
    | GasPumpService_generateCustodialWalletBatch _ =>
        (env, s, inr (Object {[ "signatureId" := JsString "26d3883e" ]}))
    | _ => (env, s, inl (Prim (JsString "unexpected call")))
    end.

(** Sample request bodies. *)
Definition kmsBody : obj :=
  {[ "chain" := JsString "ETH";
     "custodialAddress" := JsString "0x009bc01b990e2781e8a961fd792f4ebb12a683b2";
     "tokenAddress" := JsString "0x2791bca1f2de4661ed88a30c99a7a9449aa84174";
     "contractType" := JsNumber (S754_zero false);
     "spender" := JsString "0x8cb76aed9c5e336ef961265c6079c14e9cd3d2ea";
     "amount" := JsString "1.5";
     "signatureId" := JsString "26d3883e-4e17-48b3-a0ee-09a3e484ac83" ]}.

Definition approveBody (amount : string) : obj :=
  {[ "chain" := JsString "ETH";
     "custodialAddress" := JsString "0x009bc01b990e2781e8a961fd792f4ebb12a683b2";
     "tokenAddress" := JsString "0x2791bca1f2de4661ed88a30c99a7a9449aa84174";
     "contractType" := JsNumber (S754_zero false);
     "spender" := JsString "0x8cb76aed9c5e336ef961265c6079c14e9cd3d2ea";
     "amount" := JsString amount;
     "fromPrivateKey" := JsString "0x05e150c73f1920ec14caa1e0b6aa09940899678051a78542840c2668ce5080c2" ]}.

Definition transferFlowBody (amount : string) : obj :=
  {[ "account" := JsString "0x955cd3f17b2fd8ad";
     "currency" := JsString "FLOW";
     "to" := JsString "0xABC";
     "amount" := JsString amount;
     "privateKey" := JsString "37afa218d41d9cd6a2c6f2b96d9eaa3ad96c598252bc50e4d45d62f9356a51f8" ]}.

Definition emptyWorld : world unit :=
  {| process_env := ∅; heap := ∅; outside := tt |}.

(** A testnet transfer of [amount] FLOW, signed with a local key and the
    API's proposer and payer, against [flowHandler]. *)
Definition sampleTransfer (failSend failRelease : bool) (amount : string)
  : world unit * list event * (exn + obj) :=
  run (flowHandler failSend failRelease)
    (Flow.sendTransaction (D := sampleDeps) true (transferFlowBody amount) None None)
    emptyWorld.

(** A world in which reference [1] holds [body]. *)
Definition worldWith (body : obj) : world unit :=
  {| process_env := ∅; heap := {[ 1%positive := body ]}; outside := tt |}.

(** The value of a run of decimal digits read after [acc]. *)
Fixpoint uintValue (d : Decimal.uint) (acc : Z) : Z :=
  match d with
  | Decimal.Nil => acc
  | Decimal.D0 l => uintValue l (10 * acc)
  | Decimal.D1 l => uintValue l (10 * acc + 1)
  | Decimal.D2 l => uintValue l (10 * acc + 2)
  | Decimal.D3 l => uintValue l (10 * acc + 3)
  | Decimal.D4 l => uintValue l (10 * acc + 4)
  | Decimal.D5 l => uintValue l (10 * acc + 5)
  | Decimal.D6 l => uintValue l (10 * acc + 6)
  | Decimal.D7 l => uintValue l (10 * acc + 7)
  | Decimal.D8 l => uintValue l (10 * acc + 8)
  | Decimal.D9 l => uintValue l (10 * acc + 9)
  end.

(** The proposal key index read back for a key name: the entry of
    [process.env] under that name through [parseInt], [0] when the entry is
    missing or empty. *)
Definition registeredKey (env : gmap string string) (keyHash : JsVal) : JsVal :=
  JsNumber (parseInt match env !! ToString keyHash with
                     | Some s => if String.eqb s "" then "0" else s
                     | None => "0"
                     end).

(** The state a call leaves behind: [process.env] and the collaborators'
    own state as the call left them, the caller's objects as they were. *)
Definition after {S : Type} (w : world S) (env : gmap string string) (s : S) : world S :=
  {| process_env := env; heap := heap w; outside := s |}.

(** The first contract call prepared on a trace: the body it is made on,
    the method, the parameters, the provider and the ABI. *)
Fixpoint preparedCall (tr : list event) : option (obj * string * list JsVal * JsVal * abi) :=
  match tr with
  | [] => None
  | Called (HelperPrepareSCCall b m ps pv a) :: _ => Some (b, m, ps, pv, a)
  | _ :: rest => preparedCall rest
  end.

(** The chain reports [status] for every confirmation it is asked for. *)
Definition confirms {S : Type} (h : handler S) (status : sealedStatus) : Prop :=
  forall (response : fclResponse) (env : gmap string string) (s : S),
    snd (h _ (Fcl_tx_onceSealed response) env s) = inr status.

(** A call that stops where key resolution [k] stopped: with its error
    when that failed, and with [FLOW_MISSING_PRIVATE_KEY] when it yielded
    an empty key; in the state it left and with no further call. *)
Definition stoppedAt {S A : Type} (k : world S * list event * (exn + JsVal))
    (r : world S * list event * (exn + A)) : Prop :=
  match outcome k with
  | inl e => r = (finalWorld k, trace k, inl e)
  | inr pk =>
      ToBoolean pk = false ->
      r = (finalWorld k, trace k, inl (FlowSdkErrorOfCode FLOW_MISSING_PRIVATE_KEY))
  end.

(** An argument as it reaches the access node. *)
Definition sentArg (value : JsVal) (type : string) : fclArg :=
  {| fcl_value := value; fcl_type := FclScalar type |}.

(** An interaction authorized by the local signer of a non-empty key and
    the account of the body, key index 0, and by nobody else, with a
    computation limit of 1000. *)
Definition signedByBody (body : obj) (ix : fclInteraction) : Prop :=
  ix_limit ix = 1000
  /\ exists pk, ToBoolean pk = true
                /\ ix_authorizations ix = [LocalSigner pk (get body "account") 0].

(** ** Further sample collaborators and requests *)

(** Vendor functions as in [sampleDeps], with a signature whose [r] does
    not fit in 32 bytes. *)
Definition wideDeps : Deps := {|
  Currency_XRP := "XRP";
  Blockchain_FLOW := "FLOW";
  bignumber_parseNumeric := fun _ => BigNumber.NaN;
  rippleAPI_sign := fun tx secret =>
    inr {| signedTransaction := "12000022" ++ ToString tx; rs_id := "A1B2" |};
  SHA3_256 := fun msg => msg;
  secp256k1_sign := fun _ _ => (2 ^ 256, 258);
  fcl_sansPrefix := fun a => a;
  fcl_withPrefix := fun a => a;
  prepareTransferTxTemplate := fun testnet address name storage =>
    "import " ++ name ++ " from " ++ address
|}.

(** Script templates named after the operation and the network. *)
Definition sampleTemplate (name : string) (testnet : bool) : string :=
  name ++ (if testnet then " on testnet" else " on mainnet").

(** A key encoder that accepts every key. *)
Definition sampleEncodeKey (publicKey : JsVal) (weight : Z) : exn + string :=
  inr (ToString publicKey ++ "/" ++ Flow.integerString weight).

(** Events whose payload is written beside their type. *)
Definition sampleEventData (e : obj) : option obj := Some e.

(** Collaborators that fulfil every call of a transaction and report
    [events] when it is sealed. *)
Definition sealingHandler (events : list obj) : handler unit :=
  fun X c env s =>
    match c in ext X return gmap string string * unit * (value + X) with
    | Date_now => (env, s, inr 1700000000000)
    | Invoke f _ =>
        (env, s, inr {| cb_value := f; cb_signer := f; cb_keyHash := JsUndefined |})
    | Fcl_config_put _ _ => (env, s, inr tt)
    | Fcl_send ix =>
        (runSigner (ix_proposer ix) env, s,
         inr {| transactionId := JsString "f00d"; resp_handle := 1 |})
    | Fcl_tx_onceSealed _ => (env, s, inr {| st_error := JsString ""; st_events := events |})
    | FlowBlockchain_broadcast _ _ _ => (env, s, inr (Prim JsUndefined))
    | _ => (env, s, inl (Prim (JsString "unexpected call")))
    end.

Definition mintedEvent : obj :=
  {[ "type" := JsString "A.87fe4ebd0cddde06.TatumMultiNFT.Minted";
     "id" := JsNumber (of_Z 42) ]}.

Definition accountCreatedEvent : obj :=
  {[ "type" := JsString "flow.AccountCreated";
     "address" := JsString "0x955cd3f17b2fd8ad" ]}.

(** A transaction with the hosted API's signers and a registered key name. *)
Definition sampleTransaction : Flow.Transaction := {|
  Flow.tx_code := "transaction { }";
  Flow.tx_args := [];
  Flow.tx_proposer := ApiSigner false 1700000000000;
  Flow.tx_authorizations :=
    [LocalSigner (JsString "37afa218") (JsString "0x955cd3f17b2fd8ad") 0];
  Flow.tx_payer := ApiSigner true 1700000000000;
  Flow.tx_keyHash := JsString "FLOW_PROPOSAL_KEY_1700000000000"
|}.

Definition nftBody : obj :=
  {[ "account" := JsString "0x955cd3f17b2fd8ad";
     "to" := JsString "0xABC";
     "tokenId" := JsString "42";
     "url" := JsString "ipfs://QmXJ";
     "contractAddress" := JsString "2d103773-50e2-4a37-ac3d-61bc6af8faee";
     "privateKey" := JsString "37afa218d41d9cd6a2c6f2b96d9eaa3ad96c598252bc50e4d45d62f9356a51f8" ]}.

(** A request with a mnemonic and a derivation index in place of the key. *)
Definition mnemonicBody (index : Z) : obj :=
  {[ "account" := JsString "0x955cd3f17b2fd8ad";
     "to" := JsString "0xABC";
     "amount" := JsString "1.5";
     "mnemonic" := JsString "urge pulp usage sister evidence arrest palm math please chief egg abuse";
     "index" := JsNumber (of_Z index) ]}.

Definition feesCoveredBody : obj :=
  {[ "chain" := JsString "MATIC";
     "batchCount" := JsNumber (of_Z 10);
     "owner" := JsString "0x8cb76aed9c5e336ef961265c6079c14e9cd3d2ea";
     "feesCovered" := JsBool true ]}.

(** A hosted API that answers the generation of a wallet batch. *)
Definition apiHandler (answer : value) : handler unit :=
  fun X c env s =>
    match c in ext X return gmap string string * unit * (value + X) with
    | ApiServices_generateCustodialWalletBatch _ => (env, s, inr answer)
    | _ => (env, s, inl (Prim (JsString "unexpected call")))
    end.

(* ===================================================================== *)
(** * Properties *)
(* ===================================================================== *)

(** ** Running composed programs *)

Section RunLemmas.
Context {S : Type} (h : handler S).

Lemma run_bind {A B : Type} (p : prog A) (f : A -> prog B) (w : world S) :
  run h (bind p f) w =
  match run h p w with
  | (w1, t1, inl e) => (w1, t1, inl e)
  | (w1, t1, inr a) =>
      let '(w2, t2, r) := run h (f a) w1 in (w2, (t1 ++ t2)%list, r)
  end.
Proof.
  revert w. induction p as [a|e|X c k IH|key k IH|key val k IH|key k IH|l k IH|l fld k IH];
    intros w; simpl.
  - destruct (run h (f a) w) as [[w2 t2] r]. reflexivity.
  - reflexivity.
  - destruct (h X c (process_env w) (outside w)) as [[env' s'] r].
    rewrite IH.
    destruct (run h (k (settle r)) _) as [[w1 t1] [e|a]]; [reflexivity|].
    destruct (run h (f a) w1) as [[w2 t2] r2]. reflexivity.
  - apply IH.
  - apply IH.
  - apply IH.
  - apply IH.
  - apply IH.
Qed.

Lemma run_mbind {A B : Type} (p : prog A) (f : A -> prog B) (w : world S) :
  run h (p ≫= f) w =
  match run h p w with
  | (w1, t1, inl e) => (w1, t1, inl e)
  | (w1, t1, inr a) =>
      let '(w2, t2, r) := run h (f a) w1 in (w2, (t1 ++ t2)%list, r)
  end.
Proof. apply run_bind. Qed.

Lemma run_tryCatch {A : Type} (p : prog A) (hd : exn -> prog A) (w : world S) :
  run h (tryCatch p hd) w =
  match run h p w with
  | (w1, t1, inl e) =>
      let '(w2, t2, r) := run h (hd e) w1 in (w2, (t1 ++ t2)%list, r)
  | (w1, t1, inr a) => (w1, t1, inr a)
  end.
Proof.
  revert w. induction p as [a|e|X c k IH|key k IH|key val k IH|key k IH|l k IH|l fld k IH];
    intros w; simpl.
  - reflexivity.
  - destruct (run h (hd e) w) as [[w2 t2] r]. reflexivity.
  - destruct (h X c (process_env w) (outside w)) as [[env' s'] r].
    rewrite IH.
    destruct (run h (k (settle r)) _) as [[w1 t1] [e|a]]; [|reflexivity].
    destruct (run h (hd e) w1) as [[w2 t2] r2]. reflexivity.
  - apply IH.
  - apply IH.
  - apply IH.
  - apply IH.
  - apply IH.
Qed.

Lemma run_tryFinally {A : Type} (p : prog A) (fin : prog unit) (w : world S) :
  run h (tryFinally p fin) w =
  let '(w1, t1, r1) := run h p w in
  let '(w2, t2, r2) := run h fin w1 in
  (w2, (t1 ++ t2)%list, match r2 with inl e => inl e | inr _ => r1 end).
Proof.
  revert w. induction p as [a|e|X c k IH|key k IH|key val k IH|key k IH|l k IH|l fld k IH];
    intros w; simpl.
  - rewrite run_bind. destruct (run h fin w) as [[w2 t2] [e|u]]; simpl.
    + reflexivity.
    + rewrite app_nil_r. reflexivity.
  - rewrite run_bind. destruct (run h fin w) as [[w2 t2] [e'|u]]; simpl.
    + reflexivity.
    + rewrite app_nil_r. reflexivity.
  - destruct (h X c (process_env w) (outside w)) as [[env' s'] r].
    rewrite IH.
    destruct (run h (k (settle r)) _) as [[w1 t1] r1].
    destruct (run h fin w1) as [[w2 t2] r2]. reflexivity.
  - apply IH.
  - apply IH.
  - apply IH.
  - apply IH.
  - apply IH.
Qed.

Lemma run_await {X : Type} (c : ext X) (w : world S) :
  run h (await c) w =
  let '(env', s', r) := h X c (process_env w) (outside w) in
  ({| process_env := env'; heap := heap w; outside := s' |}, [Called c], settle r).
Proof.
  unfold await. simpl.
  destruct (h X c (process_env w) (outside w)) as [[env' s'] [v|x]]; reflexivity.
Qed.

End RunLemmas.

(** ** XRP *)

Section XrpProperties.
Context `{D : Deps}.

Lemma strictEqString_true (v : JsVal) (s : string) :
  strictEqString v s = true <-> v = JsString s.
Proof.
  destruct v; simpl; split; intros H; try discriminate.
  - apply String.eqb_eq in H. subst. reflexivity.
  - inversion H. apply String.eqb_refl.
Qed.

(** C9. [xrpKmsService.sign] raises KMS_CHAIN_MISMATCH exactly when the chain
    of the pending transaction is not XRP, and on an XRP transaction its
    outcome is the one of the vendor's signing call on the serialized
    transaction and the secret: the signed transaction when that call
    succeeds. *)
Theorem xrp_sign_chain_mismatch (tx : obj) (secret : string) :
  (Xrp.sign tx secret = Throw (XrpSdkError KMS_CHAIN_MISMATCH)
     <-> get tx "chain" <> JsString Currency_XRP)
  /\ (get tx "chain" = JsString Currency_XRP ->
      Xrp.sign tx secret =
      match rippleAPI_sign (get tx "serializedTransaction") secret with
      | inr signed => Ret (signedTransaction signed)
      | inl reason => Throw (Rejected reason)
      end).
Proof.
  unfold Xrp.sign. split.
  - destruct (strictEqString (get tx "chain") Currency_XRP) eqn:E; simpl.
    + apply strictEqString_true in E. split.
      * destruct (rippleAPI_sign _ _); discriminate.
      * intros Hne. contradiction.
    + split; [|reflexivity]. intros _ Heq.
      apply strictEqString_true in Heq. congruence.
  - intros Hc. apply strictEqString_true in Hc. rewrite Hc. simpl.
    destruct (rippleAPI_sign _ _); reflexivity.
Qed.

End XrpProperties.

Lemma xrp_sign_chain_mismatch_witness :
  Xrp.sign (D := sampleDeps)
    {[ "chain" := JsString "XRP"; "serializedTransaction" := JsString "{}" ]}
    "snoPBrXtMeMyMHUVTgbuqAfg1SUTb"
  = Ret "12000022{}".
Proof.
  rewrite (proj2 (xrp_sign_chain_mismatch (D := sampleDeps)
    {[ "chain" := JsString "XRP"; "serializedTransaction" := JsString "{}" ]}
    "snoPBrXtMeMyMHUVTgbuqAfg1SUTb")).
  - vm_compute. reflexivity.
  - vm_compute. reflexivity.
Defined.

(** ** Flow: the signer *)

Section SignerProperties.
Context `{D : Deps}.

Lemma byteVal_byteOfZ (v : Z) : 0 <= v < 256 -> Flow.byteVal (Flow.byteOfZ v) = v.
Proof.
  intros Hv. unfold Flow.byteVal, Flow.byteOfZ.
  assert (Hn : Byte.to_N (byte_of_ascii (ascii_of_N (Z.to_N v))) = Z.to_N v).
  { set (a := ascii_of_N (Z.to_N v)).
    assert (Ha : N_of_ascii a = Z.to_N v) by (apply N_ascii_embedding; lia).
    rewrite <- Ha.
    rewrite <- (ascii_of_byte_of_ascii a) at 2.
    rewrite ascii_of_byte_via_N.
    symmetry. apply N_ascii_embedding.
    pose proof (Byte.to_N_bounded (byte_of_ascii a)). lia. }
  rewrite Hn. lia.
Qed.

Lemma length_bigEndian (n : Z) (len : nat) : length (Flow.bigEndian n len) = len.
Proof. induction len as [|k IH]; simpl; [reflexivity | now rewrite IH]. Qed.

Lemma fold_bigEndian (n : Z) (len : nat) (acc : Z) :
  0 <= n ->
  fold_left (fun a b => 256 * a + Flow.byteVal b) (Flow.bigEndian n len) acc
  = acc * 256 ^ Z.of_nat len + n mod 256 ^ Z.of_nat len.
Proof.
  intros Hn. revert acc. induction len as [|k IH]; intros acc.
  - simpl. rewrite Z.mod_1_r. lia.
  - cbn [Flow.bigEndian fold_left]. rewrite IH.
    rewrite byteVal_byteOfZ by (apply Z.mod_pos_bound; lia).
    rewrite Nat2Z.inj_succ, Z.pow_succ_r by lia.
    assert (Hp : 0 < 256 ^ Z.of_nat k) by (apply Z.pow_pos_nonneg; lia).
    rewrite (Z.mul_comm 256 (256 ^ Z.of_nat k)).
    rewrite (Z.rem_mul_r n (256 ^ Z.of_nat k) 256) by lia.
    lia.
Qed.

Lemma bigEndianValue_bigEndian (n : Z) (len : nat) :
  0 <= n < 256 ^ Z.of_nat len ->
  Flow.bigEndianValue (Flow.bigEndian n len) = n.
Proof.
  intros [Hn Hlt]. unfold Flow.bigEndianValue.
  rewrite fold_bigEndian by assumption.
  rewrite Z.mod_small by lia. lia.
Qed.

Lemma length_Buffer_toString_hex (buf : list byte) :
  String.length (Flow.Buffer_toString_hex buf) = (2 * length buf)%nat.
Proof. induction buf as [|b rest IH]; simpl; [reflexivity | rewrite IH; lia]. Qed.

Lemma toArrayLike_fits (n : Z) :
  0 <= n < 2 ^ 256 -> Flow.toArrayLike n 32 = inr (Flow.bigEndian n 32).
Proof.
  intros [Hn Hlt]. unfold Flow.toArrayLike, Flow.byteLength.
  destruct (n <=? 0) eqn:E0; [reflexivity|].
  apply Z.leb_gt in E0.
  assert (Hl : Z.log2 n < 256) by (apply Z.log2_lt_pow2; lia).
  assert (Hd : (Z.log2 n + 8) / 8 < 33).
  { apply Z.div_lt_upper_bound; lia. }
  destruct ((Z.log2 n + 8) / 8 <=? Z.of_nat 32) eqn:E; [reflexivity|].
  apply Z.leb_gt in E. lia.
Qed.

(** C7. For every private key and message, with [(r, s)] the
    ECDSA-secp256k1 signature of the SHA3-256 digest of the message (both
    below [2^256], as the curve order is), the Flow signer returns the hex
    encoding of the 32-byte big-endian [r] followed by the 32-byte
    big-endian [s]: a string of 128 characters. *)
Theorem flow_sign_encoding (pk : JsVal) (msg : list byte) (r s : Z) :
  secp256k1_sign pk (SHA3_256 msg) = (r, s) ->
  0 <= r < 2 ^ 256 ->
  0 <= s < 2 ^ 256 ->
  exists rb sb : list byte,
    Flow.sign pk msg = inr (Flow.Buffer_toString_hex (rb ++ sb)%list)
    /\ length rb = 32%nat /\ Flow.bigEndianValue rb = r
    /\ length sb = 32%nat /\ Flow.bigEndianValue sb = s
    /\ String.length (Flow.Buffer_toString_hex (rb ++ sb)%list) = 128%nat.
Proof.
  intros Hsig Hr Hs.
  exists (Flow.bigEndian r 32), (Flow.bigEndian s 32).
  unfold Flow.sign. rewrite Hsig.
  rewrite (toArrayLike_fits r Hr), (toArrayLike_fits s Hs).
  split; [reflexivity|].
  split; [apply length_bigEndian|].
  split; [apply bigEndianValue_bigEndian; change (Z.of_nat 32) with 32;
          change (256 ^ 32) with (2 ^ 256); exact Hr|].
  split; [apply length_bigEndian|].
  split; [apply bigEndianValue_bigEndian; change (Z.of_nat 32) with 32;
          change (256 ^ 32) with (2 ^ 256); exact Hs|].
  rewrite length_Buffer_toString_hex, length_app, !length_bigEndian. reflexivity.
Qed.

End SignerProperties.

Lemma flow_sign_encoding_witness :
  exists rb sb : list byte,
    Flow.sign (D := sampleDeps) (JsString "c0ffee") [x01; x02; x03]
      = inr (Flow.Buffer_toString_hex (rb ++ sb)%list)
    /\ length rb = 32%nat /\ Flow.bigEndianValue rb = 2 ^ 255 + 19
    /\ length sb = 32%nat /\ Flow.bigEndianValue sb = 258
    /\ String.length (Flow.Buffer_toString_hex (rb ++ sb)%list) = 128%nat.
Proof.
  apply (flow_sign_encoding (D := sampleDeps) (JsString "c0ffee") [x01; x02; x03]
           (2 ^ 255 + 19) 258).
  - reflexivity.
  - split; [vm_compute; discriminate | vm_compute; reflexivity].
  - split; [vm_compute; discriminate | vm_compute; reflexivity].
Defined.

(** ** Flow: key resolution *)

(** [getPrivateKey] does what the reference resolution says on every body
    whose [index] is not both falsy and [>= 0] (the number zero, in
    particular): it returns the private key when there is one, whatever the
    mnemonic; else asks the wallet for the key of mnemonic and index when
    the mnemonic is present and the index is non-negative; else fails. *)
Lemma getPrivateKey_refines_reference (body : obj) :
  ToBoolean (get body "index") = true \/ geZero (get body "index") = false ->
  resolutionOf (Flow.getPrivateKey body) = Some (resolve_reference body).
Proof.
  intros Hidx. unfold Flow.getPrivateKey, resolve_reference.
  destruct (ToBoolean (get body "privateKey")); [reflexivity|].
  destruct (ToBoolean (get body "mnemonic")); simpl; [|reflexivity].
  destruct Hidx as [Ht|Hg].
  - rewrite Ht. simpl. destruct (geZero (get body "index")); reflexivity.
  - rewrite Hg. rewrite andb_false_r. reflexivity.
Qed.

(** With a private key present, the key is returned as it is and the wallet
    is not asked, mnemonic or not. *)
Lemma getPrivateKey_privateKey_first (body : obj) :
  ToBoolean (get body "privateKey") = true ->
  Flow.getPrivateKey body = Ret (get body "privateKey").
Proof. intros H. unfold Flow.getPrivateKey. rewrite H. reflexivity. Qed.

(** C2. Key resolution departs from its reference definition at index 0:
    with a mnemonic and [index = 0] (so [index >= 0]) and no private key,
    the reference derives the key from mnemonic and index, while
    [getPrivateKey] throws the missing-mnemonic error without asking the
    wallet, because it tests [index] for truthiness before [index >= 0]. *)
Theorem getPrivateKey_index_zero :
  let body : obj := {[ "mnemonic" := JsString "urge pulp usage sister evidence arrest palm math please chief egg abuse";
                       "index" := JsNumber (of_Z 0) ]} in
  Flow.getPrivateKey body = Throw (FlowSdkErrorOfCode FLOW_MISSING_MNEMONIC)
  /\ resolve_reference body
     = DerivedFrom (JsString "urge pulp usage sister evidence arrest palm math please chief egg abuse")
                   (JsNumber (S754_zero false))
  /\ geZero (get body "index") = true.
Proof. vm_compute. repeat split; reflexivity. Qed.

(** ** EVM custodial wallets: dispatch *)

Section CustodialDispatch.
Context `{D : Deps} {S : Type} (h : handler S).

Ltac unfold_prog := unfold mbind, prog_bind, mret, prog_ret; cbn [bind load run].

(** C5. A custodial transfer, batch transfer or approve [send] whose body
    has [signatureId] set (a truthy value) makes exactly one collaborator
    call, the one to the KMS endpoint of GasPumpService, with the body as it
    is: nothing is prepared or signed locally, the broadcast function is not
    invoked, and the body is left as it was. *)
Theorem custodial_send_signatureId_routes_to_kms
    (w : world S) (body : loc) (provider testnet : JsVal) :
  let o := deref (heap w) body in
  let transfer := run h (Custodial.send.transferFromCustodialWallet body provider testnet) w in
  let batch := run h (Custodial.send.batchTransferFromCustodialWallet body provider testnet) w in
  let approve := run h (Custodial.send.approveFromCustodialWallet body provider) w in
  ToBoolean (get o "signatureId") = true ->
  (trace transfer = [Called (GasPumpService_transferCustodialWallet o)]
   /\ trace batch = [Called (GasPumpService_transferCustodialWalletBatch o)]
   /\ trace approve = [Called (GasPumpService_approveTransferCustodialWallet o)])
  /\ (forallb (fun ev => negb (isLocalCall ev)) (trace transfer) = true
      /\ forallb (fun ev => negb (isLocalCall ev)) (trace batch) = true
      /\ forallb (fun ev => negb (isLocalCall ev)) (trace approve) = true)
  /\ (heap (finalWorld transfer) = heap w
      /\ heap (finalWorld batch) = heap w
      /\ heap (finalWorld approve) = heap w).
Proof.
  intros o transfer batch approve Hs.
  assert (Ht : transfer = run h (await (GasPumpService_transferCustodialWallet o)) w).
  { unfold transfer, Custodial.send.transferFromCustodialWallet. unfold_prog.
    fold o. rewrite Hs. reflexivity. }
  assert (Hb : batch = run h (await (GasPumpService_transferCustodialWalletBatch o)) w).
  { unfold batch, Custodial.send.batchTransferFromCustodialWallet. unfold_prog.
    fold o. rewrite Hs. reflexivity. }
  assert (Ha : approve = run h (await (GasPumpService_approveTransferCustodialWallet o)) w).
  { unfold approve, Custodial.send.approveFromCustodialWallet. unfold_prog.
    fold o. rewrite Hs. reflexivity. }
  rewrite Ht, Hb, Ha, !run_await.
  destruct (h _ (GasPumpService_transferCustodialWallet o) _ _) as [[e1 s1] r1].
  destruct (h _ (GasPumpService_transferCustodialWalletBatch o) _ _) as [[e2 s2] r2].
  destruct (h _ (GasPumpService_approveTransferCustodialWallet o) _ _) as [[e3 s3] r3].
  repeat split.
Qed.


End CustodialDispatch.

Lemma custodial_send_signatureId_routes_to_kms_witness :
  let w := worldWith kmsBody in
  let o := deref (heap w) 1%positive in
  trace (run (custodialHandler 6)
           (Custodial.send.approveFromCustodialWallet (D := sampleDeps) 1%positive JsUndefined) w)
  = [Called (GasPumpService_approveTransferCustodialWallet o)].
Proof.
  intros w o.
  refine (proj2 (proj2 (proj1
    (custodial_send_signatureId_routes_to_kms (D := sampleDeps) (custodialHandler 6)
       w 1%positive JsUndefined JsUndefined _)))).
  vm_compute. reflexivity.
Defined.

(** ** EVM custodial wallets: the approve preparation *)

Section CustodialApprove.
Context `{D : Deps} {S : Type} (h : handler S).

Ltac unfold_prog := unfold mbind, prog_bind, mret, prog_ret; cbn [bind load run].

Lemma deref_alter (hp : gmap loc obj) (l : loc) (f : string) :
  deref (alter (delete f) l hp) l = delete f (deref hp l).
Proof.
  unfold deref. rewrite lookup_alter_eq. destruct (hp !! l); simpl; [reflexivity|].
  symmetry. apply delete_empty.
Qed.

(** The run of the approve preparation, step by step: the decimals lookup
    for a fungible token, the trimmed token address, the deletion of
    [amount], and the contract call prepared on a copy of the body. *)
Lemma approve_run (w : world S) (body : loc) (provider : JsVal) :
  let o := deref (heap w) body in
  run h (Custodial.approveFromCustodialWallet body provider) w =
    let '(w1, t1, d) :=
      if strictEqNumber (get o "contractType") (S754_zero false)
      then run h (await (EvmBasedUtils_decimals (get o "tokenAddress") provider)) w
      else (w, [], inr 0%N) in
    match d with
    | inl e => (w1, t1, inl e)
    | inr decimals =>
       match get o "tokenAddress" with
       | JsString a =>
          let '(w3, t3, r3) :=
            run h (await (HelperPrepareSCCall
                     (<["contractAddress" := get (delete "amount" o) "custodialAddress"]>
                        (delete "amount" o))
                     "approve" (Custodial.approveParams o (JsString (trim a)) decimals)
                     provider CustodialFullTokenWallet_abi))
              {| process_env := process_env w1;
                 heap := alter (delete "amount") body (heap w);
                 outside := outside w1 |} in
          (w3, (t1 ++ t3)%list, r3)
       | JsUndefined | JsNull =>
          (w1, t1, inl (TypeError "Cannot read properties of undefined (reading 'trim')"))
       | _ => (w1, t1, inl (TypeError "trim is not a function"))
       end
    end.
Proof.
  intros o. unfold Custodial.approveFromCustodialWallet. unfold_prog. fold o.
  destruct (strictEqNumber (get o "contractType") (S754_zero false)).
  - rewrite !run_await. unfold await. cbn [bind run].
    destruct (h _ (EvmBasedUtils_decimals (get o "tokenAddress") provider)
                (process_env w) (outside w))
      as [[e1 s1] [v|decimals]]; cbn [settle bind run heap process_env outside].
    + reflexivity.
    + fold o. destruct (get o "tokenAddress") eqn:Et; unfold Custodial.trimmed;
        unfold_prog; try reflexivity.
      cbn [deleteField bind run heap process_env outside].
      rewrite deref_alter. fold o.
      destruct (h _ _ e1 s1) as [[e3 s3] [v|x]]; reflexivity.
  - cbn [bind run]. fold o.
    destruct (get o "tokenAddress") eqn:Et; unfold Custodial.trimmed;
      unfold_prog; try reflexivity.
    cbn [deleteField bind run heap process_env outside].
    rewrite deref_alter. fold o. unfold await. cbn [run process_env outside heap].
    destruct (h _ _ (process_env w) (outside w)) as [[e3 s3] [v|x]]; reflexivity.
Qed.

(** C10. After the custodial approve preparation has run on a body, the
    [amount] field of the body is absent (it is deleted once the parameters
    are built: whenever the preparation returns, and whenever it got as far
    as preparing the contract call), every other field of the body is as
    before, and no other object is touched. *)
Theorem approve_deletes_amount_only (w : world S) (body : loc) (provider : JsVal) :
  let o := deref (heap w) body in
  let r := run h (Custodial.approveFromCustodialWallet body provider) w in
  let o' := deref (heap (finalWorld r)) body in
  (forall txData, outcome r = inr txData -> o' !! "amount" = None)
  /\ (forall params, preparedParams (trace r) = Some params -> o' !! "amount" = None)
  /\ (forall f, f <> "amount" -> o' !! f = o !! f)
  /\ (forall l, l <> body -> heap (finalWorld r) !! l = heap w !! l).
Proof.
  intros o r o'.
  assert (Hcases : (heap (finalWorld r) = heap w
                    /\ (forall x, outcome r <> inr x) /\ preparedParams (trace r) = None)
                   \/ heap (finalWorld r) = alter (delete "amount") body (heap w)).
  { unfold r. rewrite approve_run. fold o.
    destruct (strictEqNumber (get o "contractType") (S754_zero false)).
    - rewrite (run_await h (EvmBasedUtils_decimals (get o "tokenAddress") provider) w).
      destruct (h _ _ (process_env w) (outside w)) as [[e1 s1] [v|decimals]];
        cbn [settle]; cbv beta iota.
      + left. repeat split. intros ?; discriminate.
      + destruct (get o "tokenAddress");
          try (left; repeat split; intros ?; discriminate).
        right. rewrite run_await. cbn [process_env outside heap].
        destruct (h _ _ e1 s1) as [[e3 s3] r3]. reflexivity.
    - destruct (get o "tokenAddress");
        try (left; repeat split; intros ?; discriminate).
      right. rewrite run_await. cbn [process_env outside heap].
      destruct (h _ _ (process_env w) (outside w)) as [[e3 s3] r3]. reflexivity. }
  assert (Hdel : heap (finalWorld r) = alter (delete "amount") body (heap w) ->
                 o' = delete "amount" o).
  { intros Hh. unfold o'. rewrite Hh. apply deref_alter. }
  repeat split.
  - intros x Hx. destruct Hcases as [[_ [Hno _]]|Hh]; [now apply Hno in Hx|].
    rewrite (Hdel Hh). apply lookup_delete_eq.
  - intros params Hp. destruct Hcases as [[_ [_ Hno]]|Hh]; [congruence|].
    rewrite (Hdel Hh). apply lookup_delete_eq.
  - intros f Hf. destruct Hcases as [[Hh _]|Hh].
    + unfold o'. rewrite Hh. reflexivity.
    + rewrite (Hdel Hh). apply lookup_delete_ne. congruence.
  - intros l Hl. destruct Hcases as [[Hh _]|Hh]; rewrite Hh; [reflexivity|].
    apply lookup_alter_ne. congruence.
Qed.

End CustodialApprove.

Lemma approve_deletes_amount_only_witness :
  let w := worldWith (approveBody "1.5") in
  let r := run (custodialHandler 6)
             (Custodial.approveFromCustodialWallet (D := sampleDeps) 1%positive JsUndefined) w in
  deref (heap (finalWorld r)) 1%positive !! "amount" = None
  /\ deref (heap (finalWorld r)) 1%positive !! "spender"
     = Some (JsString "0x8cb76aed9c5e336ef961265c6079c14e9cd3d2ea").
Proof.
  intros w r.
  pose proof (approve_deletes_amount_only (D := sampleDeps) (custodialHandler 6)
                w 1%positive JsUndefined) as [Hret [_ [Hframe _]]].
  split.
  - apply (Hret (JsString "0xf86c")). vm_compute. reflexivity.
  - fold r in Hframe. rewrite (Hframe "spender") by discriminate.
    vm_compute. reflexivity.
Defined.

(** ** EVM custodial wallets: the encoded amount *)

Lemma range_inRange (neg : bool) (c e : Z) :
  0 < c -> BigNumber.inRange c e = true -> BigNumber.range neg c e = BigNumber.Finite neg c e.
Proof.
  intros Hc Hr. unfold BigNumber.range, BigNumber.inRange in *.
  apply andb_true_iff in Hr. destruct Hr as [Hlo Hhi].
  apply Z.leb_le in Hlo, Hhi.
  destruct (c <=? 0) eqn:E; [apply Z.leb_le in E; lia|].
  destruct (BigNumber.MAX_EXP <? _) eqn:E1; [apply Z.ltb_lt in E1; lia|].
  destruct (_ <? BigNumber.MIN_EXP) eqn:E2; [apply Z.ltb_lt in E2; lia|].
  reflexivity.
Qed.

Lemma toString16_integer (c e n d k : Z) :
  BigNumber.fraction c e = (n, d) -> 0 < d -> 0 <= k -> n = k * d ->
  BigNumber.toString16 (BigNumber.Finite false c e) = hexDigits k.
Proof.
  intros Hf Hd Hk Hn. unfold BigNumber.toString16. rewrite Hf.
  set (U := 16 ^ BigNumber.DECIMAL_PLACES).
  assert (HU : 0 < U) by (unfold U; apply Z.pow_pos_nonneg; [lia | discriminate]).
  assert (Hr : (2 * n * U + d) / (2 * d) = k * U).
  { subst n. replace (2 * (k * d) * U + d) with (k * U * (2 * d) + d) by ring.
    rewrite Z.div_add_l by lia. rewrite Z.div_small by lia. lia. }
  rewrite Hr. rewrite Z.mod_mul by lia. rewrite Z.div_mul by lia.
  cbn [Z.eqb andb]. reflexivity.
Qed.

Lemma fraction_pos (c e : Z) : 0 < snd (BigNumber.fraction c e).
Proof.
  unfold BigNumber.fraction. destruct (0 <=? e) eqn:E; simpl; [lia|].
  apply Z.leb_gt in E. apply Z.pow_pos_nonneg; lia.
Qed.

(** Scaling the coefficient by [10^dec] is scaling the exponent. *)
Lemma fraction_scaled (c e dec n d n1 d1 : Z) :
  0 <= dec ->
  BigNumber.fraction c (e + dec) = (n, d) ->
  BigNumber.fraction (c * 10 ^ dec) e = (n1, d1) ->
  n1 * d = n * d1.
Proof.
  intros Hdec. unfold BigNumber.fraction.
  destruct (0 <=? e + dec) eqn:E1; destruct (0 <=? e) eqn:E2;
    intros H1 H2; inversion H1; inversion H2; subst; clear H1 H2;
    try apply Z.leb_le in E1; try apply Z.leb_le in E2;
    try apply Z.leb_gt in E1; try apply Z.leb_gt in E2.
  - rewrite Z.pow_add_r by lia. ring.
  - replace dec with ((e + dec) + (- e)) at 1 by lia.
    rewrite Z.pow_add_r by lia. ring.
  - lia.
  - replace (- e) with (dec + (- (e + dec))) by lia.
    rewrite Z.pow_add_r by lia. ring.
Qed.

Section EncodedAmount.
Context `{D : Deps} {S : Type} (h : handler S).

Lemma ten_value : Custodial.ten = BigNumber.Finite false 10 0.
Proof. vm_compute. reflexivity. Qed.

Lemma scanNumeric_nonempty (s : string) r : BigNumber.scanNumeric s = Some r -> s <> "".
Proof. intros H ->. vm_compute in H. discriminate. Qed.

Lemma encodedAmount_integer (amount : string) (c e : Z) (decimals : N) :
  BigNumber.scanNumeric amount = Some (false, c, e) ->
  0 < c ->
  BigNumber.inRange c e = true ->
  BigNumber.inRange (10 ^ Z.of_N decimals) 0 = true ->
  BigNumber.inRange (c * 10 ^ Z.of_N decimals) e = true ->
  fst (BigNumber.fraction c (e + Z.of_N decimals))
    mod snd (BigNumber.fraction c (e + Z.of_N decimals)) = 0 ->
  Custodial.encodedAmount (JsString amount) decimals = encodedAmount_reference c e decimals.
Proof.
  intros Hscan Hc Hr1 Hr2 Hr3 Hint.
  unfold Custodial.encodedAmount, encodedAmount_reference, Custodial.bigNumberOrZero.
  assert (Hne : amount <> "") by (eapply scanNumeric_nonempty; eauto).
  assert (Htb : ToBoolean (JsString amount) = true).
  { simpl. destruct (String.eqb_spec amount ""); [contradiction|reflexivity]. }
  rewrite Htb. cbn [BigNumber.of_value ToString]. unfold BigNumber.of_string.
  rewrite Hscan. rewrite (range_inRange false c e Hc Hr1).
  rewrite ten_value.
  assert (Hp10 : 0 < 10 ^ Z.of_N decimals) by (apply Z.pow_pos_nonneg; lia).
  assert (Hprod : BigNumber.multipliedBy (BigNumber.Finite false c e)
                    (BigNumber.pow (BigNumber.Finite false 10 0) decimals)
                  = BigNumber.Finite false (c * 10 ^ Z.of_N decimals) e).
  { unfold BigNumber.pow. destruct (decimals =? 0)%N eqn:E0.
    - apply N.eqb_eq in E0. subst decimals. cbn [BigNumber.multipliedBy xorb].
      change (Z.of_N 0) with 0 in *. rewrite Z.pow_0_r in *. rewrite Z.add_0_r.
      apply range_inRange; [lia | assumption].
    - cbn [andb]. rewrite Z.mul_0_l.
      rewrite (range_inRange false _ 0 Hp10 Hr2).
      cbn [BigNumber.multipliedBy xorb]. rewrite Z.add_0_r.
      apply range_inRange; [lia | assumption]. }
  rewrite Hprod.
  destruct (BigNumber.fraction c (e + Z.of_N decimals)) as [n d] eqn:Ef.
  destruct (BigNumber.fraction (c * 10 ^ Z.of_N decimals) e) as [n1 d1] eqn:Ef1.
  cbn [fst snd] in Hint.
  pose proof (fraction_pos c (e + Z.of_N decimals)) as Hd. rewrite Ef in Hd. cbn in Hd.
  pose proof (fraction_pos (c * 10 ^ Z.of_N decimals) e) as Hd1. rewrite Ef1 in Hd1. cbn in Hd1.
  pose proof (fraction_scaled c e (Z.of_N decimals) n d n1 d1 ltac:(lia) Ef Ef1) as Hsc.
  assert (Hn : n = n / d * d).
  { pose proof (Z.div_mod n d ltac:(lia)). lia. }
  assert (Hnn : 0 <= n).
  { unfold BigNumber.fraction in Ef. destruct (0 <=? e + Z.of_N decimals); inversion Ef; subst.
    - apply Z.mul_nonneg_nonneg; [lia|]. apply Z.pow_nonneg. lia.
    - lia. }
  f_equal. apply (toString16_integer _ _ n1 d1 (n / d) Ef1 Hd1).
  - apply Z.div_pos; lia.
  - apply (Z.mul_cancel_r _ _ d); [lia|]. rewrite Hsc. rewrite Hn at 1. ring.
Qed.

Lemma preparedParams_app_decimals (a provider : JsVal) (tr : list event) :
  preparedParams ([Called (EvmBasedUtils_decimals a provider)] ++ tr)%list = preparedParams tr.
Proof. reflexivity. Qed.


End EncodedAmount.



(** ** Flow: the transfer *)

(** *** Strings with a fixed number of decimals *)

Lemma length_append (s1 s2 : string) :
  String.length (s1 ++ s2) = (String.length s1 + String.length s2)%nat.
Proof.
  induction s1 as [|c s1 IH]; [reflexivity|].
  change (String.length (String c (s1 ++ s2))
          = (String.length (String c s1) + String.length s2)%nat).
  simpl. now rewrite IH.
Qed.

Lemma length_substring (s : string) (n m : nat) :
  (n + m <= String.length s)%nat -> String.length (substring n m s) = m.
Proof.
  revert n m. induction s as [|c s IH]; intros n m H; simpl in *.
  - destruct n, m; simpl in *; try lia; reflexivity.
  - destruct n.
    + destruct m; simpl; [reflexivity|]. rewrite IH by lia. reflexivity.
    + apply IH. lia.
Qed.

Lemma substring_all (s : string) : substring 0 (String.length s) s = s.
Proof. induction s as [|c s IH]; simpl; [reflexivity | now rewrite IH]. Qed.

Lemma substring_split (s : string) (k : nat) :
  (k <= String.length s)%nat ->
  substring 0 k s ++ substring k (String.length s - k) s = s.
Proof.
  revert k. induction s as [|c s IH]; intros k H; simpl in *.
  - destruct k; simpl; [reflexivity|lia].
  - destruct k; simpl.
    + change (String c (substring 0 (String.length s) s) = String c s).
      f_equal. apply substring_all.
    + change (String c (substring 0 k s ++ substring k (String.length s - k) s)
              = String c s).
      f_equal. apply IH. lia.
Qed.

Lemma length_zeros (n : Z) : String.length (zeros n) = Z.to_nat n.
Proof.
  unfold zeros. induction (Z.to_nat n) as [|k IH]; simpl; [reflexivity | now rewrite IH].
Qed.

Lemma fixedPoint_shape (n f : Z) :
  0 < f ->
  exists int frac : string,
    fixedPoint n f = int ++ "." ++ frac
    /\ strlen frac = f
    /\ 1 <= strlen int
    /\ int ++ frac = paddedDigits n f.
Proof.
  intros Hf. unfold fixedPoint, paddedDigits.
  destruct (f =? 0) eqn:E0; [apply Z.eqb_eq in E0; lia|].
  set (m := decimalDigits n).
  set (m' := if strlen m <=? f then zeros (f + 1 - strlen m) ++ m else m).
  set (k' := if strlen m <=? f then f + 1 else strlen m).
  assert (Hlen : strlen m' = k' /\ f + 1 <= k').
  { unfold m', k', strlen. destruct (Z.of_nat (String.length m) <=? f) eqn:E.
    - apply Z.leb_le in E. rewrite length_append, length_zeros. lia.
    - apply Z.leb_gt in E. lia. }
  destruct Hlen as [Hlen Hk].
  exists (take (k' - f) m'), (drop (k' - f) m').
  split; [reflexivity|].
  unfold strlen in *. unfold take, drop.
  split; [rewrite length_substring by lia; lia|].
  split; [rewrite length_substring by lia; lia|].
  apply substring_split. lia.
Qed.

Lemma nearestScaled_nearest (m : positive) (e f : Z) :
  0 <= f ->
  let n := nearestScaled m e f in
  if 0 <=? e then n = Zpos m * 2 ^ e * 10 ^ f
  else 2 * 2 ^ (- e) * n - 2 ^ (- e) <= 2 * Zpos m * 10 ^ f < 2 * 2 ^ (- e) * n + 2 ^ (- e).
Proof.
  intros Hf n. unfold n, nearestScaled. destruct (0 <=? e) eqn:E; [reflexivity|].
  apply Z.leb_gt in E.
  assert (Hq : 0 < 2 ^ (- e)) by (apply Z.pow_pos_nonneg; lia).
  set (q := 2 ^ (- e)) in *.
  pose proof (Z.div_mod (2 * Z.pos m * 10 ^ f + q) (2 * q) ltac:(lia)) as Hdm.
  pose proof (Z.mod_pos_bound (2 * Z.pos m * 10 ^ f + q) (2 * q) ltac:(lia)) as Hb.
  lia.
Qed.

(** *** Rounding a decimal to a double and back *)

(** The rounding of [roundFraction] is that of the Standard Library's
    correctly rounded division, on fractions at the edges of the format. *)
Lemma roundFraction_agrees_on_samples :
  forallb (fun '(n, d) =>
             sameNumber (roundFraction false n d) (stdlibRound false n d)
             && sameNumber (roundFraction true n d) (stdlibRound true n d))
          roundingSamples = true.
Proof. vm_compute. reflexivity. Qed.

(** [scaled n d l] is the fraction [n/d * 2^(-l)]. *)
Lemma scaled_spec (n d l K : Z) :
  0 <= K -> 0 <= K + l ->
  fst (scaled n d l) * (d * 2 ^ (K + l)) = snd (scaled n d l) * (n * 2 ^ K).
Proof.
  intros HK HKl. unfold scaled. destruct (0 <=? l) eqn:E; cbn [fst snd].
  - apply Z.leb_le in E. rewrite Z.pow_add_r by lia. ring.
  - apply Z.leb_gt in E. replace K with ((K + l) + (- l)) at 2 by lia.
    rewrite (Z.pow_add_r 2 (K + l) (- l)) by lia. ring.
Qed.

Lemma scaled_pos (n d l : Z) :
  0 < n -> 0 < d -> 0 < fst (scaled n d l) /\ 0 < snd (scaled n d l).
Proof.
  intros Hn Hd. unfold scaled. destruct (0 <=? l) eqn:E; cbn [fst snd].
  - apply Z.leb_le in E. pose proof (Z.pow_pos_nonneg 2 l). nia.
  - apply Z.leb_gt in E. pose proof (Z.pow_pos_nonneg 2 (- l)). nia.
Qed.

(** [log2Ratio n d] is the exponent of the power of two at or below [n/d]:
    [2^l <= n/d < 2^(l+1)], cleared of negative exponents by [2^K]. *)
Lemma log2Ratio_spec (n d K : Z) :
  0 < n -> 0 < d -> 0 <= K -> 0 <= K + log2Ratio n d ->
  d * 2 ^ (K + log2Ratio n d) <= n * 2 ^ K < d * 2 ^ (K + log2Ratio n d + 1).
Proof.
  intros Hn Hd HK. unfold log2Ratio.
  pose proof (Z.log2_spec n Hn) as [Ha1 Ha2].
  pose proof (Z.log2_spec d Hd) as [Hb1 Hb2].
  pose proof (Z.log2_nonneg n) as Ha0. pose proof (Z.log2_nonneg d) as Hb0.
  set (a := Z.log2 n) in *. set (b := Z.log2 d) in *.
  pose proof (scaled_pos n d (a - b) Hn Hd) as [Hn' Hd'].
  destruct (scaled n d (a - b)) as [n' d'] eqn:Es. cbn [fst snd] in *.
  assert (HK2 : 0 < 2 ^ K) by (apply Z.pow_pos_nonneg; lia).
  destruct (d' <=? n') eqn:E; intros HKl.
  - apply Z.leb_le in E.
    pose proof (scaled_spec n d (a - b) K HK HKl) as Hs. rewrite Es in Hs. cbn [fst snd] in Hs.
    split.
    + assert (0 < d * 2 ^ (K + (a - b))) by
        (pose proof (Z.pow_pos_nonneg 2 (K + (a - b))); nia).
      nia.
    + replace (K + (a - b) + 1) with ((a + 1 + K) - b) by lia.
      assert (Hp : 2 ^ (a + 1 + K) = 2 ^ b * 2 ^ (a + 1 + K - b))
        by (rewrite <- Z.pow_add_r by lia; f_equal; lia).
      assert (Hq : 2 ^ (a + 1 + K) = 2 ^ (a + 1) * 2 ^ K)
        by (rewrite <- Z.pow_add_r by lia; reflexivity).
      assert (0 < 2 ^ (a + 1 + K - b)) by (apply Z.pow_pos_nonneg; lia).
      nia.
  - apply Z.leb_gt in E.
    assert (HKl' : 0 <= K + (a - b)) by lia.
    pose proof (scaled_spec n d (a - b) K HK HKl') as Hs. rewrite Es in Hs. cbn [fst snd] in Hs.
    split.
    + replace (K + (a - b - 1)) with (a + K - (b + 1)) by lia.
      assert (Hp : 2 ^ (a + K) = 2 ^ (b + 1) * 2 ^ (a + K - (b + 1)))
        by (rewrite <- Z.pow_add_r by lia; f_equal; lia).
      assert (Hq : 2 ^ (a + K) = 2 ^ a * 2 ^ K)
        by (rewrite <- Z.pow_add_r by lia; reflexivity).
      assert (0 < 2 ^ (a + K - (b + 1))) by (apply Z.pow_pos_nonneg; lia).
      nia.
    + replace (K + (a - b - 1) + 1) with (K + (a - b)) by lia.
      assert (0 < d * 2 ^ (K + (a - b))) by
        (pose proof (Z.pow_pos_nonneg 2 (K + (a - b))); nia).
      nia.
Qed.

(** [nearestEven n d] is within one half of [n/d]. *)
Lemma nearestEven_spec (n d : Z) :
  0 <= n -> 0 < d -> - d <= 2 * (nearestEven n d * d - n) <= d.
Proof.
  intros Hn Hd. unfold nearestEven.
  pose proof (Z.div_mod n d ltac:(lia)) as Hdm.
  pose proof (Z.mod_pos_bound n d Hd) as Hb.
  set (q := n / d) in *. set (r := n mod d) in *.
  destruct (d <? 2 * r) eqn:E1; cbn [orb].
  - apply Z.ltb_lt in E1. nia.
  - apply Z.ltb_ge in E1. destruct (2 * r =? d) eqn:E2; cbn [andb].
    + apply Z.eqb_eq in E2. destruct (Z.odd q); nia.
    + apply Z.eqb_neq in E2. nia.
Qed.

(** A fraction that is [N / 10^f] for an integer [N] below [2^52] survives
    the round trip: its double is finite, below [10^21], and the integer
    nearest to the double times [10^f] is [N] again. The double is within
    [2^-53] of the fraction in relative terms, so the product is within
    [N * 2^-53 < 1/2] of [N]. *)
Lemma roundFraction_scaled (neg : bool) (n d f N : Z) :
  0 < n -> 0 < d -> 0 <= f <= 100 -> N * d = n * 10 ^ f -> N < 2 ^ 52 ->
  exists m e,
    roundFraction neg n d = S754_finite neg m e
    /\ atLeast1e21 m e = false
    /\ nearestScaled m e f = N.
Proof.
  intros Hn Hd Hf HN Hlt.
  assert (Hten : 1 <= 10 ^ f) by (pose proof (Z.pow_pos_nonneg 10 f); lia).
  assert (Hten' : 10 ^ f <= 10 ^ 100) by (apply Z.pow_le_mono_r; lia).
  assert (HNpos : 0 < N) by nia.
  set (l := log2Ratio n d).
  assert (Hhi : l <= 51).
  { destruct (Z_le_gt_dec l 51) as [|Hgt]; [assumption|exfalso].
    pose proof (log2Ratio_spec n d 0 Hn Hd ltac:(lia) ltac:(fold l; lia)) as [H1 _].
    fold l in H1. rewrite Z.add_0_l, Z.pow_0_r, Z.mul_1_r in H1. clear Hten'.
    assert (H52 : 2 ^ 52 <= 2 ^ l) by (apply Z.pow_le_mono_r; lia).
    set (P := 2 ^ 52) in *. set (Q := 2 ^ l) in *. set (T := 10 ^ f) in *.
    clearbody P Q T.
    assert (n <= n * T) by nia. assert (N * d < P * d) by nia.
    assert (P * d <= Q * d) by nia. lia. }
  assert (Hlo : -1022 <= l).
  { destruct (Z_le_gt_dec (-1022) l) as [|Hgt]; [assumption|exfalso].
    pose proof (log2Ratio_spec n d (- l) Hn Hd ltac:(lia) ltac:(fold l; lia)) as [_ H2].
    fold l in H2. replace (- l + l + 1) with 1 in H2 by lia. rewrite Z.pow_1_r in H2.
    assert (H1023 : 2 ^ 1023 <= 2 ^ (- l)) by (apply Z.pow_le_mono_r; lia).
    assert (H100 : 10 ^ 100 < 2 ^ 1022) by (vm_compute; reflexivity).
    change (2 ^ 1023) with (2 * 2 ^ 1022) in H1023.
    set (P := 2 ^ 1022) in *. set (Q := 2 ^ (- l)) in *. set (T := 10 ^ f) in *.
    set (T' := 10 ^ 100) in *. clearbody P Q T T'.
    assert (n * (2 * P) <= n * Q) by nia.
    assert (n * P < d) by lia.
    assert (n * P * T < d * T) by nia.
    assert (N * d * P < d * T) by nia.
    assert (N * P < T) by nia. nia. }
  pose proof (log2Ratio_spec n d (52 - l) Hn Hd ltac:(lia) ltac:(fold l; lia)) as [H1 H2].
  fold l in H1, H2. replace (52 - l + l) with 52 in * by lia.
  change (52 + 1) with 53 in H2.
  assert (Hq : 0 < 2 ^ (52 - l)) by (apply Z.pow_pos_nonneg; lia).
  assert (H53 : 2 ^ 53 = 2 * 2 ^ 52) by reflexivity.
  unfold roundFraction.
  replace ((n <=? 0) || (d <=? 0))%bool with false
    by (symmetry; apply Bool.orb_false_iff; split; apply Z.leb_gt; assumption).
  fold l. unfold emin, emax, prec.
  rewrite Z.max_l by lia.
  unfold scaled. replace (0 <=? l - (53 - 1)) with false by (symmetry; apply Z.leb_gt; lia).
  replace (- (l - (53 - 1))) with (52 - l) by lia.
  change (53 - 1) with 52.
  pose proof (nearestEven_spec (n * 2 ^ (52 - l)) d ltac:(nia) Hd) as Hm.
  set (q := 2 ^ (52 - l)) in *.
  set (m0 := nearestEven (n * q) d) in *.
  assert (Hm1 : 2 ^ 52 <= m0) by nia.
  assert (Hm2 : m0 <= 2 ^ 53) by nia.
  (* the nearest integer to the scaled double is N *)
  assert (Hq10 : 10 ^ f < q) by nia.
  assert (Hnear : - q < 2 * (m0 * 10 ^ f - N * q) < q) by nia.
  destruct (m0 =? 2 ^ 53) eqn:Ec.
  - apply Z.eqb_eq in Ec.
    destruct (Z.eq_dec l 51) as [El|El].
    + exfalso. unfold q in Hnear. rewrite El in Hnear. change (2 ^ (52 - 51)) with 2 in Hnear. nia.
    + assert (Hq2 : q = 2 * 2 ^ (51 - l)).
      { unfold q. replace (52 - l) with (1 + (51 - l)) by lia.
        rewrite Z.pow_add_r by lia. reflexivity. }
      assert (0 < 2 ^ (51 - l)) by (apply Z.pow_pos_nonneg; lia).
      set (q' := 2 ^ (51 - l)) in *.
      change (2 ^ 52) with (Zpos 4503599627370496).
      replace (l - 52 + 1 <=? 1024 - 53) with true by (symmetry; apply Z.leb_le; lia).
      eexists _, _. split; [reflexivity|]. split.
      * unfold atLeast1e21, fraction.
        replace (0 <=? l - 52 + 1) with false by (symmetry; apply Z.leb_gt; lia).
        replace (- (l - 52 + 1)) with (51 - l) by lia. fold q'.
        apply Z.leb_gt. change (2 ^ 52) with 4503599627370496 in *. 
        change (2 ^ 53) with 9007199254740992 in *. 
        change (10 ^ 21) with 1000000000000000000000. nia.
      * unfold nearestScaled.
        replace (0 <=? l - 52 + 1) with false by (symmetry; apply Z.leb_gt; lia).
        replace (- (l - 52 + 1)) with (51 - l) by lia. fold q'.
        symmetry. apply Z.div_unique with (r := 2 * 4503599627370496 * 10 ^ f + q' - 2 * q' * N).
        -- left. change (2 ^ 53) with 9007199254740992 in *. nia.
        -- ring.
  - apply Z.eqb_neq in Ec.
    destruct m0 as [|p|p] eqn:Em0; [exfalso; change (2 ^ 52) with 4503599627370496 in Hm1; lia| |exfalso; change (2 ^ 52) with 4503599627370496 in Hm1; lia].
    replace (l - 52 <=? 1024 - 53) with true by (symmetry; apply Z.leb_le; lia).
    eexists _, _. split; [reflexivity|]. split.
    + unfold atLeast1e21, fraction.
      replace (0 <=? l - 52) with false by (symmetry; apply Z.leb_gt; lia).
      replace (- (l - 52)) with (52 - l) by lia. fold q.
      apply Z.leb_gt. change (2 ^ 52) with 4503599627370496 in *.
      change (10 ^ 21) with 1000000000000000000000. nia.
    + unfold nearestScaled.
      replace (0 <=? l - 52) with false by (symmetry; apply Z.leb_gt; lia).
      replace (- (l - 52)) with (52 - l) by lia. fold q.
      symmetry. apply Z.div_unique with (r := 2 * Zpos p * 10 ^ f + q - 2 * q * N).
      * left. nia.
      * ring.
Qed.

(** The same for a decimal [c * 10^e] with at most [f] fractional digits. *)
Lemma of_decimal_scaled (neg : bool) (c e f : Z) :
  0 < c -> 0 <= f <= 100 -> 0 <= f + e -> c * 10 ^ (f + e) < 2 ^ 52 ->
  exists m e',
    of_decimal neg c e = S754_finite neg m e'
    /\ atLeast1e21 m e' = false
    /\ nearestScaled m e' f = c * 10 ^ (f + e).
Proof.
  intros Hc Hf Hfe Hlt. unfold of_decimal.
  replace (c <=? 0) with false by (symmetry; apply Z.leb_gt; assumption).
  destruct (0 <=? e) eqn:E.
  - apply Z.leb_le in E.
    apply (roundFraction_scaled neg (c * 10 ^ e) 1 f (c * 10 ^ (f + e)));
      [apply Z.mul_pos_pos; [assumption|apply Z.pow_pos_nonneg; lia]
      |lia|assumption| |assumption].
    rewrite (Z.add_comm f e), Z.pow_add_r by lia. ring.
  - apply Z.leb_gt in E.
    apply (roundFraction_scaled neg c (10 ^ (- e)) f (c * 10 ^ (f + e)));
      [assumption|apply Z.pow_pos_nonneg; lia|assumption| |assumption].
    rewrite <- Z.mul_assoc, <- Z.pow_add_r by lia. do 2 f_equal. lia.
Qed.

(** Such a decimal is written back by [toFixed] digit for digit. *)
Lemma toFixed_of_decimal (neg : bool) (c e f : Z) :
  0 < c -> 0 <= f <= 100 -> 0 <= f + e -> c * 10 ^ (f + e) < 2 ^ 52 ->
  toFixed (of_decimal neg c e) f =
  ((if neg then "-" else "") ++ fixedPoint (c * 10 ^ (f + e)) f)%string.
Proof.
  intros Hc Hf Hfe Hlt.
  destruct (of_decimal_scaled neg c e f Hc Hf Hfe Hlt) as [m [e' [Hx [Hbig Hn]]]].
  rewrite Hx. unfold toFixed. rewrite Hbig, Hn. reflexivity.
Qed.

(** Decimal notation starts with a digit or with the point. *)
Lemma scanDecimal_head (s : string) (r : Z * Z * string) :
  scanDecimal s = Some r ->
  exists ch s', s = String ch s' /\ (isDigit ch = true \/ code ch = 46).
Proof.
  destruct s as [|ch s']; [discriminate|].
  intros H. exists ch, s'. split; [reflexivity|].
  destruct (isDigit ch) eqn:Ed; [left; reflexivity|right].
  unfold scanDecimal in H. cbn [readDigits] in H. rewrite Ed in H.
  destruct (code ch =? 46) eqn:E46; [apply Z.eqb_eq; exact E46|].
  cbn in H. discriminate.
Qed.

(** [parseFloat] of a string that starts with decimal notation is the
    double of that decimal, whatever follows it. *)
Lemma parseFloat_scanDecimal (s : string) (c e : Z) (rest : string) :
  scanDecimal s = Some (c, e, rest) -> parseFloat s = of_decimal false c e.
Proof.
  intros H. destruct (scanDecimal_head s _ H) as [ch [s' [-> Hch]]].
  assert (Hcode : 48 <= code ch <= 57 \/ code ch = 46).
  { destruct Hch as [Hd|Hp]; [left|right; exact Hp].
    unfold isDigit in Hd. apply andb_prop in Hd as [H1 H2].
    apply Z.leb_le in H1, H2. lia. }
  assert (Hws : isWhiteSpace ch = false).
  { unfold isWhiteSpace.
    repeat (apply Bool.orb_false_iff; split); try (apply Z.eqb_neq; lia).
    apply Bool.andb_false_iff. right. apply Z.leb_gt. lia. }
  unfold parseFloat. cbn [trimStart]. rewrite Hws.
  unfold StrDecimalLiteral, readSign.
  replace (code ch =? 45) with false by (symmetry; apply Z.eqb_neq; lia).
  replace (code ch =? 43) with false by (symmetry; apply Z.eqb_neq; lia).
  cbn [andb]. unfold StrUnsignedDecimalLiteral.
  assert (Hpre : String.prefix "Infinity" (String ch s') = false).
  { cbn [String.prefix]. destruct (ascii_dec "I" ch) as [<-|]; [|reflexivity].
    change (code "I") with 73 in Hcode. lia. }
  rewrite Hpre, H. reflexivity.
Qed.

(** *** What a transfer submits *)

Section Submissions.
Context {S : Type} (h : handler S) (P : fclInteraction -> Prop).

Lemma submitted_cons {X} (c : ext X) tr :
  submitted (Called c :: tr) = match submission c with Some ix => Some ix | None => submitted tr end.
Proof. destruct c; reflexivity. Qed.

Lemma sends_run {A} (p : prog A) (w : world S) (ix : fclInteraction) :
  sends P p -> submitted (trace (run h p w)) = Some ix -> P ix.
Proof.
  revert w. induction p as [a|e|X c k IH|key k IH|key val k IH|key k IH|l k IH|l fld k IH];
    intros w Hs; cbn [run].
  - discriminate.
  - discriminate.
  - destruct Hs as [Hc Hk].
    destruct (h X c (process_env w) (outside w)) as [[env' s'] r].
    specialize (IH (settle r) {| process_env := env'; heap := heap w; outside := s' |} (Hk _)).
    destruct (run h (k (settle r)) _) as [[w' tr] res].
    unfold trace in *. cbn [fst snd] in *. rewrite submitted_cons.
    destruct (submission c) as [ix'|] eqn:Ec.
    + intros Heq. inversion Heq. subst. now apply Hc.
    + exact IH.
  - apply IH, Hs.
  - apply IH, Hs.
  - apply IH, Hs.
  - apply IH, Hs.
  - apply IH, Hs.
Qed.

Lemma sends_bind {A B} (p : prog A) (f : A -> prog B) :
  sends P p -> (forall a, sends P (f a)) -> sends P (bind p f).
Proof.
  intros Hp Hf. induction p as [a|e|X c k IH|key k IH|key val k IH|key k IH|l k IH|l fld k IH];
    cbn [bind sends] in *; auto.
  - destruct Hp as [Hc Hk]. split; [exact Hc|]. intros r. apply IH, Hk.
Qed.

Lemma sends_mbind {A B} (p : prog A) (f : A -> prog B) :
  sends P p -> (forall a, sends P (f a)) -> sends P (p ≫= f).
Proof. apply sends_bind. Qed.

Lemma sends_tryCatch {A} (p : prog A) (hd : exn -> prog A) :
  sends P p -> (forall e, sends P (hd e)) -> sends P (tryCatch p hd).
Proof.
  intros Hp Hh. induction p as [a|e|X c k IH|key k IH|key val k IH|key k IH|l k IH|l fld k IH];
    cbn [tryCatch sends] in *; auto.
  - destruct Hp as [Hc Hk]. split; [exact Hc|]. intros r. apply IH, Hk.
Qed.

Lemma sends_tryFinally {A} (p : prog A) (fin : prog unit) :
  sends P p -> sends P fin -> sends P (tryFinally p fin).
Proof.
  intros Hp Hf. induction p as [a|e|X c k IH|key k IH|key val k IH|key k IH|l k IH|l fld k IH];
    cbn [tryFinally sends] in *; auto.
  - apply sends_bind; [exact Hf|]. intros; exact I.
  - apply sends_bind; [exact Hf|]. intros; exact I.
  - destruct Hp as [Hc Hk]. split; [exact Hc|]. intros r. apply IH, Hk.
Qed.

Lemma sends_await {X} (c : ext X) :
  (forall ix, submission c = Some ix -> P ix) -> sends P (await c).
Proof. intros H. split; [exact H|]. intros [e|x]; exact I. Qed.

End Submissions.

Section Transfer.
Context `{D : Deps} {S : Type} (h : handler S).

Ltac no_send := apply sends_await; intros ? Hsub; discriminate Hsub.

Lemma sends_releaseProposalKey P txId keyHash : sends P (Flow.releaseProposalKey txId keyHash).
Proof.
  unfold Flow.releaseProposalKey, Flow.proposalKey.
  destruct (ToBoolean keyHash); [|exact I].
  apply sends_mbind.
  - intros v. exact I.
  - intros key. apply sends_mbind; [no_send|]. intros _. exact I.
Qed.

Lemma sends__sendTransaction P testnet tx :
  P (Flow.interaction tx) -> sends P (Flow._sendTransaction testnet tx).
Proof.
  intros HP. unfold Flow._sendTransaction.
  apply sends_mbind; [no_send|]. intros _.
  apply sends_mbind.
  - apply sends_tryCatch.
    + apply sends_await. intros ix Hsub. inversion Hsub. subst. exact HP.
    + intros e. apply sends_mbind; [|intros; exact I].
      apply sends_tryCatch; [apply sends_releaseProposalKey|]. intros; exact I.
  - intros response. apply sends_tryFinally; [|apply sends_releaseProposalKey].
    apply sends_tryCatch; [|intros; exact I].
    apply sends_mbind; [no_send|]. intros status.
    destruct (ToBoolean (st_error status)); exact I.
Qed.

Lemma sends_sendTransaction testnet body proposer payer :
  sends (builtTransfer testnet body) (Flow.sendTransaction testnet body proposer payer).
Proof.
  unfold Flow.sendTransaction.
  destruct (Flow.tokenConstants testnet body) as [[a n] s] eqn:Etc.
  apply sends_mbind.
  - unfold Flow.getPrivateKey.
    destruct (ToBoolean (get body "privateKey")); [exact I|].
    destruct (_ && _ && _); [|exact I].
    apply sends_mbind; [no_send|]. intros; exact I.
  - intros pk. destruct (negb (ToBoolean pk)); [exact I|].
    apply sends_mbind.
    + unfold Flow.proposalSignerOf, Flow.getApiSigner. destruct proposer.
      * apply sends_mbind; [no_send|]. intros; exact I.
      * apply sends_mbind; [|intros [? ?]; exact I].
        apply sends_mbind; [no_send|]. intros; exact I.
    + intros [proposalSigner keyHash].
      apply sends_mbind.
      * unfold Flow.proposerOf. destruct proposer; [|exact I].
        apply sends_mbind; [no_send|]. intros; exact I.
      * intros proposerArg. apply sends_mbind.
        -- unfold Flow.payerOf, Flow.getApiSigner. destruct payer.
           ++ apply sends_mbind; [no_send|]. intros; exact I.
           ++ apply sends_mbind; [|intros [? ?]; exact I].
              apply sends_mbind; [no_send|]. intros; exact I.
        -- intros payerArg. apply sends_mbind; [|intros; exact I].
           apply sends__sendTransaction. unfold builtTransfer. rewrite Etc. split; reflexivity.
Qed.


Lemma submitted_app (t1 t2 : list event) :
  submitted (t1 ++ t2)%list
  = match submitted t1 with Some ix => Some ix | None => submitted t2 end.
Proof.
  induction t1 as [|[X c] t1 IH]; [reflexivity|].
  change ((Called c :: t1) ++ t2)%list with (Called c :: (t1 ++ t2))%list.
  rewrite !submitted_cons, IH. destruct (submission c); reflexivity.
Qed.

Section Accepted.
Hypothesis Hacc : acceptsTransfer h.

Lemma await_accepted {X : Type} (c : ext X) (w : world S) :
  transferCall c = true ->
  exists w' x, run h (await c) w = (w', [Called c], inr x) /\ accepted c x.
Proof.
  intros Hc. rewrite run_await.
  destruct (Hacc X c (process_env w) (outside w) Hc) as [x [Hx Hok]].
  destruct (h X c (process_env w) (outside w)) as [[env' s'] r]. cbn in Hx. subst r.
  eexists _, x. split; [reflexivity | exact Hok].
Qed.

Lemma getApiSigner_accepted (isPayer : bool) (w : world S) :
  exists w' v, run h (Flow.getApiSigner isPayer) w = (w', [Called Date_now], inr v).
Proof.
  unfold Flow.getApiSigner. rewrite run_mbind.
  destruct (await_accepted Date_now w eq_refl) as [w' [x [Hr _]]]. rewrite Hr.
  cbn. eexists _, _. reflexivity.
Qed.

Lemma proposalSignerOf_accepted (proposer : option callback) (w : world S) :
  exists w' t v, run h (Flow.proposalSignerOf proposer) w = (w', t, inr v)
                 /\ submitted t = None.
Proof.
  unfold Flow.proposalSignerOf. destruct proposer as [f|].
  - rewrite run_mbind.
    destruct (await_accepted (Invoke f false) w eq_refl) as [w' [x [Hr _]]]. rewrite Hr.
    cbn. eexists _, _, _. split; reflexivity.
  - rewrite run_mbind.
    destruct (getApiSigner_accepted false w) as [w' [[sg k] Hr]]. rewrite Hr.
    cbn. eexists _, _, _. split; reflexivity.
Qed.

Lemma proposerOf_accepted (proposer : option callback) (sg : signer) (w : world S) :
  exists w' t v, run h (Flow.proposerOf proposer sg) w = (w', t, inr v)
                 /\ submitted t = None.
Proof.
  unfold Flow.proposerOf. destruct proposer as [f|].
  - rewrite run_mbind.
    destruct (await_accepted (Invoke f false) w eq_refl) as [w' [x [Hr _]]]. rewrite Hr.
    cbn. eexists _, _, _. split; reflexivity.
  - cbn. eexists _, _, _. split; reflexivity.
Qed.

Lemma payerOf_accepted (payer : option callback) (w : world S) :
  exists w' t v, run h (Flow.payerOf payer) w = (w', t, inr v)
                 /\ submitted t = None.
Proof.
  unfold Flow.payerOf. destruct payer as [f|].
  - rewrite run_mbind.
    destruct (await_accepted (Invoke f true) w eq_refl) as [w' [x [Hr _]]]. rewrite Hr.
    cbn. eexists _, _, _. split; reflexivity.
  - rewrite run_mbind.
    destruct (getApiSigner_accepted true w) as [w' [[sg k] Hr]]. rewrite Hr.
    cbn. eexists _, _, _. split; reflexivity.
Qed.

Lemma releaseProposalKey_accepted (txId keyHash : JsVal) (w : world S) :
  exists w' t, run h (Flow.releaseProposalKey txId keyHash) w = (w', t, inr tt)
               /\ submitted t = None.
Proof.
  unfold Flow.releaseProposalKey, Flow.proposalKey.
  destruct (ToBoolean keyHash).
  - unfold mbind, prog_bind, mret, prog_ret, envLookup, envDelete, await.
    cbn [bind run].
    match goal with
    | |- context [h ?X ?c ?env ?s] =>
        destruct (Hacc X c env s eq_refl) as [x [Hx _]];
        destruct (h X c env s) as [[env' s'] r]
    end.
    cbn in Hx. subst r. cbn. eexists _, _. split; reflexivity.
  - cbn. eexists _, _. split; reflexivity.
Qed.

Lemma _sendTransaction_accepted (testnet : bool) (tx : Flow.Transaction) (w : world S) :
  exists w' t res,
    run h (Flow._sendTransaction testnet tx) w = (w', t, inr res)
    /\ submitted t = Some (Flow.interaction tx).
Proof.
  unfold Flow._sendTransaction.
  rewrite run_mbind.
  destruct (await_accepted (Fcl_config_put "accessNode.api" (Flow.networkUrl testnet)) w eq_refl)
    as [w1 [u [Hr1 _]]].
  rewrite Hr1. rewrite run_mbind, run_tryCatch.
  destruct (await_accepted (Fcl_send (Flow.interaction tx)) w1 eq_refl)
    as [w2 [response [Hr2 _]]].
  rewrite Hr2. rewrite run_tryFinally, run_tryCatch, run_mbind.
  destruct (await_accepted (Fcl_tx_onceSealed response) w2 eq_refl)
    as [w3 [status [Hr3 Hok]]].
  rewrite Hr3. cbn in Hok. rewrite Hok.
  cbn [run mret prog_ret].
  destruct (releaseProposalKey_accepted (transactionId response) (Flow.tx_keyHash tx) w3)
    as [w4 [t4 [Hr4 Hs4]]].
  rewrite Hr4. eexists _, _, _. split; [reflexivity|].
  cbn. reflexivity.
Qed.

Lemma sendTransaction_accepted testnet body proposer payer (w : world S) :
  ToBoolean (get body "privateKey") = true ->
  exists ix txId,
    submitted (trace (run h (Flow.sendTransaction testnet body proposer payer) w)) = Some ix
    /\ outcome (run h (Flow.sendTransaction testnet body proposer payer) w)
       = inr {[ "txId" := txId ]}.
Proof.
  intros Hpk. unfold Flow.sendTransaction.
  destruct (Flow.tokenConstants testnet body) as [[a n] s0].
  rewrite run_mbind. unfold Flow.getPrivateKey. rewrite Hpk.
  cbn [run mret prog_ret]. rewrite Hpk. cbn [negb].
  rewrite run_mbind.
  destruct (proposalSignerOf_accepted proposer w) as [w1 [t1 [[ps kh] [Hr1 Hs1]]]].
  rewrite Hr1. rewrite run_mbind.
  destruct (proposerOf_accepted proposer ps w1) as [w2 [t2 [pa [Hr2 Hs2]]]].
  rewrite Hr2. rewrite run_mbind.
  destruct (payerOf_accepted payer w2) as [w3 [t3 [py [Hr3 Hs3]]]].
  rewrite Hr3. rewrite run_mbind.
  match goal with
  | |- context [Flow._sendTransaction testnet ?tx] =>
      destruct (_sendTransaction_accepted testnet tx w3) as [w4 [t4 [res [Hr4 Hs4]]]]
  end.
  rewrite Hr4. cbn [run mret prog_ret].
  eexists _, _. split; [|reflexivity].
  unfold trace. cbn [fst snd app].
  rewrite !submitted_app, Hs1, Hs2, Hs3, Hs4. reflexivity.
Qed.

End Accepted.

End Transfer.

(** *** Releasing the proposal key *)

Section ProposalKey.
Context `{D : Deps} {S : Type} (h : handler S).
Hypothesis Hrel : releaseFulfilled h.

Lemma releaseProposalKey_fulfilled (txId : JsVal) (k : string) (w : world S) :
  k <> "" ->
  exists w' t,
    run h (Flow.releaseProposalKey txId (JsString k)) w = (w', t, inr tt)
    /\ process_env w' = delete k (process_env w)
    /\ submitted t = None.
Proof.
  intros Hk. unfold Flow.releaseProposalKey, Flow.proposalKey.
  assert (Ht : ToBoolean (JsString k) = true).
  { simpl. destruct (String.eqb_spec k ""); [contradiction|reflexivity]. }
  rewrite Ht.
  unfold mbind, prog_bind, mret, prog_ret, envLookup, envDelete, await.
  cbn [bind run ToString].
  match goal with
  | |- context [h ?X (FlowBlockchain_broadcast ?a ?b ?c) ?env ?s] =>
      destruct (Hrel a b c env s) as [s' [x Hx]]; rewrite Hx
  end.
  cbn. eexists _, _. repeat split.
Qed.

Lemma _sendTransaction_releases_key (testnet : bool) (tx : Flow.Transaction)
    (k : string) (w : world S) :
  Flow.tx_keyHash tx = JsString k -> k <> "" ->
  let r := run h (Flow._sendTransaction testnet tx) w in
  submitted (trace r) <> None ->
  process_env (finalWorld r) !! k = None.
Proof.
  intros Hkh Hk r. unfold r, Flow._sendTransaction. rewrite Hkh.
  rewrite run_mbind, run_await.
  destruct (h _ (Fcl_config_put _ _) _ _) as [[e1 s1] [v|u]]; cbn [settle].
  - intros Hs. exfalso. apply Hs. reflexivity.
  - rewrite run_mbind, run_tryCatch, run_await. cbn [process_env outside heap].
    destruct (h _ (Fcl_send _) e1 s1) as [[e2 s2] [v|response]]; cbn [settle].
    + rewrite run_mbind, run_tryCatch.
      match goal with
      | |- context [run h (Flow.releaseProposalKey ?t _) ?w0] =>
          destruct (releaseProposalKey_fulfilled t k w0 Hk) as [w3 [t3 [Hr3 [He3 _]]]]
      end.
      rewrite Hr3. cbn. intros _. rewrite He3. apply lookup_delete_eq.
    + rewrite run_tryFinally.
      match goal with
      | |- context [run h (tryCatch ?p ?hd) ?w0] =>
          destruct (run h (tryCatch p hd) w0) as [[w3 t3] r3]
      end.
      destruct (releaseProposalKey_fulfilled (transactionId response) k w3 Hk)
        as [w4 [t4 [Hr4 [He4 _]]]].
      rewrite Hr4. cbn. intros _. rewrite He4. apply lookup_delete_eq.
Qed.
End ProposalKey.

(** *** The claims about the transfer *)

Section TransferClaims.
Context `{D : Deps} {S : Type} (h : handler S).

(** C6 (amended). Whenever a Flow transfer is submitted, its script is the
    transfer template applied to the token constants of the currency
    (FlowToken for FLOW, FUSD otherwise) taken from the testnet table when
    the testnet flag is set and from the mainnet table otherwise, and its
    amount argument is [parseFloat(amount).toFixed(8)]: the amount read as a
    double and, when that is finite and below [10^21], written with exactly
    8 decimal places, from the integer nearest to the double times [10^8]
    (the larger of two). An amount in decimal notation with at most 8
    fractional digits that is below [2^52 / 10^8] (45035996.27370496) comes
    out digit for digit, with no rounding loss: ["1.23456789"] yields
    ["1.23456789"]. An amount with more fractional digits is rounded, and
    one that is not a number yields ["NaN"]. *)
Theorem sendTransaction_built_transfer
    (w : world S) (testnet : bool) (body : obj) (proposer payer : option callback)
    (ix : fclInteraction) :
  let r := run h (Flow.sendTransaction testnet body proposer payer) w in
  let x := parseFloat (ToString (get body "amount")) in
  let table := if testnet then Flow.FLOW_TESTNET_ADDRESSES else Flow.FLOW_MAINNET_ADDRESSES in
  submitted (trace r) = Some ix ->
  ix_code ix =
    (if strictEqString (get body "currency") Blockchain_FLOW
     then prepareTransferTxTemplate testnet (Flow.FlowToken table) "FlowToken" "flowToken"
     else prepareTransferTxTemplate testnet (Flow.FUSD table) "FUSD" "fusd")
  /\ ix_args ix =
       [ {| fcl_value := JsString (toFixed x 8); fcl_type := FclScalar "UFix64" |};
         {| fcl_value := get body "to"; fcl_type := FclScalar "Address" |} ]
  /\ match x with
     | S754_finite s m e =>
         atLeast1e21 m e = false ->
         let n := nearestScaled m e 8 in
         (if 0 <=? e then n = Zpos m * 2 ^ e * 10 ^ 8
          else 2 * 2 ^ (- e) * n - 2 ^ (- e) <= 2 * Zpos m * 10 ^ 8
               < 2 * 2 ^ (- e) * n + 2 ^ (- e))
         /\ exists int frac : string,
              toFixed x 8 = (if s then "-" else "") ++ int ++ "." ++ frac
              /\ strlen frac = 8
              /\ 1 <= strlen int
              /\ int ++ frac = paddedDigits n 8
     | S754_zero _ => toFixed x 8 = "0.00000000"
     | S754_nan => toFixed x 8 = "NaN"
     | S754_infinity s => toFixed x 8 = if s then "-Infinity" else "Infinity"
     end
  /\ (forall (amount rest : string) (c e : Z),
        get body "amount" = JsString amount ->
        scanDecimal amount = Some (c, e, rest) ->
        0 < c -> -8 <= e -> c * 10 ^ (8 + e) < 2 ^ 52 ->
        toFixed x 8 = fixedPoint (c * 10 ^ (8 + e)) 8)
  /\ (get body "amount" = JsString "1.23456789" -> toFixed x 8 = "1.23456789").
Proof.
  intros r x table Hsub.
  pose proof (sends_run h (builtTransfer testnet body) _ w ix
                (sends_sendTransaction testnet body proposer payer) Hsub) as [Hcode Hargs].
  split; [|split; [exact Hargs|split; [|split]]].
  - rewrite Hcode. unfold Flow.tokenConstants, table.
    destruct (strictEqString (get body "currency") Blockchain_FLOW), testnet; reflexivity.
  - destruct x as [s|s| |s m e] eqn:Ex; try reflexivity.
    intros Hlt n. split; [apply nearestScaled_nearest; lia|].
    destruct (fixedPoint_shape n 8 ltac:(lia)) as [int [frac [Hfp Hrest]]].
    exists int, frac. split; [|exact Hrest].
    unfold toFixed. rewrite Hlt. fold n. rewrite Hfp. reflexivity.
  - intros amount rest c e Ha Hscan Hc He Hlt. unfold x. rewrite Ha. cbn [ToString].
    rewrite (parseFloat_scanDecimal amount c e rest Hscan).
    rewrite toFixed_of_decimal by (try assumption; lia). reflexivity.
  - intros Ha. unfold x. rewrite Ha. vm_compute. reflexivity.
Qed.


End TransferClaims.

Lemma sendTransaction_built_transfer_witness :
  let r := sampleTransfer false false "1.23456789" in
  exists ix,
    submitted (trace r) = Some ix
    /\ ix_code ix = "import FlowToken from 0x7e60df042a9c0868"
    /\ fcl_value <$> ix_args ix = [JsString "1.23456789"; JsString "0xABC"]
    /\ toFixed (parseFloat "1.23456789") 8 = fixedPoint 123456789 8.
Proof.
  intros r.
  assert (Hsub : exists ix, submitted (trace r) = Some ix)
    by (eexists; vm_compute; reflexivity).
  destruct Hsub as [ix Hsub]. exists ix. split; [exact Hsub|].
  destruct (sendTransaction_built_transfer (D := sampleDeps) (flowHandler false false)
              emptyWorld true (transferFlowBody "1.23456789") None None ix Hsub)
    as [Hcode [Hargs [_ [Hexact _]]]].
  split; [|split].
  - rewrite Hcode. vm_compute. reflexivity.
  - rewrite Hargs. vm_compute. reflexivity.
  - apply (Hexact "1.23456789" "" 123456789 (-8)).
    + vm_compute. reflexivity.
    + vm_compute. reflexivity.
    + lia.
    + lia.
    + vm_compute. reflexivity.
Defined.

(** C6, as stated, fails: the amount 90071992.54740993, which has 8 decimal
    places, is submitted as ["90071992.54740994"], and the amount
    0.123456789 as ["0.12345679"]; both are other numbers. *)
Lemma sendTransaction_built_transfer_counterexample :
  let r := sampleTransfer false false "0.123456789" in
  let r' := sampleTransfer false false "90071992.54740993" in
  (exists ix,
     submitted (trace r) = Some ix
     /\ fcl_value <$> ix_args ix = [JsString "0.12345679"; JsString "0xABC"])
  /\ (exists ix,
        submitted (trace r') = Some ix
        /\ fcl_value <$> ix_args ix = [JsString "90071992.54740994"; JsString "0xABC"])
  /\ parseFloat "0.12345679" <> parseFloat "0.123456789"
  /\ BigNumber.scanNumeric "90071992.54740994" = Some (false, 9007199254740994, -8)
  /\ BigNumber.scanNumeric "90071992.54740993" = Some (false, 9007199254740993, -8)
  /\ BigNumber.scanNumeric "0.12345679" = Some (false, 12345679, -8)
  /\ BigNumber.scanNumeric "0.123456789" = Some (false, 123456789, -9)
  /\ 12345679 * 10 ^ 9 <> 123456789 * 10 ^ 8.
Proof.
  intros r r'. split; [eexists; split; vm_compute; reflexivity|].
  split; [eexists; split; vm_compute; reflexivity|].
  split; [vm_compute; discriminate|].
  do 4 (split; [vm_compute; reflexivity|]).
  vm_compute. discriminate.
Qed.

Lemma flowHandler_accepts : acceptsTransfer (flowHandler false false).
Proof.
  intros X c env s Hc.
  destruct c; try discriminate Hc; eexists; split; reflexivity.
Defined.



(** C4. The entry that the proposer's signer registers in [process.env] is
    not removed on every exit: [_sendTransaction] deletes it only after the
    broadcast that releases the key has been fulfilled. When the hosted API
    rejects that broadcast, the entry stays, after a sealed transaction and
    after a submission error alike; when it fulfils it, the entry is gone. *)
Theorem sendTransaction_keeps_key_when_release_fails :
  let key := "FLOW_PROPOSAL_KEY_1700000000000" in
  (process_env (finalWorld (sampleTransfer false true "1.5")) !! key = Some "7"
   /\ outcome (sampleTransfer false true "1.5")
      = inl (Rejected (Prim (JsString "503 Service Unavailable"))))
  /\ (process_env (finalWorld (sampleTransfer true true "1.5")) !! key = Some "7"
      /\ outcome (sampleTransfer true true "1.5")
         = inl (FlowSdkErrorOfExn (Rejected (Prim (JsString "503 Service Unavailable")))))
  /\ process_env (finalWorld (sampleTransfer false false "1.5")) !! key = None
  /\ process_env (finalWorld (sampleTransfer true false "1.5")) !! key = None.
Proof.
  intros key. repeat split; vm_compute; reflexivity.
Qed.

(* ===================================================================== *)
(** * Further properties *)
(* ===================================================================== *)

Lemma readDigits_string_of_uint (d : Decimal.uint) (acc cnt : Z) :
  readDigits (DecimalString.NilEmpty.string_of_uint d) acc cnt
  = (uintValue d acc, cnt + Z.of_nat (Decimal.nb_digits d), "").
Proof.
  revert acc cnt.
  induction d; intros acc cnt;
    cbn [DecimalString.NilEmpty.string_of_uint readDigits uintValue Decimal.nb_digits];
    [rewrite Z.add_0_r; reflexivity| ..];
    (change (isDigit _) with true; cbv iota; rewrite IHd, Nat2Z.inj_succ;
     match goal with |- context [digitVal ?c] =>
       let v := eval vm_compute in (digitVal c) in change (digitVal c) with v end;
     rewrite ?Z.add_0_r; f_equal; f_equal; lia).
Qed.

Lemma uintValue_of_uint_acc (d : Decimal.uint) (acc : positive) :
  Zpos (Pos.of_uint_acc d acc) = uintValue d (Zpos acc).
Proof.
  revert acc. induction d; intros acc; cbn [Pos.of_uint_acc uintValue];
    [reflexivity| ..]; rewrite IHd; f_equal; lia.
Qed.

Lemma uintValue_of_uint (d : Decimal.uint) : Z.of_N (N.of_uint d) = uintValue d 0.
Proof.
  unfold N.of_uint.
  induction d; cbn [Pos.of_uint uintValue]; try reflexivity; try exact IHd;
    cbn [Z.of_N]; rewrite uintValue_of_uint_acc; reflexivity.
Qed.

(** Reading the decimal digits of a natural number gives the number back. *)
Lemma readDigits_decimalDigits (n : Z) :
  0 <= n ->
  exists k, 0 < k /\ readDigits (decimalDigits n) 0 0 = (n, k, "").
Proof.
  intros Hn. unfold decimalDigits, DecimalString.NilZero.string_of_uint.
  assert (Hnil : N.to_uint (Z.to_N n) <> Decimal.Nil).
  { destruct (Z.to_N n) as [|p]; [discriminate|].
    apply DecimalPos.Unsigned.to_uint_nonnil. }
  pose proof (DecimalN.Unsigned.of_to (Z.to_N n)) as Hof.
  destruct (N.to_uint (Z.to_N n)) as [|d|d|d|d|d|d|d|d|d|d] eqn:E; [contradiction| ..];
    rewrite readDigits_string_of_uint, <- uintValue_of_uint, Hof, Z2N.id by assumption;
    (eexists; split; [|reflexivity]); cbn [Decimal.nb_digits]; lia.
Qed.

Lemma readDigits_head (c : ascii) (s : string) (v k : Z) (rest : string) :
  readDigits (String c s) 0 0 = (v, k, rest) -> 0 < k -> isDigit c = true.
Proof.
  cbn [readDigits]. destruct (isDigit c); [reflexivity|].
  intros H Hk. inversion H. lia.
Qed.

Lemma isDigit_code (c : ascii) : isDigit c = true -> 48 <= code c <= 57.
Proof.
  unfold isDigit. intros H. apply andb_prop in H as [H1 H2].
  apply Z.leb_le in H1, H2. lia.
Qed.

Lemma isDigit_not_space (c : ascii) : isDigit c = true -> isWhiteSpace c = false.
Proof.
  intros H. apply isDigit_code in H. unfold isWhiteSpace.
  repeat (apply Bool.orb_false_iff; split); try (apply Z.eqb_neq; lia).
  apply Bool.andb_false_iff. right. apply Z.leb_gt. lia.
Qed.

(** [parseInt] reads a run of decimal digits, with a sign or without, as
    the integer it denotes. *)
Lemma parseInt_digits (s : string) (v k : Z) :
  readDigits s 0 0 = (v, k, "") -> 0 < k ->
  parseInt s = of_decimal false v 0 /\ parseInt (String "-" s) = of_decimal true v 0.
Proof.
  intros Hr Hk.
  destruct s as [|c s']; [cbn in Hr; inversion Hr; lia|].
  pose proof (readDigits_head c s' v k "" Hr Hk) as Hc.
  pose proof (isDigit_code c Hc) as Hcode.
  assert (Hbody :
    match String c s' with
    | String "0"%char (String x r) =>
        if (code x =? 120) || (code x =? 88) then readRadixDigits 16 r 0 0
        else readDigits (String c s') 0 0
    | _ => readDigits (String c s') 0 0
    end = (v, k, "")).
  { destruct s' as [|x r].
    - destruct c as [[] [] [] [] [] [] [] []]; exact Hr.
    - assert (Hx : isDigit x = true).
      { cbn [readDigits] in Hr. rewrite Hc in Hr.
        destruct (isDigit x) eqn:Ex; [reflexivity|]. inversion Hr. }
      apply isDigit_code in Hx.
      replace (code x =? 120) with false by (symmetry; apply Z.eqb_neq; lia).
      replace (code x =? 88) with false by (symmetry; apply Z.eqb_neq; lia).
      cbn [orb]. destruct c as [[] [] [] [] [] [] [] []]; exact Hr. }
  assert (Hk0 : (k =? 0) = false) by (apply Z.eqb_neq; lia).
  split.
  - unfold parseInt. cbn [trimStart]. rewrite (isDigit_not_space c Hc).
    unfold readSign.
    replace (code c =? 45) with false by (symmetry; apply Z.eqb_neq; lia).
    replace (code c =? 43) with false by (symmetry; apply Z.eqb_neq; lia).
    cbn [andb]. rewrite Hbody, Hk0. reflexivity.
  - unfold parseInt. cbn [trimStart].
    change (isWhiteSpace "-") with false. cbv iota.
    unfold readSign. change (code "-" =? 45) with true. cbv iota.
    rewrite Hbody, Hk0. reflexivity.
Qed.

Lemma parseInt_decimalDigits (n : Z) :
  0 <= n -> parseInt (decimalDigits n) = of_decimal false n 0.
Proof.
  intros Hn. destruct (readDigits_decimalDigits n Hn) as [k [Hk Hr]].
  exact (proj1 (parseInt_digits _ _ _ Hr Hk)).
Qed.

(** ** Flow: signing, edge cases and round trips *)

Section SignerEdges.
Context `{D : Deps}.

Lemma byteLength_bound (n : Z) (len : nat) :
  0 <= n -> (Flow.byteLength n <=? Z.of_nat len) = (n <? 256 ^ Z.of_nat len).
Proof.
  intros Hn. unfold Flow.byteLength.
  assert (Hp : 0 < 256 ^ Z.of_nat len) by (apply Z.pow_pos_nonneg; lia).
  destruct (n <=? 0) eqn:E0.
  - apply Z.leb_le in E0.
    transitivity true; [apply Z.leb_le; lia | symmetry; apply Z.ltb_lt; lia].
  - apply Z.leb_gt in E0.
    assert (H256 : 256 ^ Z.of_nat len = 2 ^ (8 * Z.of_nat len)).
    { change 256 with (2 ^ 8). rewrite <- Z.pow_mul_r by lia. reflexivity. }
    rewrite H256.
    destruct (n <? 2 ^ (8 * Z.of_nat len)) eqn:E.
    + apply Z.ltb_lt in E. apply Z.leb_le.
      assert (Z.log2 n < 8 * Z.of_nat len) by (apply Z.log2_lt_pow2; lia).
      assert ((Z.log2 n + 8) / 8 < Z.of_nat len + 1)
        by (apply Z.div_lt_upper_bound; lia).
      lia.
    + apply Z.ltb_ge in E. apply Z.leb_gt.
      assert (8 * Z.of_nat len <= Z.log2 n) by (apply Z.log2_le_pow2; lia).
      assert (Z.of_nat len + 1 <= (Z.log2 n + 8) / 8)
        by (apply Z.div_le_lower_bound; lia).
      lia.
Qed.


Lemma Buffer_from_hex_byte (b : byte) (rest : string) :
  Flow.Buffer_from_hex
    (String (Flow.hexChar (Flow.byteVal b / 16))
       (String (Flow.hexChar (Flow.byteVal b mod 16)) rest))
  = b :: Flow.Buffer_from_hex rest.
Proof. destruct b; reflexivity. Qed.

Lemma Buffer_from_hex_toString_hex (buf : list byte) :
  Flow.Buffer_from_hex (Flow.Buffer_toString_hex buf) = buf.
Proof.
  induction buf as [|b rest IH]; [reflexivity|].
  cbn [Flow.Buffer_toString_hex]. rewrite Buffer_from_hex_byte, IH. reflexivity.
Qed.

(** X2. The signing function of a local signer signs exactly the bytes its
    hexadecimal message encodes: given the hex of a buffer, it answers with
    the prefixed address, the key index and the signature of that buffer
    under the signer's key, and fails when signing the buffer fails. *)
Theorem signingFunction_signs_decoded_message
    (pk address : JsVal) (k : Z) (msg : list byte) :
  Flow.signingFunction pk address k (Flow.Buffer_toString_hex msg)
  = match Flow.sign pk msg with
    | inr sg => inr {| Flow.sig_addr := fcl_withPrefix address;
                       Flow.sig_keyId := k;
                       Flow.sig_signature := sg |}
    | inl e => inl e
    end.
Proof.
  unfold Flow.signingFunction. rewrite Buffer_from_hex_toString_hex. reflexivity.
Qed.

End SignerEdges.

(** ** Numbers read back from their digits *)

Lemma decimalDigits_nonempty (n : Z) : 0 <= n -> decimalDigits n <> "".
Proof.
  intros Hn He. destruct (readDigits_decimalDigits n Hn) as [k [Hk Hr]].
  rewrite He in Hr. cbn in Hr. inversion Hr. lia.
Qed.

Lemma integerString_nonempty (z : Z) : Flow.integerString z <> "".
Proof.
  unfold Flow.integerString. destruct (z <? 0) eqn:E.
  - discriminate.
  - apply Z.ltb_ge in E. apply decimalDigits_nonempty. assumption.
Qed.

(** [parseInt] of an integer written in a template literal is that
    integer, as a Number. *)
Lemma parseInt_integerString (z : Z) : parseInt (Flow.integerString z) = of_Z z.
Proof.
  unfold Flow.integerString, of_Z. destruct (z <? 0) eqn:E.
  - apply Z.ltb_lt in E.
    destruct (readDigits_decimalDigits (- z) ltac:(lia)) as [k [Hk Hr]].
    change ("-" ++ decimalDigits (- z)) with (String "-" (decimalDigits (- z))).
    rewrite (proj2 (parseInt_digits _ _ _ Hr Hk)).
    rewrite Z.abs_neq by lia. reflexivity.
  - apply Z.ltb_ge in E. rewrite parseInt_decimalDigits by assumption.
    rewrite Z.abs_eq by assumption. reflexivity.
Qed.

(** An integer below [2^53] is a Number as it is: [m * 2^e] with [e <= 0]. *)
Lemma of_decimal_integer_exact (neg : bool) (n : Z) :
  0 < n < 2 ^ 53 ->
  exists (m : positive) (e : Z),
    of_decimal neg n 0 = S754_finite neg m e /\ e <= 0 /\ Zpos m = n * 2 ^ (- e).
Proof.
  intros [Hn Hlt]. unfold of_decimal.
  replace (n <=? 0) with false by (symmetry; apply Z.leb_gt; assumption).
  cbn [Z.leb Z.compare]. rewrite Z.pow_0_r, Z.mul_1_r.
  set (l := log2Ratio n 1).
  assert (Hl0 : 0 <= l).
  { destruct (Z_le_gt_dec 0 l) as [|Hgt]; [assumption|exfalso].
    pose proof (log2Ratio_spec n 1 (- l) Hn ltac:(lia) ltac:(lia) ltac:(fold l; lia))
      as [_ H2].
    fold l in H2. replace (- l + l + 1) with 1 in H2 by lia.
    assert (2 ^ 1 <= 2 ^ (- l)) by (apply Z.pow_le_mono_r; lia).
    change (2 ^ 1) with 2 in *. nia. }
  assert (Hl52 : l <= 52).
  { destruct (Z_le_gt_dec l 52) as [|Hgt]; [assumption|exfalso].
    pose proof (log2Ratio_spec n 1 0 Hn ltac:(lia) ltac:(lia) ltac:(fold l; lia))
      as [H1 _].
    fold l in H1. rewrite Z.add_0_l, Z.pow_0_r, Z.mul_1_r, Z.mul_1_l in H1.
    assert (2 ^ 53 <= 2 ^ l) by (apply Z.pow_le_mono_r; lia). lia. }
  pose proof (log2Ratio_spec n 1 (52 - l) Hn ltac:(lia) ltac:(lia) ltac:(fold l; lia))
    as [_ H2].
  fold l in H2. replace (52 - l + l + 1) with 53 in H2 by lia. rewrite Z.mul_1_l in H2.
  assert (Hq : 0 < 2 ^ (52 - l)) by (apply Z.pow_pos_nonneg; lia).
  unfold roundFraction.
  replace ((n <=? 0) || (1 <=? 0))%bool with false
    by (symmetry; apply Bool.orb_false_iff; split; apply Z.leb_gt; lia).
  fold l. unfold emin, emax, prec. rewrite Z.max_l by lia.
  change (53 - 1) with 52.
  assert (Hnear : forall x, nearestEven x 1 = x).
  { intros x. unfold nearestEven. rewrite Z.div_1_r, Z.mod_1_r. reflexivity. }
  assert (Hsc : scaled n 1 (l - 52) = (n * 2 ^ (52 - l), 1)).
  { unfold scaled. destruct (0 <=? l - 52) eqn:E.
    - apply Z.leb_le in E.
      replace (l - 52) with 0 by lia. replace (52 - l) with 0 by lia.
      rewrite Z.pow_0_r, !Z.mul_1_r. reflexivity.
    - replace (- (l - 52)) with (52 - l) by lia. reflexivity. }
  rewrite Hsc, Hnear.
  set (q := 2 ^ (52 - l)) in *.
  replace (n * q =? 2 ^ 53) with false by (symmetry; apply Z.eqb_neq; lia).
  destruct (n * q) as [|p|p] eqn:Ep; [lia| |lia].
  replace (l - 52 <=? 1024 - 53) with true by (symmetry; apply Z.leb_le; lia).
  exists p, (l - 52). split; [reflexivity|]. split; [lia|].
  replace (- (l - 52)) with (52 - l) by lia. fold q. lia.
Qed.

(** ** Flow: arguments and the proposal key *)

Section ArgumentsAndKeys.
Context `{D : Deps} {S : Type} (h : handler S).

(** X3. A [UInt64] argument given as the decimal digits of [n] reaches the
    access node as [parseInt] leaves it, the Number nearest to [n]: [n]
    itself below [2^53], while [2^53 + 1] arrives as [2^53]. *)
Theorem UInt64ArgValue_reads_integer (arg : FlowArgs) (n : Z) :
  arg_type arg = "UInt64" ->
  arg_value arg = JsString (decimalDigits n) ->
  0 <= n ->
  Flow.UInt64ArgValue arg = JsNumber (of_Z n)
  /\ (0 < n < 2 ^ 53 ->
      exists (m : positive) (e : Z),
        of_Z n = S754_finite false m e /\ e <= 0 /\ Zpos m = n * 2 ^ (- e))
  /\ (n = 2 ^ 53 + 1 -> Flow.UInt64ArgValue arg = JsNumber (of_Z (2 ^ 53))).
Proof.
  intros Ht Hv Hn.
  assert (Hval : Flow.UInt64ArgValue arg = JsNumber (of_Z n)).
  { unfold Flow.UInt64ArgValue. rewrite Ht, Hv. cbn [String.eqb Ascii.eqb Bool.eqb ToString].
    rewrite parseInt_decimalDigits by assumption.
    unfold of_Z. rewrite Z.abs_eq by assumption.
    replace (n <? 0) with false by (symmetry; apply Z.ltb_ge; assumption). reflexivity. }
  split; [exact Hval|]. split.
  - intros Hr. unfold of_Z. rewrite Z.abs_eq by assumption.
    replace (n <? 0) with false by (symmetry; apply Z.ltb_ge; assumption).
    apply of_decimal_integer_exact. exact Hr.
  - intros ->. rewrite Hval. vm_compute. reflexivity.
Qed.

Lemma proposalKeyName_truthy (keyHash : Z) :
  ToBoolean (JsString (Flow.proposalKeyName keyHash)) = true.
Proof. reflexivity. Qed.

(** X4. The key index that is released is the one the proposer's signer
    registered: after the signer made for key hash [keyHash] has run and
    the hosted API has handed it key [k], releasing the proposal key under
    that name sends the broadcast with proposal key [k]. *)
Theorem registered_proposal_key_is_released
    (w : world S) (keyHash : Z) (txId : JsVal) (key : signKey)
    (env' : gmap string string) (s' : S) :
  h _ (FlowBlockchain_getSignKey false) (process_env w) (outside w) = (env', s', inr key) ->
  let name := Flow.proposalKeyName keyHash in
  let r := run h (Flow.apiSigner false keyHash ≫= fun _ =>
                  Flow.releaseProposalKey txId (JsString name)) w in
  trace r = [ Called (FlowBlockchain_getSignKey false);
              Called (FlowBlockchain_broadcast txId JsUndefined
                        (JsNumber (of_Z (sk_keyId key)))) ].
Proof.
  intros Hk name r. unfold r, name, Flow.apiSigner, Flow.releaseProposalKey, Flow.proposalKey.
  rewrite proposalKeyName_truthy.
  unfold mbind, prog_bind, mret, prog_ret, await, envStore, envLookup, envDelete.
  cbn [bind run negb]. rewrite Hk.
  cbn [settle bind run process_env outside heap ToString].
  rewrite lookup_insert_eq.
  destruct (String.eqb_spec (Flow.integerString (sk_keyId key)) "") as [He|_];
    [exfalso; exact (integerString_nonempty _ He)|].
  rewrite parseInt_integerString.
  destruct (h _ (FlowBlockchain_broadcast _ _ _) _ _) as [[e2 s2] [v|x]]; reflexivity.
Qed.

(** X5. Releasing under a name that has no entry in [process.env], or an
    empty one, releases key 0: the broadcast carries proposal key [0].
    With no name at all (a falsy [keyHash]) nothing is sent and nothing is
    deleted. *)
Theorem releaseProposalKey_without_entry (w : world S) (txId : JsVal) (k : string) :
  k <> "" ->
  process_env w !! k = None \/ process_env w !! k = Some "" ->
  trace (run h (Flow.releaseProposalKey txId (JsString k)) w)
    = [Called (FlowBlockchain_broadcast txId JsUndefined (JsNumber (S754_zero false)))]
  /\ forall keyHash, ToBoolean keyHash = false ->
       run h (Flow.releaseProposalKey txId keyHash) w = (w, [], inr tt).
Proof.
  intros Hk Hentry. split.
  - unfold Flow.releaseProposalKey, Flow.proposalKey.
    assert (Ht : ToBoolean (JsString k) = true).
    { simpl. destruct (String.eqb_spec k ""); [contradiction|reflexivity]. }
    rewrite Ht.
    unfold mbind, prog_bind, mret, prog_ret, await, envLookup, envDelete.
    cbn [bind run ToString].
    assert (Hp : parseInt match process_env w !! k with
                          | Some s => if String.eqb s "" then "0" else s
                          | None => "0"
                          end = S754_zero false).
    { destruct Hentry as [-> | ->]; vm_compute; reflexivity. }
    rewrite Hp.
    destruct (h _ _ _ _) as [[e2 s2] [v|x]]; reflexivity.
  - intros keyHash Hf. unfold Flow.releaseProposalKey. rewrite Hf. reflexivity.
Qed.

End ArgumentsAndKeys.

(** ** Flow: submitting and confirming *)

Section Submitting.
Context `{D : Deps} {S : Type} (h : handler S).

(** The run of the release block: with a key name, one broadcast carrying
    the key index registered under the name, and the entry deleted once the
    broadcast is fulfilled. *)
Lemma releaseProposalKey_run (txId keyHash : JsVal) (w : world S) :
  run h (Flow.releaseProposalKey txId keyHash) w =
  if ToBoolean keyHash then
    let c := FlowBlockchain_broadcast txId JsUndefined (registeredKey (process_env w) keyHash) in
    let '(env', s', r) := h _ c (process_env w) (outside w) in
    match r with
    | inl v => (after w env' s', [Called c], inl (Rejected v))
    | inr _ => (after w (delete (ToString keyHash) env') s', [Called c], inr tt)
    end
  else (w, [], inr tt).
Proof.
  unfold Flow.releaseProposalKey, Flow.proposalKey, registeredKey.
  destruct (ToBoolean keyHash); [|reflexivity].
  unfold mbind, prog_bind, mret, prog_ret, await, envLookup, envDelete.
  cbn [bind run].
  destruct (h _ _ _ _) as [[env' s'] [v|x]]; reflexivity.
Qed.

(** X6. When the access node rejects the submission, the confirmation is
    never awaited: the key is released with an empty transaction id and the
    call throws a [FlowSdkError] that wraps the rejection, or the failure
    of the release when that fails too. *)
Theorem flow_submission_rejected
    (w : world S) (testnet : bool) (tx : Flow.Transaction)
    (e1 e2 : gmap string string) (s1 s2 : S) (v : value) :
  let configure := Fcl_config_put "accessNode.api" (Flow.networkUrl testnet) in
  let submit := Fcl_send (Flow.interaction tx) in
  h _ configure (process_env w) (outside w) = (e1, s1, inr tt) ->
  h _ submit e1 s1 = (e2, s2, inl v) ->
  let release := run h (Flow.releaseProposalKey (JsString "") (Flow.tx_keyHash tx))
                   (after w e2 s2) in
  run h (Flow._sendTransaction testnet tx) w
  = (finalWorld release,
     ([Called configure; Called submit] ++ trace release)%list,
     inl (FlowSdkErrorOfExn match outcome release with
                            | inl e => e
                            | inr _ => Rejected v
                            end)).
Proof.
  intros configure submit Hc Hs release.
  unfold Flow._sendTransaction. fold configure submit.
  rewrite run_mbind, run_await, Hc. cbn [settle].
  rewrite run_mbind, run_tryCatch, run_await. cbn [process_env outside heap].
  rewrite Hs. cbn [settle].
  rewrite run_mbind, run_tryCatch.
  change {| process_env := e2; heap := heap w; outside := s2 |} with (after w e2 s2).
  fold release. destruct release as [[w3 t3] [e|[]]];
    cbn [run finalWorld trace outcome fst snd app]; rewrite ?app_nil_r; reflexivity.
Qed.

(** X7. Once the submission is accepted, the confirmation is awaited once
    and the key is released with the transaction id, whatever the
    confirmation says. The call returns the transaction id and the events
    of a sealed transaction; a confirmation that fails, or reports an
    error, is thrown as a [FlowSdkError] (the reported error wrapped
    twice); and a release that fails replaces either outcome with its own
    rejection, unwrapped. *)
Theorem flow_after_submission
    (w : world S) (testnet : bool) (tx : Flow.Transaction)
    (e1 e2 e3 : gmap string string) (s1 s2 s3 : S)
    (response : fclResponse) (sealed : value + sealedStatus) :
  let configure := Fcl_config_put "accessNode.api" (Flow.networkUrl testnet) in
  let submit := Fcl_send (Flow.interaction tx) in
  let confirm := Fcl_tx_onceSealed response in
  h _ configure (process_env w) (outside w) = (e1, s1, inr tt) ->
  h _ submit e1 s1 = (e2, s2, inr response) ->
  h _ confirm e2 s2 = (e3, s3, sealed) ->
  let release := run h (Flow.releaseProposalKey (transactionId response)
                          (Flow.tx_keyHash tx)) (after w e3 s3) in
  run h (Flow._sendTransaction testnet tx) w
  = (finalWorld release,
     ([Called configure; Called submit; Called confirm] ++ trace release)%list,
     match outcome release with
     | inl e => inl e
     | inr _ =>
         match sealed with
         | inl reason => inl (FlowSdkErrorOfExn (Rejected reason))
         | inr status =>
             if ToBoolean (st_error status)
             then inl (FlowSdkErrorOfExn (FlowSdkErrorOfValue (st_error status)))
             else inr {| Flow.id := transactionId response;
                         Flow.events := st_events status |}
         end
     end).
Proof.
  intros configure submit confirm Hc Hs Hf release.
  unfold Flow._sendTransaction. fold configure submit.
  rewrite run_mbind, run_await, Hc. cbn [settle].
  rewrite run_mbind, run_tryCatch, run_await. cbn [process_env outside heap].
  rewrite Hs. cbn [settle].
  rewrite run_tryFinally, run_tryCatch, run_mbind, run_await.
  cbn [process_env outside heap]. fold confirm. rewrite Hf.
  change {| process_env := e3; heap := heap w; outside := s3 |} with (after w e3 s3).
  destruct sealed as [reason|status]; cbn [settle].
  - cbn [run]. fold release. destruct release as [[w4 t4] [e|[]]];
      cbn [run finalWorld trace outcome fst snd app]; rewrite ?app_nil_r; reflexivity.
  - destruct (ToBoolean (st_error status)); cbn [run mret prog_ret];
      fold release; destruct release as [[w4 t4] [e|[]]];
      cbn [run finalWorld trace outcome fst snd app]; rewrite ?app_nil_r; reflexivity.
Qed.

(** X8. The entry of the proposal key does not outlive the call when the
    hosted API fulfils the release: once a transaction has been submitted
    under a key name, accepted or not, sealed or not, [process.env] has no
    entry under that name when [_sendTransaction] is done. *)
Theorem proposal_key_entry_removed_when_released
    (testnet : bool) (tx : Flow.Transaction) (k : string) (w : world S) :
  releaseFulfilled h ->
  Flow.tx_keyHash tx = JsString k -> k <> "" ->
  let r := run h (Flow._sendTransaction testnet tx) w in
  submitted (trace r) <> None ->
  process_env (finalWorld r) !! k = None.
Proof.
  intros Hrel Hk Hne. exact (_sendTransaction_releases_key h Hrel testnet tx k w Hk Hne).
Qed.

End Submitting.

(** ** Flow: the transfer, its key and its signers *)

Section TransferSigners.
Context `{D : Deps} {S : Type} (h : handler S).

Lemma getPrivateKey_run (body : obj) (w : world S) :
  run h (Flow.getPrivateKey body) w =
  if ToBoolean (get body "privateKey") then (w, [], inr (get body "privateKey"))
  else if ToBoolean (get body "mnemonic") && ToBoolean (get body "index")
          && geZero (get body "index")
  then
    let c := FlowWallet_generatePrivateKeyFromMnemonic (get body "mnemonic") (get body "index") in
    let '(env', s', r) := h _ c (process_env w) (outside w) in
    (after w env' s', [Called c],
     match r with inl v => inl (Rejected v) | inr k => inr (JsString k) end)
  else (w, [], inl (FlowSdkErrorOfCode FLOW_MISSING_MNEMONIC)).
Proof.
  unfold Flow.getPrivateKey.
  destruct (ToBoolean (get body "privateKey")); [reflexivity|].
  destruct (_ && _ && _); [|reflexivity].
  unfold mbind, prog_bind, mret, prog_ret, await. cbn [bind run].
  destruct (h _ _ _ _) as [[env' s'] [v|k]]; reflexivity.
Qed.

(** X9. A transfer needs a key before anything else happens: when key
    resolution fails, or yields an empty key, the call stops there with
    that error or [FLOW_MISSING_PRIVATE_KEY]; the signers are not asked
    for, the clock is not read and nothing is submitted. With neither a
    private key nor a usable mnemonic and index, no collaborator is called
    at all. *)
Theorem sendTransaction_needs_key
    (w : world S) (testnet : bool) (body : obj) (proposer payer : option callback) :
  let k := run h (Flow.getPrivateKey body) w in
  let r := run h (Flow.sendTransaction testnet body proposer payer) w in
  match outcome k with
  | inl e => r = (finalWorld k, trace k, inl e)
  | inr pk =>
      ToBoolean pk = false ->
      r = (finalWorld k, trace k, inl (FlowSdkErrorOfCode FLOW_MISSING_PRIVATE_KEY))
  end
  /\ submitted (trace k) = None
  /\ (ToBoolean (get body "privateKey") = false ->
      ToBoolean (get body "mnemonic") && ToBoolean (get body "index")
        && geZero (get body "index") = false ->
      r = (w, [], inl (FlowSdkErrorOfCode FLOW_MISSING_MNEMONIC))).
Proof.
  intros k r.
  assert (Hfirst : match outcome k with
                   | inl e => r = (finalWorld k, trace k, inl e)
                   | inr pk =>
                       ToBoolean pk = false ->
                       r = (finalWorld k, trace k,
                            inl (FlowSdkErrorOfCode FLOW_MISSING_PRIVATE_KEY))
                   end).
  { unfold r, k, Flow.sendTransaction.
    destruct (Flow.tokenConstants testnet body) as [[a n] st].
    rewrite run_mbind.
    destruct (run h (Flow.getPrivateKey body) w) as [[w1 t1] [e|pk]];
      cbn [outcome finalWorld trace fst snd]; [reflexivity|].
    intros Hf. rewrite Hf. cbn [negb run]. rewrite app_nil_r. reflexivity. }
  split; [exact Hfirst|]. split.
  - unfold k. rewrite getPrivateKey_run.
    destruct (ToBoolean (get body "privateKey")); [reflexivity|].
    destruct (_ && _ && _); [|reflexivity].
    cbv zeta. destruct (h _ _ _ _) as [[env' s'] res]. reflexivity.
  - intros Hpk Hm. unfold k in Hfirst. rewrite getPrivateKey_run, Hpk, Hm in Hfirst.
    exact Hfirst.
Qed.

Lemma sendTransaction_with_key
    (w : world S) (testnet : bool) (body : obj) (proposer payer : option callback) :
  ToBoolean (get body "privateKey") = true ->
  run h (Flow.sendTransaction testnet body proposer payer) w =
  run h ('(proposalSigner, keyHash) ← Flow.proposalSignerOf proposer;
         proposerArg ← Flow.proposerOf proposer proposalSigner;
         payerArg ← Flow.payerOf payer;
         result ← Flow._sendTransaction testnet {|
           Flow.tx_code := (let '(a, n, st) := Flow.tokenConstants testnet body in
                            prepareTransferTxTemplate testnet a n st);
           Flow.tx_args := Flow.transferArgs body;
           Flow.tx_proposer := proposerArg;
           Flow.tx_authorizations :=
             [Flow.getSigner (get body "privateKey") (get body "account") 0];
           Flow.tx_payer := payerArg;
           Flow.tx_keyHash := keyHash |};
         mret ({[ "txId" := Flow.id result ]} : obj)) w.
Proof.
  intros Hpk. unfold Flow.sendTransaction.
  destruct (Flow.tokenConstants testnet body) as [[a n] st].
  rewrite run_mbind, getPrivateKey_run, Hpk. cbn [negb]. rewrite Hpk. cbn [negb].
  destruct (run h _ w) as [[w2 t2] res]. reflexivity.
Qed.

(** X10. With functions of the caller for proposer and payer, the proposer
    function is called twice and the payer function once, in that order,
    before anything is configured or submitted. The key name that is
    released afterwards is the [keyHash] of the first answer; the proposer
    handed to the access node is the second answer, whole; the transfer is
    authorized by the local signer of the body's private key and account,
    key index 0. *)
Theorem sendTransaction_custom_signers
    (w : world S) (testnet : bool) (body : obj) (f g : callback)
    (r1 r2 r3 : callbackResult) (e1 e2 e3 : gmap string string) (s1 s2 s3 : S) :
  ToBoolean (get body "privateKey") = true ->
  h _ (Invoke f false) (process_env w) (outside w) = (e1, s1, inr r1) ->
  h _ (Invoke f false) e1 s1 = (e2, s2, inr r2) ->
  h _ (Invoke g true) e2 s2 = (e3, s3, inr r3) ->
  let tx := {|
    Flow.tx_code := (let '(a, n, st) := Flow.tokenConstants testnet body in
                     prepareTransferTxTemplate testnet a n st);
    Flow.tx_args := Flow.transferArgs body;
    Flow.tx_proposer := CustomSigner (cb_value r2);
    Flow.tx_authorizations :=
      [LocalSigner (get body "privateKey") (get body "account") 0];
    Flow.tx_payer := CustomSigner (cb_value r3);
    Flow.tx_keyHash := cb_keyHash r1 |} in
  let inner := run h (Flow._sendTransaction testnet tx) (after w e3 s3) in
  run h (Flow.sendTransaction testnet body (Some f) (Some g)) w
  = (finalWorld inner,
     ([Called (Invoke f false); Called (Invoke f false); Called (Invoke g true)]
        ++ trace inner)%list,
     match outcome inner with
     | inl e => inl e
     | inr result => inr {[ "txId" := Flow.id result ]}
     end).
Proof.
  intros Hpk H1 H2 H3 tx inner.
  rewrite sendTransaction_with_key by assumption.
  unfold Flow.proposalSignerOf, Flow.proposerOf, Flow.payerOf.
  rewrite run_mbind, run_mbind, run_await, H1. cbn [settle run mret prog_ret].
  rewrite run_mbind, run_mbind, run_await. cbn [process_env outside heap].
  rewrite H2. cbn [settle run mret prog_ret].
  rewrite run_mbind, run_mbind, run_await. cbn [process_env outside heap].
  rewrite H3. cbn [settle run mret prog_ret].
  rewrite run_mbind.
  change {| process_env := e3; heap := heap w; outside := s3 |} with (after w e3 s3).
  unfold Flow.getSigner. fold tx. fold inner.
  destruct inner as [[w4 t4] [e|result]];
    cbn [run mret prog_ret finalWorld trace outcome fst snd app];
    rewrite ?app_nil_r; reflexivity.
Qed.

(** X11. Without such functions the signers are those of the hosted API:
    the clock is read twice, once for the proposer and once for the payer,
    before anything is configured or submitted; the proposer's key name is
    [FLOW_PROPOSAL_KEY_] followed by the first reading ([proposalKeyName]),
    and that is the name released afterwards. *)
Theorem sendTransaction_api_signers
    (w : world S) (testnet : bool) (body : obj)
    (t1 t2 : Z) (e1 e2 : gmap string string) (s1 s2 : S) :
  ToBoolean (get body "privateKey") = true ->
  h _ Date_now (process_env w) (outside w) = (e1, s1, inr t1) ->
  h _ Date_now e1 s1 = (e2, s2, inr t2) ->
  let tx := {|
    Flow.tx_code := (let '(a, n, st) := Flow.tokenConstants testnet body in
                     prepareTransferTxTemplate testnet a n st);
    Flow.tx_args := Flow.transferArgs body;
    Flow.tx_proposer := ApiSigner false t1;
    Flow.tx_authorizations :=
      [LocalSigner (get body "privateKey") (get body "account") 0];
    Flow.tx_payer := ApiSigner true t2;
    Flow.tx_keyHash := JsString (Flow.proposalKeyName t1) |} in
  let inner := run h (Flow._sendTransaction testnet tx) (after w e2 s2) in
  run h (Flow.sendTransaction testnet body None None) w
  = (finalWorld inner,
     ([Called Date_now; Called Date_now] ++ trace inner)%list,
     match outcome inner with
     | inl e => inl e
     | inr result => inr {[ "txId" := Flow.id result ]}
     end).
Proof.
  intros Hpk H1 H2 tx inner.
  rewrite sendTransaction_with_key by assumption.
  unfold Flow.proposalSignerOf, Flow.proposerOf, Flow.payerOf, Flow.getApiSigner.
  rewrite run_mbind, run_mbind, run_mbind, run_await, H1. cbn [settle run mret prog_ret].
  rewrite run_mbind. cbn [run mret prog_ret].
  rewrite run_mbind, run_mbind, run_mbind, run_await. cbn [process_env outside heap].
  rewrite H2. cbn [settle run mret prog_ret].
  rewrite run_mbind.
  change {| process_env := e2; heap := heap w; outside := s2 |} with (after w e2 s2).
  unfold Flow.getSigner. fold tx. fold inner.
  destruct inner as [[w4 t4] [e|result]];
    cbn [run mret prog_ret finalWorld trace outcome fst snd app];
    rewrite ?app_nil_r; reflexivity.
Qed.

End TransferSigners.

(** ** EVM custodial wallets: the approve call and the local path *)

Lemma scanNumeric_decimalDigits (n : Z) :
  0 <= n -> BigNumber.scanNumeric (decimalDigits n) = Some (false, n, 0).
Proof.
  intros Hn. destruct (readDigits_decimalDigits n Hn) as [k [Hk Hr]].
  assert (Hne : decimalDigits n <> "") by (apply decimalDigits_nonempty; assumption).
  destruct (decimalDigits n) as [|c s'] eqn:Es; [contradiction|].
  pose proof (isDigit_code c (readDigits_head c s' n k "" Hr Hk)) as Hc.
  unfold BigNumber.scanNumeric, readSign.
  replace (code c =? 45) with false by (symmetry; apply Z.eqb_neq; lia).
  cbn [andb]. unfold scanDecimal. rewrite Hr.
  replace (k =? 0) with false by (symmetry; apply Z.eqb_neq; lia).
  cbn. reflexivity.
Qed.

Section ApproveCall.
Context `{D : Deps} {S : Type} (h : handler S).

Lemma get_delete_ne (o : obj) (f g : string) : f <> g -> get (delete f o) g = get o g.
Proof. intros Hne. unfold get. rewrite lookup_delete_ne by exact Hne. reflexivity. Qed.

(** What the approve preparation hands to the contract call, when it gets
    that far. *)
Lemma approve_prepared (w : world S) (body : loc) (provider : JsVal)
    (b : obj) (m : string) (ps : list JsVal) (pv : JsVal) (a : abi) :
  let o := deref (heap w) body in
  preparedCall (trace (run h (Custodial.approveFromCustodialWallet body provider) w))
    = Some (b, m, ps, pv, a) ->
  exists (t : string) (decimals : N),
    get o "tokenAddress" = JsString t
    /\ ps = Custodial.approveParams o (JsString (trim t)) decimals
    /\ b = <["contractAddress" := get o "custodialAddress"]> (delete "amount" o)
    /\ m = "approve" /\ pv = provider /\ a = CustodialFullTokenWallet_abi.
Proof.
  intros o Hp. rewrite approve_run in Hp. fold o in Hp.
  rewrite (get_delete_ne o "amount" "custodialAddress") in Hp by discriminate.
  destruct (strictEqNumber (get o "contractType") (S754_zero false)).
  - rewrite (run_await h (EvmBasedUtils_decimals (get o "tokenAddress") provider) w) in Hp.
    destruct (h _ _ (process_env w) (outside w)) as [[e1 s1] [v|decimals]];
      cbn [settle] in Hp; cbv beta iota in Hp; [discriminate|].
    destruct (get o "tokenAddress") as [| | | |t]; try discriminate.
    rewrite run_await in Hp. cbn [process_env outside heap] in Hp.
    destruct (h _ _ e1 s1) as [[e3 s3] r3].
    cbn in Hp. inversion Hp. exists t, decimals. repeat split.
  - destruct (get o "tokenAddress") as [| | | |t]; try discriminate.
    rewrite run_await in Hp. cbn [process_env outside heap] in Hp.
    destruct (h _ _ (process_env w) (outside w)) as [[e3 s3] r3].
    cbn in Hp. inversion Hp. exists t, 0%N. repeat split.
Qed.

(** X12. The contract call of the approve preparation is made on a copy of
    the body without [amount] and with [contractAddress] set to the
    custodial address (whatever [contractAddress] the body had), for the
    method [approve] of the full-token-wallet ABI with the caller's
    provider; its five parameters start with the trimmed token address,
    the contract type and the spender. *)
Theorem approve_prepared_call (w : world S) (body : loc) (provider : JsVal)
    (b : obj) (m : string) (ps : list JsVal) (pv : JsVal) (a : abi) :
  let o := deref (heap w) body in
  preparedCall (trace (run h (Custodial.approveFromCustodialWallet body provider) w))
    = Some (b, m, ps, pv, a) ->
  m = "approve" /\ a = CustodialFullTokenWallet_abi /\ pv = provider
  /\ b !! "contractAddress" = Some (get o "custodialAddress")
  /\ b !! "amount" = None
  /\ (forall f, f <> "contractAddress" -> f <> "amount" -> b !! f = o !! f)
  /\ length ps = 5%nat
  /\ (exists t, get o "tokenAddress" = JsString t /\ ps !! 0%nat = Some (JsString (trim t)))
  /\ ps !! 1%nat = Some (get o "contractType")
  /\ ps !! 2%nat = Some (get o "spender").
Proof.
  intros o Hp.
  destruct (approve_prepared w body provider b m ps pv a Hp)
    as [t [decimals [Ht [Hps [Hb [Hm [Hpv Ha]]]]]]].
  fold o in Ht, Hps, Hb. subst b m pv a ps.
  repeat split.
  - apply lookup_insert_eq.
  - rewrite lookup_insert_ne by discriminate. apply lookup_delete_eq.
  - intros f Hf1 Hf2. rewrite lookup_insert_ne by congruence.
    apply lookup_delete_ne. congruence.
  - exists t. split; [exact Ht|reflexivity].
Qed.

(** X13. The token id is the last parameter of the approve call, in
    hexadecimal: ["0x0"] when the body has none (or an empty or zero one),
    and the hexadecimal digits of [n] when it is the decimal digits of a
    positive integer [n]. *)
Theorem approve_tokenId_parameter (w : world S) (body : loc) (provider : JsVal)
    (b : obj) (m : string) (ps : list JsVal) (pv : JsVal) (a : abi) :
  let o := deref (heap w) body in
  preparedCall (trace (run h (Custodial.approveFromCustodialWallet body provider) w))
    = Some (b, m, ps, pv, a) ->
  (ToBoolean (get o "tokenId") = false -> ps !! 4%nat = Some (JsString "0x0"))
  /\ (forall n : Z,
        get o "tokenId" = JsString (decimalDigits n) ->
        0 < n ->
        BigNumber.inRange n 0 = true ->
        ps !! 4%nat = Some (JsString ("0x" ++ hexDigits n))).
Proof.
  intros o Hp.
  destruct (approve_prepared w body provider b m ps pv a Hp)
    as [t [decimals [_ [Hps _]]]].
  fold o in Hps. subst ps. cbn [Custodial.approveParams lookup list_lookup].
  split.
  - intros Hf. unfold Custodial.bigNumberOrZero. rewrite Hf. reflexivity.
  - intros n Hid Hn Hr. rewrite Hid. unfold Custodial.bigNumberOrZero.
    assert (Htb : ToBoolean (JsString (decimalDigits n)) = true).
    { simpl. destruct (String.eqb_spec (decimalDigits n) "") as [He|_]; [|reflexivity].
      exfalso. exact (decimalDigits_nonempty n ltac:(lia) He). }
    rewrite Htb. cbn [BigNumber.of_value ToString]. unfold BigNumber.of_string.
    rewrite scanNumeric_decimalDigits by lia.
    rewrite (range_inRange false n 0 Hn Hr).
    rewrite (toString16_integer n 0 (n * 10 ^ 0) 1 n); try reflexivity; lia.
Qed.

(** X14. Without a token address in the body the approve preparation
    throws a [TypeError]: no contract call is prepared and the body keeps
    its [amount]. For a fungible token the decimals have been asked for by
    then, of an undefined address; for any other contract type no
    collaborator is called. *)
Theorem approve_without_token_address (w : world S) (body : loc) (provider : JsVal) :
  let o := deref (heap w) body in
  let r := run h (Custodial.approveFromCustodialWallet body provider) w in
  o !! "tokenAddress" = None ->
  heap (finalWorld r) = heap w
  /\ preparedCall (trace r) = None
  /\ (if strictEqNumber (get o "contractType") (S754_zero false)
      then trace r = [Called (EvmBasedUtils_decimals JsUndefined provider)]
           /\ (outcome r
                 = inl (TypeError "Cannot read properties of undefined (reading 'trim')")
               \/ exists reason, outcome r = inl (Rejected reason))
      else r = (w, [],
                inl (TypeError "Cannot read properties of undefined (reading 'trim')"))).
Proof.
  intros o r Hno.
  assert (Hta : get o "tokenAddress" = JsUndefined) by (unfold get; rewrite Hno; reflexivity).
  unfold r. rewrite approve_run. fold o. rewrite Hta.
  destruct (strictEqNumber (get o "contractType") (S754_zero false)).
  - rewrite run_await.
    destruct (h _ _ (process_env w) (outside w)) as [[e1 s1] [v|decimals]]; cbn [settle].
    + repeat split. right. exists v. reflexivity.
    + repeat split. left. reflexivity.
  - repeat split.
Qed.

End ApproveCall.

Section CustodialLocalPath.
Context `{D : Deps} {S : Type} (h : handler S).

Ltac unfold_prog := unfold mbind, prog_bind, mret, prog_ret; cbn [bind load run].

(** X15. A wallet-batch request with [feesCovered] ends with what the
    hosted API answered: the [txId] of an answer that is truthy
    ([undefined] when the answer has none), the error [Unable to generate
    custodial wallet address.] for a falsy answer, and the rejection
    itself when the API rejects. The body is not touched. *)
Theorem custodial_fees_covered_batch_outcome
    (w : world S) (body : loc) (provider testnet : JsVal)
    (env' : gmap string string) (s' : S) (answer : value + value) :
  let o := deref (heap w) body in
  has o "feesCovered" = true ->
  h _ (ApiServices_generateCustodialWalletBatch o) (process_env w) (outside w)
    = (env', s', answer) ->
  run h (Custodial.send.custodialWalletBatch body provider testnet) w
  = (after w env' s',
     [Called (ApiServices_generateCustodialWalletBatch o)],
     match answer with
     | inl reason => inl (Rejected reason)
     | inr request =>
         if valueToBoolean request then inr (Prim (valueGet request "txId"))
         else inl (JsError "Unable to generate custodial wallet address.")
     end).
Proof.
  intros o Hfc Hans.
  unfold Custodial.send.custodialWalletBatch. unfold_prog. fold o. rewrite Hfc.
  unfold Custodial.generateCustodialBatch, await. unfold_prog. fold o. rewrite Hans.
  destruct answer as [reason|request]; cbn [settle bind run]; [reflexivity|].
  destruct (valueToBoolean request); reflexivity.
Qed.

(** X16. Without a [signatureId] the custodial transfer and batch transfer
    take the local path and never the KMS one: the transaction is prepared
    from the body with 18 native decimals and the caller's testnet flag and
    provider, and what the preparation returns is handed to the broadcast
    function, whose answer is the result. When the preparation fails,
    nothing is broadcast. *)
Theorem custodial_send_without_signatureId
    (w : world S) (body : loc) (provider testnet : JsVal) :
  let o := deref (heap w) body in
  ToBoolean (get o "signatureId") = false ->
  let local (prepare : ext JsVal) :=
    let '(e1, s1, prepared) := h _ prepare (process_env w) (outside w) in
    match prepared with
    | inl reason => (after w e1 s1, [Called prepare], inl (Rejected reason))
    | inr txData =>
        let '(e2, s2, answer) := h _ (BroadcastFunction txData) e1 s1 in
        (after w e2 s2, [Called prepare; Called (BroadcastFunction txData)], settle answer)
    end in
  run h (Custodial.send.transferFromCustodialWallet body provider testnet) w
    = local (PrepareTransferFromCustodialWalletAbstract o 18 testnet provider)
  /\ run h (Custodial.send.batchTransferFromCustodialWallet body provider testnet) w
     = local (PrepareBatchTransferFromCustodialWalletAbstract o 18 testnet provider).
Proof.
  intros o Hno local. unfold local. split.
  - unfold Custodial.send.transferFromCustodialWallet,
      Custodial.transferFromCustodialWallet, await.
    unfold_prog. fold o. rewrite Hno. cbn [bind run]. fold o.
    destruct (h _ _ (process_env w) (outside w)) as [[e1 s1] [reason|txData]];
      cbn [settle bind run process_env outside heap]; [reflexivity|].
    destruct (h _ (BroadcastFunction txData) e1 s1) as [[e2 s2] [v|x]]; reflexivity.
  - unfold Custodial.send.batchTransferFromCustodialWallet,
      Custodial.batchTransferFromCustodialWallet, await.
    unfold_prog. fold o. rewrite Hno. cbn [bind run]. fold o.
    destruct (h _ _ (process_env w) (outside w)) as [[e1 s1] [reason|txData]];
      cbn [settle bind run process_env outside heap]; [reflexivity|].
    destruct (h _ (BroadcastFunction txData) e1 s1) as [[e2 s2] [v|x]]; reflexivity.
Qed.

(** X17. Without a [signatureId] the custodial approve is prepared locally
    and then broadcast: the calls are those of the preparation followed by
    one call of the broadcast function on what it returned, and the answer
    of that call is the result. When the preparation fails, its error is
    the outcome and nothing is broadcast. *)
Theorem custodial_send_approve_without_signatureId
    (w : world S) (body : loc) (provider : JsVal) :
  let o := deref (heap w) body in
  ToBoolean (get o "signatureId") = false ->
  let prepared := run h (Custodial.approveFromCustodialWallet body provider) w in
  run h (Custodial.send.approveFromCustodialWallet body provider) w
  = match outcome prepared with
    | inl e => (finalWorld prepared, trace prepared, inl e)
    | inr txData =>
        let w1 := finalWorld prepared in
        let '(e2, s2, answer) :=
          h _ (BroadcastFunction txData) (process_env w1) (outside w1) in
        (after w1 e2 s2,
         (trace prepared ++ [Called (BroadcastFunction txData)])%list,
         settle answer)
    end.
Proof.
  intros o Hno prepared.
  unfold Custodial.send.approveFromCustodialWallet. unfold_prog. fold o. rewrite Hno.
  rewrite run_bind. fold prepared.
  destruct prepared as [[w1 t1] [e|txData]]; cbn [outcome finalWorld trace fst snd];
    [reflexivity|].
  rewrite run_await.
  destruct (h _ (BroadcastFunction txData) (process_env w1) (outside w1))
    as [[e2 s2] answer].
  reflexivity.
Qed.

End CustodialLocalPath.

(** ** Flow: the derivation index *)

Section DerivationIndex.
Context `{D : Deps} {S : Type} (h : handler S).

Lemma index_test (n : Z) :
  - 2 ^ 53 < n < 2 ^ 53 ->
  ToBoolean (JsNumber (of_Z n)) && geZero (JsNumber (of_Z n)) = (0 <? n).
Proof.
  intros Hn. unfold of_Z.
  destruct (Z.eq_dec n 0) as [->|Hne]; [reflexivity|].
  destruct (of_decimal_integer_exact (n <? 0) (Z.abs n) ltac:(lia)) as [m [e [Hx _]]].
  rewrite Hx. destruct (n <? 0) eqn:E.
  - apply Z.ltb_lt in E. replace (0 <? n) with false by (symmetry; apply Z.ltb_ge; lia).
    reflexivity.
  - apply Z.ltb_ge in E. replace (0 <? n) with true by (symmetry; apply Z.ltb_lt; lia).
    reflexivity.
Qed.

(** X18. With a mnemonic and no private key, an integer index decides
    what key resolution does: from 1 on the wallet is asked, once, for the
    key of the mnemonic at that index, and its answer is the key; at 0 and
    below no collaborator is called and the call fails with
    [FLOW_MISSING_MNEMONIC]. *)
Theorem getPrivateKey_integer_index (w : world S) (body : obj) (n : Z) :
  ToBoolean (get body "privateKey") = false ->
  ToBoolean (get body "mnemonic") = true ->
  get body "index" = JsNumber (of_Z n) ->
  - 2 ^ 53 < n < 2 ^ 53 ->
  let r := run h (Flow.getPrivateKey body) w in
  if 0 <? n then
    let derive := FlowWallet_generatePrivateKeyFromMnemonic (get body "mnemonic")
                    (JsNumber (of_Z n)) in
    trace r = [Called derive]
    /\ outcome r = match snd (h _ derive (process_env w) (outside w)) with
                   | inl reason => inl (Rejected reason)
                   | inr key => inr (JsString key)
                   end
  else r = (w, [], inl (FlowSdkErrorOfCode FLOW_MISSING_MNEMONIC)).
Proof.
  intros Hpk Hm Hi Hn r. unfold r. rewrite getPrivateKey_run, Hpk, Hm, Hi.
  cbn [andb]. rewrite (index_test n Hn).
  destruct (0 <? n); [|reflexivity].
  cbv zeta. destruct (h _ _ _ _) as [[env' s'] [v|k]]; split; reflexivity.
Qed.

End DerivationIndex.

(** ** Flow: accounts, NFTs and custom transactions *)

(** *** What a run that returns went through *)

Section Returns.
Context `{D : Deps} {S : Type} (h : handler S).

Lemma run_mbind_inr {A B : Type} (p : prog A) (f : A -> prog B) (w w' : world S)
    (t : list event) (b : B) :
  run h (p ≫= f) w = (w', t, inr b) ->
  exists w1 t1 a t2,
    run h p w = (w1, t1, inr a) /\ run h (f a) w1 = (w', t2, inr b)
    /\ t = (t1 ++ t2)%list.
Proof.
  rewrite run_mbind.
  destruct (run h p w) as [[w1 t1] [e|a]]; [discriminate|].
  destruct (run h (f a) w1) as [[w2 t2] r2] eqn:E2.
  intros H. inversion H. subst. exists w1, t1, a, t2.
  split; [reflexivity|]. split; [exact E2|reflexivity].
Qed.

(** [_sendTransaction] returns only for a transaction that was submitted
    and sealed without error, and then the id of the submission and the
    events of the confirmation. *)
Lemma _sendTransaction_returns (testnet : bool) (tx : Flow.Transaction)
    (w w' : world S) (t : list event) (result : Flow.TransactionResult)
    (status : sealedStatus) :
  confirms h status ->
  run h (Flow._sendTransaction testnet tx) w = (w', t, inr result) ->
  ToBoolean (st_error status) = false
  /\ Flow.events result = st_events status
  /\ exists response, result = {| Flow.id := transactionId response;
                                  Flow.events := st_events status |}.
Proof.
  intros Hconf. unfold Flow._sendTransaction.
  rewrite run_mbind, run_await.
  destruct (h _ (Fcl_config_put _ _) _ _) as [[e1 s1] [v|u]]; cbn [settle]; [discriminate|].
  rewrite run_mbind, run_tryCatch, run_await. cbn [process_env outside heap].
  destruct (h _ (Fcl_send _) e1 s1) as [[e2 s2] [v|response]]; cbn [settle].
  - rewrite run_mbind, run_tryCatch.
    destruct (run h (Flow.releaseProposalKey _ _) _) as [[w3 t3] [e|[]]]; discriminate.
  - rewrite run_tryFinally, run_tryCatch, run_mbind, run_await.
    cbn [process_env outside heap].
    pose proof (Hconf response e2 s2) as Hst.
    destruct (h _ (Fcl_tx_onceSealed response) e2 s2) as [[e3 s3] st].
    cbn [snd] in Hst. subst st. cbn [settle].
    destruct (ToBoolean (st_error status)) eqn:Eerr; cbn [run mret prog_ret].
    + destruct (run h (Flow.releaseProposalKey _ _) _) as [[w4 t4] [e|[]]]; discriminate.
    + destruct (run h (Flow.releaseProposalKey _ _) _) as [[w4 t4] [e|[]]]; [discriminate|].
      intros H. inversion H. subst. repeat split. eexists. reflexivity.
Qed.

End Returns.

(** *** What the operations submit *)

Section OperationSubmissions.
Context `{D : Deps}.

Ltac no_send := apply sends_await; intros ? Hsub; discriminate Hsub.

Lemma sends_getPrivateKey P (body : obj) : sends P (Flow.getPrivateKey body).
Proof.
  unfold Flow.getPrivateKey.
  destruct (ToBoolean (get body "privateKey")); [exact I|].
  destruct (_ && _ && _); [|exact I].
  apply sends_mbind; [no_send|]. intros; exact I.
Qed.

Lemma sends_proposalSignerOf P (proposer : option callback) :
  sends P (Flow.proposalSignerOf proposer).
Proof.
  unfold Flow.proposalSignerOf, Flow.getApiSigner. destruct proposer.
  - apply sends_mbind; [no_send|]. intros; exact I.
  - apply sends_mbind; [|intros [? ?]; exact I].
    apply sends_mbind; [no_send|]. intros; exact I.
Qed.

Lemma sends_proposerOf P (proposer : option callback) (sg : signer) :
  sends P (Flow.proposerOf proposer sg).
Proof.
  unfold Flow.proposerOf. destruct proposer; [|exact I].
  apply sends_mbind; [no_send|]. intros; exact I.
Qed.

Lemma sends_payerOf P (payer : option callback) : sends P (Flow.payerOf payer).
Proof.
  unfold Flow.payerOf, Flow.getApiSigner. destruct payer.
  - apply sends_mbind; [no_send|]. intros; exact I.
  - apply sends_mbind; [|intros [? ?]; exact I].
    apply sends_mbind; [no_send|]. intros; exact I.
Qed.

Lemma sends_liftE P {A : Type} (r : exn + A) : sends P (FlowOperations.liftE r).
Proof. destruct r; exact I. Qed.

Lemma sends_liftE_mbind P {A B : Type} (r : exn + A) (f : A -> prog B) :
  (forall a, r = inr a -> sends P (f a)) -> sends P (FlowOperations.liftE r ≫= f).
Proof.
  intros Hf. destruct r as [e|a]; [exact I|]. exact (Hf a eq_refl).
Qed.

(** The signers are obtained, then the transaction is sent, then the
    result is worked out without any further call: the only submission is
    that of the transaction. *)
Lemma sends_signed {A : Type} P (testnet : bool) (proposer payer : option callback)
    (tx : signer -> signer -> JsVal -> Flow.Transaction)
    (k : Flow.TransactionResult -> prog A) :
  (forall proposerArg payerArg keyHash,
     P (Flow.interaction (tx proposerArg payerArg keyHash))) ->
  (forall result, sends P (k result)) ->
  sends P ('(proposalSigner, keyHash) ← Flow.proposalSignerOf proposer;
           proposerArg ← Flow.proposerOf proposer proposalSigner;
           payerArg ← Flow.payerOf payer;
           result ← Flow._sendTransaction testnet (tx proposerArg payerArg keyHash);
           k result).
Proof.
  intros HP Hk.
  apply sends_mbind; [apply sends_proposalSignerOf|]. intros [proposalSigner keyHash].
  apply sends_mbind; [apply sends_proposerOf|]. intros proposerArg.
  apply sends_mbind; [apply sends_payerOf|]. intros payerArg.
  apply sends_mbind; [|exact Hk].
  apply sends__sendTransaction. apply HP.
Qed.

Lemma get_insert_chain (body : obj) (v : JsVal) (f : string) :
  f <> "chain" -> get (<["chain" := v]> body) f = get body f.
Proof. intros Hf. unfold get. rewrite lookup_insert_ne by congruence. reflexivity. Qed.

Lemma getPrivateKey_chain (body : obj) (v : JsVal) :
  Flow.getPrivateKey (<["chain" := v]> body) = Flow.getPrivateKey body.
Proof.
  unfold Flow.getPrivateKey. rewrite !get_insert_chain by discriminate. reflexivity.
Qed.

End OperationSubmissions.

Section OperationClaims.
Context `{D : Deps} {S : Type} (h : handler S).
Variable prepareCreateAccountWithFUSDFromPublicKeyTxTemplate : bool -> string.
Variable prepareAddPublicKeyToAccountTxTemplate : string.
Variable mintNftTokenTxTemplate : bool -> string.
Variable transferNftTokenTxTemplate : bool -> string.
Variable burnNftTokenTxTemplate : bool -> string.
Variable encodeKey : JsVal -> Z -> exn + string.
Variable event_data : obj -> option obj.

Lemma stoppedAt_run {A : Type} (body : obj) (k : JsVal -> prog A) (w : world S) :
  stoppedAt (run h (Flow.getPrivateKey body) w)
    (run h (pk ← Flow.getPrivateKey body;
            if negb (ToBoolean pk)
            then Throw (FlowSdkErrorOfCode FLOW_MISSING_PRIVATE_KEY)
            else k pk) w).
Proof.
  unfold stoppedAt. rewrite run_mbind.
  destruct (run h (Flow.getPrivateKey body) w) as [[w1 t1] [e|pk]];
    cbn [outcome finalWorld trace fst snd]; [reflexivity|].
  intros Hf. rewrite Hf. cbn [negb run]. rewrite app_nil_r. reflexivity.
Qed.

(** X19. Minting, transferring and burning an NFT and sending a custom
    transaction need a key before anything else happens: when key
    resolution fails, or yields an empty key, the call stops there with
    that error or [FLOW_MISSING_PRIVATE_KEY], having called nothing but the
    wallet, if that. The [chain] the operations set on the body plays no
    part in it. *)
Theorem flow_operations_need_key
    (w : world S) (testnet : bool) (body : obj) (transaction : string)
    (args : list FlowArgs) (proposer payer : option callback) :
  let k := run h (Flow.getPrivateKey body) w in
  stoppedAt k (run h (FlowOperations.sendNftMintToken mintNftTokenTxTemplate event_data testnet body proposer payer) w)
  /\ stoppedAt k (run h (FlowOperations.sendNftTransferToken transferNftTokenTxTemplate testnet body proposer payer) w)
  /\ stoppedAt k (run h (FlowOperations.sendNftBurnToken burnNftTokenTxTemplate testnet body proposer payer) w)
  /\ stoppedAt k (run h (FlowOperations.sendCustomTransaction testnet body transaction
                           args proposer payer) w)
  /\ submitted (trace k) = None.
Proof.
  intros k. unfold k.
  rewrite <- (getPrivateKey_chain body (JsString Blockchain_FLOW)) at 1 2 3.
  repeat split; try apply stoppedAt_run.
  rewrite getPrivateKey_run.
  destruct (ToBoolean (get body "privateKey")); [reflexivity|].
  destruct (_ && _ && _); [|reflexivity].
  cbv zeta. destruct (h _ _ _ _) as [[env' s'] res]. reflexivity.
Qed.

(** X20. What the NFT operations submit: the script of the operation for
    the network; for a mint the recipient as an [Address] and the URL and
    the contract address as [String]s, for a transfer the recipient and
    the token id, for a burn the token id and the contract address, the
    token id as a [UInt64] read by [parseInt]; the local signer of a
    non-empty key and the body's account, key index 0, as the only
    authorization; and a computation limit of 1000. *)
Theorem nft_operations_submission
    (w : world S) (testnet : bool) (body : obj) (proposer payer : option callback)
    (ix : fclInteraction) :
  let tokenId := JsNumber (parseInt (ToString (get body "tokenId"))) in
  (submitted (trace (run h (FlowOperations.sendNftMintToken mintNftTokenTxTemplate event_data testnet body proposer payer) w)) = Some ix ->
   ix_code ix = mintNftTokenTxTemplate testnet
   /\ ix_args ix = [ sentArg (get body "to") "Address";
                     sentArg (get body "url") "String";
                     sentArg (get body "contractAddress") "String" ]
   /\ signedByBody body ix)
  /\ (submitted (trace (run h (FlowOperations.sendNftTransferToken transferNftTokenTxTemplate testnet body proposer payer) w))
        = Some ix ->
      ix_code ix = transferNftTokenTxTemplate testnet
      /\ ix_args ix = [ sentArg (get body "to") "Address"; sentArg tokenId "UInt64" ]
      /\ signedByBody body ix)
  /\ (submitted (trace (run h (FlowOperations.sendNftBurnToken burnNftTokenTxTemplate testnet body proposer payer) w)) = Some ix ->
      ix_code ix = burnNftTokenTxTemplate testnet
      /\ ix_args ix = [ sentArg tokenId "UInt64";
                        sentArg (get body "contractAddress") "String" ]
      /\ signedByBody body ix).
Proof.
  intros tokenId.
  split; [|split]; intros Hsub; pattern ix; (eapply sends_run; [|exact Hsub]).
  - unfold FlowOperations.sendNftMintToken.
    apply sends_mbind; [apply sends_getPrivateKey|]. intros pk.
    destruct (ToBoolean pk) eqn:Epk; cbn [negb]; [|exact I].
    apply (sends_signed _ testnet proposer payer
             (fun pa py kh => {| Flow.tx_code := _; Flow.tx_args := _;
                                 Flow.tx_proposer := pa; Flow.tx_authorizations := _;
                                 Flow.tx_payer := py; Flow.tx_keyHash := kh |})).
    + intros pa py kh. unfold signedByBody.
      rewrite !get_insert_chain by discriminate.
      repeat split. exists pk. split; [assumption|reflexivity].
    + intros result. apply sends_mbind; [apply sends_liftE|]. intros; exact I.
  - unfold FlowOperations.sendNftTransferToken.
    apply sends_mbind; [apply sends_getPrivateKey|]. intros pk.
    destruct (ToBoolean pk) eqn:Epk; cbn [negb]; [|exact I].
    apply (sends_signed _ testnet proposer payer
             (fun pa py kh => {| Flow.tx_code := _; Flow.tx_args := _;
                                 Flow.tx_proposer := pa; Flow.tx_authorizations := _;
                                 Flow.tx_payer := py; Flow.tx_keyHash := kh |})).
    + intros pa py kh. unfold signedByBody, tokenId.
      rewrite !get_insert_chain by discriminate.
      repeat split. exists pk. split; [assumption|reflexivity].
    + intros result. exact I.
  - unfold FlowOperations.sendNftBurnToken.
    apply sends_mbind; [apply sends_getPrivateKey|]. intros pk.
    destruct (ToBoolean pk) eqn:Epk; cbn [negb]; [|exact I].
    apply (sends_signed _ testnet proposer payer
             (fun pa py kh => {| Flow.tx_code := _; Flow.tx_args := _;
                                 Flow.tx_proposer := pa; Flow.tx_authorizations := _;
                                 Flow.tx_payer := py; Flow.tx_keyHash := kh |})).
    + intros pa py kh. unfold signedByBody, tokenId.
      rewrite !get_insert_chain by discriminate.
      repeat split. exists pk. split; [assumption|reflexivity].
    + intros result. exact I.
Qed.

(** When an operation that obtains its signers, sends the transaction and
    works on its result returns, the result it worked on is that of a
    transaction sealed without error. *)
Lemma signed_returns {A : Type} (testnet : bool) (proposer payer : option callback)
    (tx : signer -> signer -> JsVal -> Flow.Transaction)
    (k : Flow.TransactionResult -> prog A)
    (w w' : world S) (t : list event) (b : A) (status : sealedStatus) :
  confirms h status ->
  run h ('(proposalSigner, keyHash) ← Flow.proposalSignerOf proposer;
         proposerArg ← Flow.proposerOf proposer proposalSigner;
         payerArg ← Flow.payerOf payer;
         result ← Flow._sendTransaction testnet (tx proposerArg payerArg keyHash);
         k result) w = (w', t, inr b) ->
  exists response w1,
    outcome (run h (k {| Flow.id := transactionId response;
                         Flow.events := st_events status |}) w1) = inr b.
Proof.
  intros Hconf Hrun.
  apply run_mbind_inr in Hrun as (w1 & t1 & [ps kh] & t1' & _ & Hrun & _).
  apply run_mbind_inr in Hrun as (w2 & t2 & pa & t2' & _ & Hrun & _).
  apply run_mbind_inr in Hrun as (w3 & t3 & py & t3' & _ & Hrun & _).
  apply run_mbind_inr in Hrun as (w4 & t4 & result & t4' & Hsend & Hrun & _).
  destruct (_sendTransaction_returns h testnet _ w3 w4 t4 result status Hconf Hsend)
    as [_ [_ [response ->]]].
  exists response, w4. rewrite Hrun. reflexivity.
Qed.

Lemma needs_key_returns {A : Type} (body : obj) (k : JsVal -> prog A)
    (w w' : world S) (t : list event) (b : A) :
  run h (pk ← Flow.getPrivateKey body;
         if negb (ToBoolean pk)
         then Throw (FlowSdkErrorOfCode FLOW_MISSING_PRIVATE_KEY)
         else k pk) w = (w', t, inr b) ->
  exists pk w1 t1, run h (k pk) w1 = (w', t1, inr b).
Proof.
  intros Hrun.
  apply run_mbind_inr in Hrun as (w1 & t1 & pk & t1' & _ & Hrun & _).
  destruct (ToBoolean pk); cbn [negb] in Hrun; [|discriminate].
  exists pk, w1, t1'. exact Hrun.
Qed.


Lemma liftE_returns {A B : Type} (r : exn + A) (f : A -> B) (w w' : world S)
    (t : list event) (b : B) :
  outcome (run h (a ← FlowOperations.liftE r; mret (f a)) w) = inr b ->
  exists a, r = inr a /\ b = f a.
Proof.
  destruct r as [e|a]; cbn; [discriminate|].
  intros H. inversion H. exists a. split; reflexivity.
Qed.


(** X23. An account is created under a key of weight 1000: the script for
    the network is submitted with the encoded public key as its only
    argument, a [String], authorized by the local signer of the signer's
    key and address as they are given (an empty key included), key index
    0. A public key the encoder refuses stops the call before anything is
    called. The address returned is the [address] in the data of the first
    [flow.AccountCreated] event of the confirmation, and [undefined] when
    there is no such event. *)
Theorem createAccountFromPublicKey_behaviour
    (w : world S) (testnet : bool) (publicKey signerAddress signerPrivateKey : JsVal)
    (proposer payer : option callback) :
  let r := run h (FlowOperations.createAccountFromPublicKey
                    prepareCreateAccountWithFUSDFromPublicKeyTxTemplate encodeKey event_data testnet publicKey signerAddress
                    signerPrivateKey proposer payer) w in
  (forall e, encodeKey publicKey 1000 = inl e -> r = (w, [], inl e))
  /\ (forall ix, submitted (trace r) = Some ix ->
        exists encoded,
          encodeKey publicKey 1000 = inr encoded
          /\ ix_code ix = prepareCreateAccountWithFUSDFromPublicKeyTxTemplate testnet
          /\ ix_args ix = [sentArg (JsString encoded) "String"]
          /\ ix_authorizations ix = [LocalSigner signerPrivateKey signerAddress 0]
          /\ ix_limit ix = 1000)
  /\ (forall status result,
        confirms h status -> outcome r = inr result ->
        match FlowOperations.findOfType "flow.AccountCreated" (st_events status) with
        | Some e => exists d, event_data e = Some d
                              /\ result !! "address" = Some (get d "address")
        | None => result !! "address" = Some JsUndefined
        end).
Proof.
  intros r. unfold r, FlowOperations.createAccountFromPublicKey.
  split; [|split].
  - intros e He. rewrite He. reflexivity.
  - intros ix Hsub. pattern ix. eapply sends_run; [|exact Hsub].
    apply sends_liftE_mbind. intros encoded He.
    apply (sends_signed _ testnet proposer payer
             (fun pa py kh => {| Flow.tx_code := _; Flow.tx_args := _;
                                 Flow.tx_proposer := pa; Flow.tx_authorizations := _;
                                 Flow.tx_payer := py; Flow.tx_keyHash := kh |})).
    + intros pa py kh. exists encoded. repeat split. exact He.
    + intros result. apply sends_mbind; [apply sends_liftE|]. intros; exact I.
  - intros status result Hconf Hout.
    destruct (run h _ w) as [[w' t] res] eqn:Hrun. cbn [outcome snd] in Hout. subst res.
    apply run_mbind_inr in Hrun as (w1 & t1 & encoded & t1' & _ & Hrun & _).
    destruct (signed_returns testnet proposer payer
                (fun pa py kh => {| Flow.tx_code := _; Flow.tx_args := _;
                                    Flow.tx_proposer := pa; Flow.tx_authorizations := _;
                                    Flow.tx_payer := py; Flow.tx_keyHash := kh |})
                _ w1 w' t1' result status Hconf Hrun) as (response & w2 & Hk).
    apply (liftE_returns _ (fun address : JsVal =>
             ({[ "txId" := transactionId response; "address" := address ]} : obj))
             w2 w2 []) in Hk as (address & Haddr & ->).
    unfold FlowOperations.createdAddress in Haddr. cbn [Flow.events] in Haddr.
    destruct (FlowOperations.findOfType _ _) as [e|].
    + unfold FlowOperations.dataProperty in Haddr.
      destruct (event_data e) as [d|] eqn:Ed; [|discriminate].
      inversion Haddr. exists d. split; [reflexivity|].
      rewrite lookup_insert_ne by discriminate. apply lookup_insert_eq.
    + inversion Haddr. rewrite lookup_insert_ne by discriminate. apply lookup_insert_eq.
Qed.

(** X24. A key is added with the weight the caller gives and with weight
    0 when the caller gives none: the script is submitted with the encoded
    public key as its only argument, authorized by the local signer of the
    signer's key and address. The address returned is the [address] in the
    data of the first event of the confirmation; when the confirmation
    has no events the call does not return, the transaction sealed or not. *)
Theorem addPublicKeyToAccount_behaviour
    (w : world S) (testnet : bool) (publicKey signerAddress signerPrivateKey : JsVal)
    (weight : option Z) (proposer payer : option callback) :
  let r := run h (FlowOperations.addPublicKeyToAccount
                    prepareAddPublicKeyToAccountTxTemplate encodeKey event_data testnet publicKey signerAddress
                    signerPrivateKey weight proposer payer) w in
  let given := match weight with Some n => n | None => 0 end in
  (forall ix, submitted (trace r) = Some ix ->
     exists encoded,
       encodeKey publicKey given = inr encoded
       /\ ix_code ix = prepareAddPublicKeyToAccountTxTemplate
       /\ ix_args ix = [sentArg (JsString encoded) "String"]
       /\ ix_authorizations ix = [LocalSigner signerPrivateKey signerAddress 0]
       /\ ix_limit ix = 1000)
  /\ (forall status result,
        confirms h status -> outcome r = inr result ->
        exists e rest d,
          st_events status = e :: rest
          /\ event_data e = Some d
          /\ result !! "address" = Some (get d "address"))
  /\ (forall status,
        confirms h status -> st_events status = [] ->
        forall result, outcome r <> inr result).
Proof.
  intros r given.
  assert (Hret : forall status result,
            confirms h status -> outcome r = inr result ->
            exists e rest d,
              st_events status = e :: rest
              /\ event_data e = Some d
              /\ result !! "address" = Some (get d "address")).
  { intros status result Hconf Hout. unfold r in Hout.
    destruct (run h _ w) as [[w' t] res] eqn:Hrun. cbn [outcome snd] in Hout. subst res.
    unfold FlowOperations.addPublicKeyToAccount in Hrun.
    apply run_mbind_inr in Hrun as (w1 & t1 & encoded & t1' & _ & Hrun & _).
    destruct (signed_returns testnet proposer payer
                (fun pa py kh => {| Flow.tx_code := _; Flow.tx_args := _;
                                    Flow.tx_proposer := pa; Flow.tx_authorizations := _;
                                    Flow.tx_payer := py; Flow.tx_keyHash := kh |})
                _ w1 w' t1' result status Hconf Hrun) as (response & w2 & Hk).
    apply (liftE_returns _ (fun address : JsVal =>
             ({[ "txId" := transactionId response; "address" := address ]} : obj))
             w2 w2 []) in Hk as (address & Haddr & ->).
    unfold FlowOperations.firstEventAddress in Haddr. cbn [Flow.events] in Haddr.
    destruct (st_events status) as [|e rest]; [discriminate|].
    unfold FlowOperations.dataProperty in Haddr.
    destruct (event_data e) as [d|] eqn:Ed; [|discriminate].
    inversion Haddr. exists e, rest, d. split; [reflexivity|]. split; [exact Ed|].
    rewrite lookup_insert_ne by discriminate. apply lookup_insert_eq. }
  split; [|split; [exact Hret|]].
  - intros ix Hsub. pattern ix. eapply sends_run; [|exact Hsub].
    unfold FlowOperations.addPublicKeyToAccount.
    apply sends_liftE_mbind. intros encoded He.
    apply (sends_signed _ testnet proposer payer
             (fun pa py kh => {| Flow.tx_code := _; Flow.tx_args := _;
                                 Flow.tx_proposer := pa; Flow.tx_authorizations := _;
                                 Flow.tx_payer := py; Flow.tx_keyHash := kh |})).
    + intros pa py kh. exists encoded. repeat split.
      unfold given. destruct weight; exact He.
    + intros result. apply sends_mbind; [apply sends_liftE|]. intros; exact I.
  - intros status Hconf Hnone result Hout.
    destruct (Hret status result Hconf Hout) as (e & rest & d & Hev & _).
    congruence.
Qed.

End OperationClaims.

(** ** Flow: scripts *)

Section Scripts.
Context {S : Type} (h : FlowScripts.answers S).
Variable metadataNftTokenScript : bool -> string.
Variable tokenByAddressNftTokenScript : bool -> string.

(** X25. The two NFT queries run their script on the access node of the
    network: the node is configured, the script is sent with its arguments
    (the account as an [Address], the token id as a [UInt64] read by
    [parseInt], the contract address or token type as a [String]) and the
    response is decoded; the decoded value is the result. A call that is
    rejected ends the query with that rejection as it is, not wrapped in a
    [FlowSdkError], and nothing is decoded when the script was not
    accepted. No proposal key is involved. *)
Theorem nft_queries_run
    (s : S) (testnet : bool) (account id contractAddress tokenType : JsVal) :
  let configure := FlowScripts.Config_put "accessNode.api" (Flow.networkUrl testnet) in
  let query (code : string) (sent : list FlowScripts.scriptArg) :=
    let send := FlowScripts.Send_script code sent in
    let '(s1, configured) := h _ configure s in
    match configured with
    | inl reason => (s1, [FlowScripts.Made configure], inl (Rejected reason))
    | inr _ =>
        let '(s2, answered) := h _ send s1 in
        match answered with
        | inl reason =>
            (s2, [FlowScripts.Made configure; FlowScripts.Made send], inl (Rejected reason))
        | inr response =>
            let '(s3, decoded) := h _ (FlowScripts.Decode response) s2 in
            (s3, [FlowScripts.Made configure; FlowScripts.Made send;
                  FlowScripts.Made (FlowScripts.Decode response)],
             settle decoded)
        end
    end in
  FlowScripts.exec h (FlowScripts.getNftMetadata metadataNftTokenScript testnet account id
                        contractAddress) s
  = query (metadataNftTokenScript testnet)
      [ {| FlowScripts.sa_value := account; FlowScripts.sa_type := "Address" |};
        {| FlowScripts.sa_value := JsNumber (parseInt (ToString id));
           FlowScripts.sa_type := "UInt64" |};
        {| FlowScripts.sa_value := contractAddress; FlowScripts.sa_type := "String" |} ]
  /\ FlowScripts.exec h (FlowScripts.getNftTokenByAddress tokenByAddressNftTokenScript
                           testnet account tokenType) s
     = query (tokenByAddressNftTokenScript testnet)
         [ {| FlowScripts.sa_value := account; FlowScripts.sa_type := "Address" |};
           {| FlowScripts.sa_value := tokenType; FlowScripts.sa_type := "String" |} ].
Proof.
  intros configure query. unfold query.
  split;
    unfold FlowScripts.getNftMetadata, FlowScripts.getNftTokenByAddress,
      FlowScripts.sendScript, FlowScripts.wait;
    unfold mbind, FlowScripts.script_bind;
    cbn [FlowScripts.andThen FlowScripts.exec map Flow.UInt64ArgValue arg_type arg_value
         String.eqb Ascii.eqb Bool.eqb];
    fold configure;
    destruct (h _ configure s) as [s1 [reason|[]]]; cbn [settle FlowScripts.andThen
      FlowScripts.exec]; try reflexivity;
    destruct (h _ (FlowScripts.Send_script _ _) s1) as [s2 [reason|response]];
      cbn [settle FlowScripts.andThen FlowScripts.exec]; try reflexivity;
    destruct (h _ (FlowScripts.Decode response) s2) as [s3 [reason|decoded]];
      reflexivity.
Qed.

End Scripts.

(** ** The further properties on sample requests *)


Lemma UInt64ArgValue_reads_integer_witness :
  Flow.UInt64ArgValue {| arg_type := "UInt64"; arg_subType := None;
                         arg_value := JsString "42" |}
  = JsNumber (of_Z 42).
Proof.
  refine (proj1 (UInt64ArgValue_reads_integer _ 42 _ _ _)).
  - reflexivity.
  - reflexivity.
  - lia.
Defined.

Lemma registered_proposal_key_is_released_witness :
  trace (run signKeyHandler
           (Flow.apiSigner (D := sampleDeps) false 1700000000000 ≫= fun _ =>
            Flow.releaseProposalKey (JsString "f00d")
              (JsString (Flow.proposalKeyName 1700000000000)))
           emptyWorld)
  = [ Called (FlowBlockchain_getSignKey false);
      Called (FlowBlockchain_broadcast (JsString "f00d") JsUndefined (JsNumber (of_Z 7))) ].
Proof.
  apply (registered_proposal_key_is_released (D := sampleDeps) signKeyHandler emptyWorld
           1700000000000 (JsString "f00d") {| sk_address := "0x01"; sk_keyId := 7 |} ∅ tt).
  reflexivity.
Defined.

Lemma releaseProposalKey_without_entry_witness :
  trace (run (flowHandler false false)
           (Flow.releaseProposalKey (JsString "f00d") (JsString "FLOW_PROPOSAL_KEY_1"))
           emptyWorld)
  = [Called (FlowBlockchain_broadcast (JsString "f00d") JsUndefined
               (JsNumber (S754_zero false)))].
Proof.
  refine (proj1 (releaseProposalKey_without_entry (flowHandler false false) emptyWorld
                   (JsString "f00d") "FLOW_PROPOSAL_KEY_1" _ _)).
  - discriminate.
  - left. reflexivity.
Defined.

Lemma flow_submission_rejected_witness :
  outcome (run (flowHandler true false) (Flow._sendTransaction true sampleTransaction)
             emptyWorld)
  = inl (FlowSdkErrorOfExn (Rejected (Prim (JsString "access node unavailable")))).
Proof.
  rewrite (flow_submission_rejected (flowHandler true false) emptyWorld true
             sampleTransaction ∅ (runSigner (ApiSigner false 1700000000000) ∅) tt tt
             (Prim (JsString "access node unavailable"))).
  - vm_compute. reflexivity.
  - reflexivity.
  - reflexivity.
Defined.

Lemma flow_after_submission_witness :
  outcome (run (flowHandler false false) (Flow._sendTransaction true sampleTransaction)
             emptyWorld)
  = inr {| Flow.id := JsString "f00d"; Flow.events := [] |}.
Proof.
  rewrite (flow_after_submission (flowHandler false false) emptyWorld true
             sampleTransaction ∅ (runSigner (ApiSigner false 1700000000000) ∅)
             (runSigner (ApiSigner false 1700000000000) ∅) tt tt tt
             {| transactionId := JsString "f00d"; resp_handle := 1 |}
             (inr {| st_error := JsString ""; st_events := [] |})).
  - vm_compute. reflexivity.
  - reflexivity.
  - reflexivity.
  - reflexivity.
Defined.

Lemma flowHandler_fulfils_release : releaseFulfilled (flowHandler false false).
Proof. intros txData signatureId key env s. eexists _, _. reflexivity. Defined.

Lemma proposal_key_entry_removed_when_released_witness :
  process_env (finalWorld (run (flowHandler false false)
                             (Flow._sendTransaction true sampleTransaction) emptyWorld))
    !! "FLOW_PROPOSAL_KEY_1700000000000" = None.
Proof.
  apply (proposal_key_entry_removed_when_released (flowHandler false false) true
           sampleTransaction "FLOW_PROPOSAL_KEY_1700000000000" emptyWorld).
  - exact flowHandler_fulfils_release.
  - reflexivity.
  - discriminate.
  - vm_compute. discriminate.
Defined.

Lemma sendTransaction_needs_key_witness :
  run (flowHandler false false)
    (Flow.sendTransaction (D := sampleDeps) true
       (delete "privateKey" (transferFlowBody "1.5")) None None) emptyWorld
  = (emptyWorld, [], inl (FlowSdkErrorOfCode FLOW_MISSING_MNEMONIC)).
Proof.
  refine (proj2 (proj2 (sendTransaction_needs_key (D := sampleDeps) (flowHandler false false)
                          emptyWorld true (delete "privateKey" (transferFlowBody "1.5"))
                          None None)) _ _).
  - vm_compute. reflexivity.
  - vm_compute. reflexivity.
Defined.

Lemma sendTransaction_custom_signers_witness :
  firstn 3 (trace (run (flowHandler false false)
                     (Flow.sendTransaction (D := sampleDeps) true (transferFlowBody "1.5")
                        (Some (11 : callback)) (Some (12 : callback))) emptyWorld))
  = [Called (Invoke 11 false); Called (Invoke 11 false); Called (Invoke 12 true)].
Proof.
  rewrite (sendTransaction_custom_signers (D := sampleDeps) (flowHandler false false)
             emptyWorld true (transferFlowBody "1.5") 11 12
             {| cb_value := 11; cb_signer := 11; cb_keyHash := JsUndefined |}
             {| cb_value := 11; cb_signer := 11; cb_keyHash := JsUndefined |}
             {| cb_value := 12; cb_signer := 12; cb_keyHash := JsUndefined |}
             ∅ ∅ ∅ tt tt tt).
  - reflexivity.
  - vm_compute. reflexivity.
  - reflexivity.
  - reflexivity.
  - reflexivity.
Defined.

Lemma sendTransaction_api_signers_witness :
  firstn 2 (trace (run (flowHandler false false)
                     (Flow.sendTransaction (D := sampleDeps) true (transferFlowBody "1.5")
                        None None) emptyWorld))
  = [Called Date_now; Called Date_now].
Proof.
  rewrite (sendTransaction_api_signers (D := sampleDeps) (flowHandler false false)
             emptyWorld true (transferFlowBody "1.5") 1700000000000 1700000000000
             ∅ ∅ tt tt).
  - reflexivity.
  - vm_compute. reflexivity.
  - reflexivity.
  - reflexivity.
Defined.

Lemma getPrivateKey_integer_index_witness :
  trace (run (flowHandler false false) (Flow.getPrivateKey (mnemonicBody 3)) emptyWorld)
  = [Called (FlowWallet_generatePrivateKeyFromMnemonic
               (JsString "urge pulp usage sister evidence arrest palm math please chief egg abuse")
               (JsNumber (of_Z 3)))].
Proof.
  refine (proj1 (getPrivateKey_integer_index (flowHandler false false) emptyWorld
                   (mnemonicBody 3) 3 _ _ _ _)).
  - vm_compute. reflexivity.
  - vm_compute. reflexivity.
  - vm_compute. reflexivity.
  - split; vm_compute; reflexivity.
Defined.

Lemma approve_prepared_call_witness :
  let w := worldWith (approveBody "1.5") in
  let r := run (custodialHandler 6)
             (Custodial.approveFromCustodialWallet (D := sampleDeps) 1%positive JsUndefined) w in
  let b : obj :=
    <["contractAddress" := JsString "0x009bc01b990e2781e8a961fd792f4ebb12a683b2"]>
      (delete "amount" (approveBody "1.5")) in
  let ps := Custodial.approveParams (D := sampleDeps) (approveBody "1.5")
              (JsString "0x2791bca1f2de4661ed88a30c99a7a9449aa84174") 6 in
  preparedCall (trace r) = Some (b, "approve", ps, JsUndefined, CustodialFullTokenWallet_abi)
  /\ b !! "contractAddress" = Some (JsString "0x009bc01b990e2781e8a961fd792f4ebb12a683b2")
  /\ b !! "amount" = None
  /\ ps !! 2%nat = Some (JsString "0x8cb76aed9c5e336ef961265c6079c14e9cd3d2ea").
Proof.
  intros w r b ps.
  assert (Hp : preparedCall (trace r)
               = Some (b, "approve", ps, JsUndefined, CustodialFullTokenWallet_abi))
    by (vm_compute; reflexivity).
  split; [exact Hp|].
  destruct (approve_prepared_call (D := sampleDeps) (custodialHandler 6) w 1%positive
              JsUndefined b "approve" ps JsUndefined CustodialFullTokenWallet_abi Hp)
    as (_ & _ & _ & Hb & Hamount & _ & _ & _ & _ & Hspender).
  split; [rewrite Hb; vm_compute; reflexivity|].
  split; [exact Hamount|]. rewrite Hspender. vm_compute. reflexivity.
Defined.

Lemma approve_tokenId_parameter_witness :
  let body : obj := <["tokenId" := JsString "255"]> (approveBody "1.5") in
  let w := worldWith body in
  let r := run (custodialHandler 6)
             (Custodial.approveFromCustodialWallet (D := sampleDeps) 1%positive JsUndefined) w in
  let b : obj :=
    <["contractAddress" := JsString "0x009bc01b990e2781e8a961fd792f4ebb12a683b2"]>
      (delete "amount" body) in
  let ps := Custodial.approveParams (D := sampleDeps) body
              (JsString "0x2791bca1f2de4661ed88a30c99a7a9449aa84174") 6 in
  preparedCall (trace r) = Some (b, "approve", ps, JsUndefined, CustodialFullTokenWallet_abi)
  /\ ps !! 4%nat = Some (JsString "0xff").
Proof.
  intros body w r b ps.
  assert (Hp : preparedCall (trace r)
               = Some (b, "approve", ps, JsUndefined, CustodialFullTokenWallet_abi))
    by (vm_compute; reflexivity).
  split; [exact Hp|].
  destruct (approve_tokenId_parameter (D := sampleDeps) (custodialHandler 6) w 1%positive
              JsUndefined b "approve" ps JsUndefined CustodialFullTokenWallet_abi Hp)
    as [_ Hid].
  rewrite (Hid 255); vm_compute; reflexivity.
Defined.

Lemma approve_without_token_address_witness :
  let w := worldWith (delete "tokenAddress" (approveBody "1.5")) in
  let r := run (custodialHandler 6)
             (Custodial.approveFromCustodialWallet (D := sampleDeps) 1%positive JsUndefined) w in
  heap (finalWorld r) = heap w /\ preparedCall (trace r) = None.
Proof.
  intros w r.
  destruct (approve_without_token_address (D := sampleDeps) (custodialHandler 6) w
              1%positive JsUndefined) as (Hheap & Hnone & _).
  - vm_compute. reflexivity.
  - split; [exact Hheap | exact Hnone].
Defined.

Lemma custodial_fees_covered_batch_outcome_witness :
  outcome (run (apiHandler (Object {[ "txId" := JsString "0x9a" ]}))
             (Custodial.send.custodialWalletBatch 1%positive
                JsUndefined JsUndefined)
             (worldWith feesCoveredBody))
  = inr (Prim (JsString "0x9a")).
Proof.
  rewrite (custodial_fees_covered_batch_outcome
             (apiHandler (Object {[ "txId" := JsString "0x9a" ]}))
             (worldWith feesCoveredBody) 1%positive JsUndefined JsUndefined
             ∅ tt (inr (Object {[ "txId" := JsString "0x9a" ]}))).
  - vm_compute. reflexivity.
  - vm_compute. reflexivity.
  - reflexivity.
Defined.

Lemma custodial_send_without_signatureId_witness :
  let w := worldWith (approveBody "1.5") in
  trace (run (custodialHandler 6)
           (Custodial.send.transferFromCustodialWallet 1%positive
              JsUndefined (JsBool true)) w)
  = [ Called (PrepareTransferFromCustodialWalletAbstract (approveBody "1.5") 18
                (JsBool true) JsUndefined);
      Called (BroadcastFunction (JsString "0xf86d")) ].
Proof.
  intros w.
  assert (Hno : ToBoolean (get (deref (heap w) 1%positive) "signatureId") = false)
    by (vm_compute; reflexivity).
  rewrite (proj1 (custodial_send_without_signatureId (custodialHandler 6)
                    w 1%positive JsUndefined (JsBool true) Hno)).
  reflexivity.
Defined.

Lemma custodial_send_approve_without_signatureId_witness :
  let w := worldWith (approveBody "1.5") in
  outcome (run (custodialHandler 6)
             (Custodial.send.approveFromCustodialWallet (D := sampleDeps) 1%positive
                JsUndefined) w)
  = inr (Object {[ "txId" := JsString "0x9a" ]}).
Proof.
  intros w.
  rewrite (custodial_send_approve_without_signatureId (D := sampleDeps) (custodialHandler 6)
             w 1%positive JsUndefined).
  - vm_compute. reflexivity.
  - vm_compute. reflexivity.
Defined.

Lemma sealingHandler_confirms (events : list obj) :
  confirms (sealingHandler events) {| st_error := JsString ""; st_events := events |}.
Proof. intros response env s. reflexivity. Defined.

Lemma flow_operations_need_key_witness :
  run (sealingHandler [])
    (FlowOperations.sendNftTransferToken (D := sampleDeps) (sampleTemplate "transfer NFT")
       true (delete "privateKey" nftBody) None None) emptyWorld
  = (emptyWorld, [], inl (FlowSdkErrorOfCode FLOW_MISSING_MNEMONIC)).
Proof.
  exact (proj1 (proj2 (flow_operations_need_key (D := sampleDeps) (sealingHandler [])
                         (sampleTemplate "mint NFT") (sampleTemplate "transfer NFT")
                         (sampleTemplate "burn NFT") sampleEventData
                         emptyWorld true (delete "privateKey" nftBody) "" [] None None))).
Defined.

Lemma nft_operations_submission_witness :
  let r := run (sealingHandler [])
             (FlowOperations.sendNftTransferToken (D := sampleDeps)
                (sampleTemplate "transfer NFT") true nftBody None None) emptyWorld in
  exists ix,
    submitted (trace r) = Some ix
    /\ ix_code ix = "transfer NFT on testnet"
    /\ ix_args ix = [ sentArg (JsString "0xABC") "Address";
                      sentArg (JsNumber (of_Z 42)) "UInt64" ].
Proof.
  intros r.
  assert (Hsub : exists ix, submitted (trace r) = Some ix)
    by (eexists; vm_compute; reflexivity).
  destruct Hsub as [ix Hsub]. exists ix. split; [exact Hsub|].
  destruct (proj1 (proj2 (nft_operations_submission (D := sampleDeps) (sealingHandler [])
                            (sampleTemplate "mint NFT") (sampleTemplate "transfer NFT")
                            (sampleTemplate "burn NFT") sampleEventData
                            emptyWorld true nftBody None None ix)) Hsub)
    as (Hcode & Hargs & _).
  split.
  - rewrite Hcode. reflexivity.
  - rewrite Hargs. vm_compute. reflexivity.
Defined.



Lemma createAccountFromPublicKey_behaviour_witness :
  let r := run (sealingHandler [accountCreatedEvent])
             (FlowOperations.createAccountFromPublicKey
                (sampleTemplate "create account") sampleEncodeKey sampleEventData true
                (JsString "968c3ce1") (JsString "0x955cd3f17b2fd8ad") (JsString "37afa218")
                None None) emptyWorld in
  exists result,
    outcome r = inr result
    /\ result !! "address" = Some (JsString "0x955cd3f17b2fd8ad").
Proof.
  intros r.
  assert (Hout : exists result, outcome r = inr result)
    by (eexists; vm_compute; reflexivity).
  destruct Hout as [result Hout]. exists result. split; [exact Hout|].
  pose proof (proj2 (proj2 (createAccountFromPublicKey_behaviour
                              (sealingHandler [accountCreatedEvent])
                              (sampleTemplate "create account") sampleEncodeKey
                              sampleEventData emptyWorld true
                              (JsString "968c3ce1") (JsString "0x955cd3f17b2fd8ad")
                              (JsString "37afa218") None None))
                _ result (sealingHandler_confirms _) Hout) as Haddr.
  cbn in Haddr. destruct Haddr as (d & Hd & Haddr). inversion Hd. subst d.
  rewrite Haddr. vm_compute. reflexivity.
Defined.

Lemma addPublicKeyToAccount_behaviour_witness :
  match outcome (run (sealingHandler [])
                   (FlowOperations.addPublicKeyToAccount
                      "add key" sampleEncodeKey sampleEventData true
                      (JsString "968c3ce1") (JsString "0x955cd3f17b2fd8ad")
                      (JsString "37afa218") None None None) emptyWorld) with
  | inl _ => True
  | inr _ => False
  end.
Proof.
  pose proof (proj2 (proj2 (addPublicKeyToAccount_behaviour (sealingHandler [])
                              "add key" sampleEncodeKey sampleEventData emptyWorld true
                              (JsString "968c3ce1") (JsString "0x955cd3f17b2fd8ad")
                              (JsString "37afa218") None None None))
                _ (sealingHandler_confirms []) eq_refl) as Hnever.
  destruct (outcome _) as [e|result]; [exact I|].
  exact (Hnever result eq_refl).
Defined.
